(** * Leadership value cards: authentication, route handlers and the
    client's session

    A shallow embedding of [server/jwt-auth.ts] (password hashing, token
    issue and verification, the auth middleware, login and registration),
    of [server/routes.ts] (the HTTP handlers) and of the client's
    [lib/queryClient.ts], [hooks/use-auth.tsx], login page and
    submissions page, with the properties the specification states about
    them and further properties of the code.

    The JavaScript platform (strings, [parseInt], [Buffer], [crypto],
    [jsonwebtoken]) is modelled by the small functions of the first
    modules; the storage backend, the e-mail provider, the key derivation
    function, the MAC and the schema validators are collaborators and are
    taken as interfaces. *)

From Stdlib Require Import String Ascii List ZArith NArith Lia Bool.
From Stdlib Require Import Strings.Byte.
Import ListNotations.
Local Open Scope string_scope.

(* ================================================================== *)
(** ** JavaScript strings and numbers *)
(* ================================================================== *)

Module Js.

(** [s.split(sep)] for a one-character separator.  The result is never
    empty: [''.split('.')] is [['']]. *)
Fixpoint split (sep : ascii) (s : string) : list string :=
  match s with
  | EmptyString => [EmptyString]
  | String c rest =>
      if Ascii.eqb c sep then EmptyString :: split sep rest
      else match split sep rest with
           | [] => [String c EmptyString]
           | x :: xs => String c x :: xs
           end
  end.

(** [parts.join(sep)]. *)
Fixpoint join (sep : string) (parts : list string) : string :=
  match parts with
  | [] => EmptyString
  | [x] => x
  | x :: rest => x ++ sep ++ join sep rest
  end.

(** [sep] does not occur in [s]. *)
Fixpoint lacks (sep : ascii) (s : string) : bool :=
  match s with
  | EmptyString => true
  | String c rest => negb (Ascii.eqb c sep) && lacks sep rest
  end.

(** Truthiness of a string: only [''] is falsy. *)
Definition truthy (s : string) : bool := negb (String.eqb s EmptyString).

(** Truthiness of [string | undefined]. *)
Definition truthy_opt (s : option string) : bool :=
  match s with
  | None => false
  | Some x => truthy x
  end.

(** A JavaScript number as far as [parseInt] and [isNaN] are concerned:
    [NaN] or an integer.  The integer is the exact value of the digits
    read; the rounding to a double of values beyond 2^53 is not
    represented. *)
Inductive Number :=
| NaN
| Int (z : Z).

Definition isNaN (n : Number) : bool :=
  match n with
  | NaN => true
  | Int _ => false
  end.

(** White space that [parseInt] skips, among the code units below 256:
    TAB, LF, VT, FF, CR, SP and NBSP. *)
Definition isWhiteSpace (c : ascii) : bool :=
  let n := nat_of_ascii c in
  (Nat.eqb n 9 || Nat.eqb n 10 || Nat.eqb n 11 || Nat.eqb n 12
   || Nat.eqb n 13 || Nat.eqb n 32 || Nat.eqb n 160)%bool.

Fixpoint trimStart (s : string) : string :=
  match s with
  | EmptyString => EmptyString
  | String c rest => if isWhiteSpace c then trimStart rest else s
  end.

(** [s.trim() === '']: every character of [s] is white space. *)
Fixpoint isBlank (s : string) : bool :=
  match s with
  | EmptyString => true
  | String c rest => isWhiteSpace c && isBlank rest
  end.

(** The value of a digit in radix up to 36: [0-9], [a-z], [A-Z]. *)
Definition digitValue (c : ascii) : option Z :=
  let n := Z.of_nat (nat_of_ascii c) in
  if ((48 <=? n) && (n <=? 57))%Z then Some (n - 48)%Z
  else if ((97 <=? n) && (n <=? 122))%Z then Some (n - 87)%Z
  else if ((65 <=? n) && (n <=? 90))%Z then Some (n - 55)%Z
  else None.

(** The value of the longest prefix of [s] made of digits of [radix];
    [acc] is the value read so far, [None] when no digit was read. *)
Fixpoint readDigits (radix : Z) (s : string) (acc : option Z) : option Z :=
  match s with
  | EmptyString => acc
  | String c rest =>
      match digitValue c with
      | Some d =>
          if (d <? radix)%Z
          then readDigits radix rest
                 (Some (radix * match acc with Some a => a | None => 0 end + d)%Z)
          else acc
      | None => acc
      end
  end.

(** [parseInt(s)] with no radix argument: leading white space is skipped,
    a sign is read, a [0x]/[0X] prefix selects radix 16, and the longest
    prefix of digits is the value; [NaN] when there is no digit. *)
Definition parseInt (s : string) : Number :=
  let s1 := trimStart s in
  let '(sign, s2) :=
    match s1 with
    | String c r =>
        if Ascii.eqb c "-" then ((-1)%Z, r)
        else if Ascii.eqb c "+" then (1%Z, r)
        else (1%Z, s1)
    | EmptyString => (1%Z, s1)
    end in
  let '(radix, s3) :=
    match s2 with
    | String c0 (String c1 r) =>
        if Ascii.eqb c0 "0" && (Ascii.eqb c1 "x" || Ascii.eqb c1 "X")
        then (16%Z, r)
        else (10%Z, s2)
    | _ => (10%Z, s2)
    end in
  match readDigits radix s3 None with
  | None => NaN
  | Some n => Int (sign * n)
  end.

(** [s.startsWith(prefix)]. *)
Fixpoint startsWith (prefix s : string) : bool :=
  match prefix, s with
  | EmptyString, _ => true
  | String _ _, EmptyString => false
  | String a p, String b r => Ascii.eqb a b && startsWith p r
  end.

(** [s.includes(needle)]. *)
Fixpoint includes (needle s : string) : bool :=
  startsWith needle s
  || match s with
     | EmptyString => false
     | String _ rest => includes needle rest
     end.

End Js.

(* ================================================================== *)
(** ** Node buffers: hexadecimal encoding *)
(* ================================================================== *)

Module Buffer.

Definition t := list byte.

Definition hexDigit (n : N) : ascii :=
  match n with
  | 0%N => "0" | 1%N => "1" | 2%N => "2" | 3%N => "3"
  | 4%N => "4" | 5%N => "5" | 6%N => "6" | 7%N => "7"
  | 8%N => "8" | 9%N => "9" | 10%N => "a" | 11%N => "b"
  | 12%N => "c" | 13%N => "d" | 14%N => "e" | _ => "f"
  end%char.

Definition hexOfByte (b : byte) : string :=
  let n := Byte.to_N b in
  String (hexDigit (n / 16)) (String (hexDigit (n mod 16)) EmptyString).

(** [buf.toString('hex')]: two lower-case digits per byte. *)
Fixpoint toString_hex (buf : t) : string :=
  match buf with
  | [] => EmptyString
  | b :: rest => hexOfByte b ++ toString_hex rest
  end.

Definition hexValue (c : ascii) : option N :=
  match Js.digitValue c with
  | Some d => if (d <? 16)%Z then Some (Z.to_N d) else None
  | None => None
  end.

(** [Buffer.from(s, 'hex')]: pairs of hexadecimal digits are decoded until
    the first pair that is not one; a trailing single character is
    dropped. *)
Fixpoint from_hex (s : string) : t :=
  match s with
  | String a (String b rest) =>
      match hexValue a, hexValue b with
      | Some h, Some l =>
          match Byte.of_N (h * 16 + l) with
          | Some x => x :: from_hex rest
          | None => []
          end
      | _, _ => []
      end
  | _ => []
  end.

Definition eqb (a b : t) : bool :=
  if list_eq_dec Byte.byte_eq_dec a b then true else false.

End Buffer.


(* ================================================================== *)
(** ** Thrown values, outcomes and JSON *)
(* ================================================================== *)

(** The error classes the handlers tell apart or that the platform
    functions throw. *)
Inductive ErrorClass :=
| TypeError
| RangeError
| ZodError
| JsonWebTokenError
| TokenExpiredError
| PlainError.

(** A thrown value: an [Error] object of some class with its message, or
    any other value ([error instanceof Error] is false on it). *)
Inductive Exn :=
| ErrorObject (cls : ErrorClass) (message : string)
| ThrownValue (v : string).

(** The result of running a call that may throw (an awaited promise that
    may reject). *)
Inductive outcome (A : Type) :=
| Ok (a : A)
| Throw (e : Exn).
Arguments Ok {A} a.
Arguments Throw {A} e.

#[warnings="-register-all"]
Inductive Json :=
| JNull
| JBool (b : bool)
| JNum (z : Z)
| JStr (s : string)
| JArr (items : list Json)
| JObj (fields : list (string * Json)).

(** ** Data model ([shared/schema]) *)

Record User := mkUser {
  user_id : Z;
  user_username : string;
  user_password : string
}.

Record InsertUser := mkInsertUser {
  iu_username : string;
  iu_password : string
}.

Record LeadershipValue := mkLeadershipValue {
  lv_id : Z;
  lv_value : string;
  lv_description : string
}.

Record InsertLeadershipValue := mkInsertLeadershipValue {
  ilv_value : string;
  ilv_description : string
}.

(** The [coreValues] column as the export handler sees it: an array of
    strings, or anything else ([Array.isArray] is false). *)
Inductive CoreValues :=
| CvArray (values : list string)
| CvNotArray.

Record Submission := mkSubmission {
  sub_id : Z;
  sub_name : string;
  sub_email : string;
  sub_companyCode : option string;
  sub_coreValues : CoreValues;
  sub_createdAt : Z
}.

Record InsertSubmission := mkInsertSubmission {
  is_name : string;
  is_email : string;
  is_companyCode : option string;
  is_coreValues : list string
}.

(** ** The e-mail collaborator ([server/email]) *)

Record Attachment := mkAttachment {
  att_filename : string;
  att_content : Buffer.t
}.

Record EmailParams := mkEmailParams {
  em_to : string;
  em_subject : string;
  em_html : string;
  em_attachments : list Attachment
}.

Record SendResult := mkSendResult {
  sr_success : bool;
  sr_error : option Json
}.

(* ================================================================== *)
(** ** Collaborators *)
(* ================================================================== *)

(** The storage backend ([server/storage]), over the state [St] of
    everything outside the process.  Every call may throw and may change
    the state. *)
Class IStorage (St : Type) := {
  getUser : Z -> St -> outcome (option User) * St;
  getUserByUsername : string -> St -> outcome (option User) * St;
  createUser : InsertUser -> St -> outcome User * St;
  getAllLeadershipValues : St -> outcome (list LeadershipValue) * St;
  getLeadershipValueById : Z -> St -> outcome (option LeadershipValue) * St;
  createLeadershipValue : InsertLeadershipValue -> St -> outcome LeadershipValue * St;
  updateLeadershipValue : Z -> InsertLeadershipValue -> St -> outcome (option LeadershipValue) * St;
  deleteLeadershipValue : Z -> St -> outcome unit * St;
  createSubmission : InsertSubmission -> St -> outcome Submission * St;
  getAllSubmissions : St -> outcome (list Submission) * St;
  getSubmissionsByCompanyCode : string -> St -> outcome (list Submission) * St;
  getUniqueCompanyCodes : St -> outcome (list string) * St
}.

(** The e-mail provider ([server/email]), over the same outside state. *)
Class Mailer (St : Type) := {
  sendEmail : EmailParams -> St -> outcome SendResult * St
}.

(** [crypto.scrypt(password, salt, keylen)], the key derivation
    function. *)
Class Crypto := {
  scrypt : string -> string -> nat -> Buffer.t
}.

(** The signature algorithm named by a token's header. *)
Inductive Alg :=
| HS256
| HS384
| HS512
| OtherAlg.

(** The payload of a token: the claims [generateToken] signs, with the
    [iat] and [exp] that [jsonwebtoken] adds (seconds). *)
Record Claims := mkClaims {
  userId : Z;
  username : string;
  iat : Z;
  exp : option Z
}.

(** The primitives of [jsonwebtoken]: the MAC (its output is the
    base64url signature segment) and the base64url JSON coding of the
    header and payload segments. *)
Class Jws := {
  hmac : Alg -> string -> string -> string;
  encodeHeader : Alg -> string;
  decodeHeader : string -> option Alg;
  encodeClaims : Claims -> string;
  decodeClaims : string -> option Claims
}.

(** What the handlers take from the rest of the platform: the process
    environment, date formatting, base64, the zod schemas of
    [shared/schema] and [extractFirstName] of [lib/utils]. *)
Class Platform := {
  env_JWT_SECRET : option string;
  toISOString : Z -> string;
  toLocaleDateString : Z -> string;
  base64_decode : string -> Buffer.t;
  insertSubmissionSchema_parse : Json -> outcome InsertSubmission;
  insertLeadershipValueSchema_parse : Json -> outcome InsertLeadershipValue;
  fromZodError : Exn -> string;
  extractFirstName : string -> string
}.

(* ================================================================== *)
(** ** The world a request runs in, and the monad of handlers *)
(* ================================================================== *)

(** What a handler can read or change: the outside state (storage, mail
    provider), the clock ([Date.now()], milliseconds), [process.uptime()],
    the bytes [randomBytes] is going to return, and what was written with
    [console.error]. *)
Record World (St : Type) := mkWorld {
  w_store : St;
  w_now : Z;
  w_uptime : Z;
  w_random : nat -> byte;
  w_random_pos : nat;
  w_console : list (string * Exn)
}.
Arguments mkWorld {St}.
Arguments w_store {St}.
Arguments w_now {St}.
Arguments w_uptime {St}.
Arguments w_random {St}.
Arguments w_random_pos {St}.
Arguments w_console {St}.

(** An asynchronous computation: it runs in a world, returns or throws,
    and leaves a world. *)
Definition M (St A : Type) : Type := World St -> outcome A * World St.

Definition ret {St A} (a : A) : M St A := fun w => (Ok a, w).

Definition bind {St A B} (m : M St A) (k : A -> M St B) : M St B :=
  fun w =>
    match m w with
    | (Ok a, w') => k a w'
    | (Throw e, w') => (Throw e, w')
    end.

Definition throw {St A} (e : Exn) : M St A := fun w => (Throw e, w).

(** [try { body } catch (error) { handler(error) }]. *)
Definition try_catch {St A} (body : M St A) (handler : Exn -> M St A) : M St A :=
  fun w =>
    match body w with
    | (Ok a, w') => (Ok a, w')
    | (Throw e, w') => handler e w'
    end.

(** The world with the outside state replaced. *)
Definition set_store {St} (w : World St) (s : St) : World St :=
  mkWorld s (w_now w) (w_uptime w) (w_random w) (w_random_pos w) (w_console w).

(** The world with one more line on the console. *)
Definition logged {St} (w : World St) (label : string) (e : Exn) : World St :=
  mkWorld (w_store w) (w_now w) (w_uptime w) (w_random w) (w_random_pos w)
    (w_console w ++ [(label, e)]).

(** A call to a collaborator. *)
Definition call {St A} (op : St -> outcome A * St) : M St A :=
  fun w =>
    let '(r, s') := op (w_store w) in
    (r, set_store w s').

(** A pure call that may throw. *)
Definition lift {St A} (r : outcome A) : M St A := fun w => (r, w).

(** [Date.now()]. *)
Definition Date_now {St} : M St Z := fun w => (Ok (w_now w), w).

(** [process.uptime()]. *)
Definition process_uptime {St} : M St Z := fun w => (Ok (w_uptime w), w).

(** [console.error(label, error)]. *)
Definition console_error {St} (label : string) (e : Exn) : M St unit :=
  fun w => (Ok tt, logged w label e).

(** [crypto.randomBytes(n)]: the next [n] bytes of the world's random
    source. *)
Definition randomBytes {St} (n : nat) : M St Buffer.t :=
  fun w =>
    (Ok (map (w_random w) (seq (w_random_pos w) n)),
     mkWorld (w_store w) (w_now w) (w_uptime w) (w_random w) (w_random_pos w + n)
       (w_console w)).

Declare Scope js_scope.
Delimit Scope js_scope with js.
Notation "x <- m ;; k" := (bind m (fun x => k))
  (at level 61, m at next level, right associativity) : js_scope.
Notation "m ;;; k" := (bind m (fun _ => k))
  (at level 61, right associativity) : js_scope.
Notation "'try' body 'catch' handler" := (try_catch body handler)
  (at level 62, body at level 61, handler at level 61) : js_scope.
Local Open Scope js_scope.

Definition dquote : string := String (ascii_of_nat 34) EmptyString.

(** The [TypeError] of [crypto.scrypt] on a salt that is [undefined]. *)
Definition ERR_INVALID_ARG_TYPE_salt : Exn :=
  ErrorObject TypeError
    ("The " ++ dquote ++ "salt" ++ dquote ++
     " argument must be of type string or an instance of ArrayBuffer, Buffer, TypedArray, or DataView. Received undefined").

(** The [RangeError] of [crypto.timingSafeEqual] on buffers of different
    lengths. *)
Definition ERR_CRYPTO_TIMING_SAFE_EQUAL_LENGTH : Exn :=
  ErrorObject RangeError "Input buffers must have the same byte length".

(* ================================================================== *)
(** ** HTTP requests and responses (Express) *)
(* ================================================================== *)

(** A request with path parameters of type [P] and a body of type [B]:
    the [authorization] header, the path parameters of the route, the
    query parameters, the parsed body and the user the auth middleware
    attaches. *)
Record Request (P B : Type) := mkRequest {
  req_authorization : option string;
  req_params : P;
  req_query : list (string * string);
  req_body : B;
  req_user : option User
}.
Arguments mkRequest {P B}.
Arguments req_authorization {P B}.
Arguments req_params {P B}.
Arguments req_query {P B}.
Arguments req_body {P B}.
Arguments req_user {P B}.

Inductive Body :=
| BJson (j : Json)
| BText (s : string).

(** A response: the status, the headers set with [res.setHeader], and the
    body sent with [res.json] or [res.send]. *)
Record Response := mkResponse {
  res_status : Z;
  res_headers : list (string * string);
  res_body : Body
}.

(** [res.status(code).json(j)]. *)
Definition status_json (code : Z) (j : Json) : Response :=
  mkResponse code [] (BJson j).

(** [res.json(j)]: status 200. *)
Definition res_json (j : Json) : Response := status_json 200 j.

Definition message (s : string) : Json := JObj [("message", JStr s)].

(** What a middleware does with a request: it answers, or it calls
    [next()] with the request it may have changed. *)
Inductive MwResult (P B : Type) :=
| Respond (r : Response)
| Next (req : Request P B).
Arguments Respond {P B} r.
Arguments Next {P B} req.

Fixpoint lookup (key : string) (l : list (string * string)) : option string :=
  match l with
  | [] => None
  | (k, v) :: rest => if String.eqb k key then Some v else lookup key rest
  end.

Definition json_of_user (u : User) : Json :=
  JObj [("id", JNum (user_id u));
        ("username", JStr (user_username u));
        ("password", JStr (user_password u))].

(* ================================================================== *)
(** ** [server/jwt-auth.ts] *)
(* ================================================================== *)

Section JwtAuth.

Context {St : Type} {storage : IStorage St} {crypto : Crypto} {jws : Jws} {platform : Platform}.

(** [process.env.JWT_SECRET || 'your-super-secret-jwt-key']. *)
Definition JWT_SECRET : string :=
  match env_JWT_SECRET with
  | Some s => if Js.truthy s then s else "your-super-secret-jwt-key"
  | None => "your-super-secret-jwt-key"
  end.

(** ['7d'], in seconds. *)
Definition JWT_EXPIRES_IN : Z := 604800.

(** [promisify(scrypt)(password, salt, keylen)]: a salt that is
    [undefined] is refused with a [TypeError]. *)
Definition scryptAsync (password : string) (salt : option string) (keylen : nat)
  : M St Buffer.t :=
  match salt with
  | None => throw ERR_INVALID_ARG_TYPE_salt
  | Some s => ret (scrypt password s keylen)
  end.

(** [crypto.timingSafeEqual(a, b)]: buffers of different lengths are
    refused with a [RangeError]. *)
Definition timingSafeEqual (a b : Buffer.t) : M St bool :=
  if Nat.eqb (length a) (length b) then ret (Buffer.eqb a b)
  else throw ERR_CRYPTO_TIMING_SAFE_EQUAL_LENGTH.

Definition hashPassword (password : string) : M St string :=
  saltBytes <- randomBytes 16 ;;
  let salt := Buffer.toString_hex saltBytes in
  buf <- scryptAsync password (Some salt) 64 ;;
  ret (Buffer.toString_hex buf ++ "." ++ salt).

Definition comparePasswords (supplied stored : string) : M St bool :=
  match Js.split "." stored with
  | [] => throw (ErrorObject TypeError "The first argument must be of type string")
  | hashed :: rest =>
      let salt := hd_error rest in
      let hashedBuf := Buffer.from_hex hashed in
      suppliedBuf <- scryptAsync supplied salt 64 ;;
      timingSafeEqual hashedBuf suppliedBuf
  end.

(** [jwt.sign(payload, secret, { expiresIn })] at clock [now]
    (milliseconds): the payload gets [iat] and [exp]; the token is the
    header, the payload and the MAC of the two, joined by dots. *)
Definition jwt_payload (uid : Z) (uname : string) (expiresIn : Z) (now : Z) : Claims :=
  let timestamp := (now / 1000)%Z in
  mkClaims uid uname timestamp (Some (timestamp + expiresIn)%Z).

Definition jwt_signingInput (payload : Claims) : string :=
  encodeHeader HS256 ++ "." ++ encodeClaims payload.

Definition jwt_sign (uid : Z) (uname : string) (secret : string) (expiresIn : Z) (now : Z)
  : string :=
  let signingInput := jwt_signingInput (jwt_payload uid uname expiresIn now) in
  signingInput ++ "." ++ hmac HS256 secret signingInput.

Definition isHmacAlg (a : Alg) : bool :=
  match a with
  | HS256 | HS384 | HS512 => true
  | OtherAlg => false
  end.

(** [jwt.verify(token, secret)] at clock [now] (milliseconds). *)
Definition jwt_verify (token : string) (secret : string) (now : Z) : outcome Claims :=
  if negb (Js.truthy token) then Throw (ErrorObject JsonWebTokenError "jwt must be provided")
  else
    match Js.split "." token with
    | [header; payload; signature] =>
        match decodeHeader header, decodeClaims payload with
        | Some alg, Some claims =>
            if Js.isBlank signature
            then Throw (ErrorObject JsonWebTokenError "jwt signature is required")
            else if negb (isHmacAlg alg)
            then Throw (ErrorObject JsonWebTokenError "invalid algorithm")
            else if negb (String.eqb signature (hmac alg secret (header ++ "." ++ payload)))
            then Throw (ErrorObject JsonWebTokenError "invalid signature")
            else
              match exp claims with
              | Some e =>
                  if (e <=? now / 1000)%Z
                  then Throw (ErrorObject TokenExpiredError "jwt expired")
                  else Ok claims
              | None => Ok claims
              end
        | _, _ => Throw (ErrorObject JsonWebTokenError "invalid token")
        end
    | _ => Throw (ErrorObject JsonWebTokenError "jwt malformed")
    end.

Definition generateToken (user : User) : M St string :=
  now <- Date_now ;;
  ret (jwt_sign (user_id user) (user_username user) JWT_SECRET JWT_EXPIRES_IN now).

Definition verifyToken (token : string) : M St (option Claims) :=
  try (now <- Date_now ;;
       decoded <- lift (jwt_verify token JWT_SECRET now) ;;
       ret (Some decoded))
  catch (fun _ => ret None).

(** The bearer token of a request:
    [authHeader && authHeader.split(' ')[1]]. *)
Definition bearerToken (authHeader : option string) : option string :=
  match authHeader with
  | None => None
  | Some h => if Js.truthy h then nth_error (Js.split " " h) 1 else Some h
  end.

Definition authenticateToken {P B} (req : Request P B) : M St (MwResult P B) :=
  let authHeader := req_authorization req in
  let token := bearerToken authHeader in
  match token with
  | Some tok =>
      if negb (Js.truthy tok)
      then ret (Respond (status_json 401 (message "Access token required")))
      else
        decoded <- verifyToken tok ;;
        match decoded with
        | None => ret (Respond (status_json 403 (message "Invalid or expired token")))
        | Some d =>
            try (user <- call (getUser (userId d)) ;;
                 match user with
                 | None => ret (Respond (status_json 403 (message "User not found")))
                 | Some u =>
                     ret (Next (mkRequest (req_authorization req) (req_params req)
                                  (req_query req) (req_body req) (Some u)))
                 end)
            catch (fun _ => ret (Respond (status_json 500 (message "Authentication error"))))
        end
  | None => ret (Respond (status_json 401 (message "Access token required")))
  end.

Definition loginUser (uname pass : string) : M St (option (User * string)) :=
  try (user <- call (getUserByUsername uname) ;;
       match user with
       | None => ret None
       | Some u =>
           same <- comparePasswords pass (user_password u) ;;
           if negb same then ret None
           else
             token <- generateToken u ;;
             ret (Some (u, token))
       end)
  catch (fun error => console_error "Login error:" error ;;; ret None).

Definition registerUser (uname pass : string) : M St (option (User * string)) :=
  try (existingUser <- call (getUserByUsername uname) ;;
       match existingUser with
       | Some _ => ret None
       | None =>
           hashedPassword <- hashPassword pass ;;
           user <- call (createUser (mkInsertUser uname hashedPassword)) ;;
           token <- generateToken user ;;
           ret (Some (user, token))
       end)
  catch (fun error => console_error "Registration error:" error ;;; ret None).

End JwtAuth.

(* ================================================================== *)
(** ** [server/routes.ts] *)
(* ================================================================== *)

(** The bodies and path parameters the handlers read, typed as the
    handlers use them. *)
Record Credentials := mkCredentials {
  cred_username : option string;
  cred_password : option string
}.

Record UserInfo := mkUserInfo {
  ui_email : option string;
  ui_name : option string
}.

Record CoreValueItem := mkCoreValueItem {
  cvi_value : string;
  cvi_description : string
}.

Record PdfEmailBody := mkPdfEmailBody {
  pe_pdfBase64 : option string;
  pe_userInfo : option UserInfo;
  pe_coreValues : option (list CoreValueItem)
}.

Record IdParams := mkIdParams { param_id : string }.
Record CompanyParams := mkCompanyParams { param_companyCode : string }.

Definition newline : string := String (ascii_of_nat 10) EmptyString.

Definition json_of_leadershipValue (v : LeadershipValue) : Json :=
  JObj [("id", JNum (lv_id v));
        ("value", JStr (lv_value v));
        ("description", JStr (lv_description v))].

Definition isZodError (e : Exn) : bool :=
  match e with
  | ErrorObject ZodError _ => true
  | _ => false
  end.

(** [error instanceof Error ? error.message : "Unknown error"]. *)
Definition errorMessage (e : Exn) : string :=
  match e with
  | ErrorObject _ m => m
  | ThrownValue _ => "Unknown error"
  end.

(** The decimal digits of a natural number ([`${index + 1}`]). *)
Fixpoint digitsOfNat (fuel n : nat) (acc : string) : string :=
  match fuel with
  | O => acc
  | S fuel' =>
      let acc' := String (ascii_of_nat (48 + Nat.modulo n 10)) acc in
      match Nat.div n 10 with
      | O => acc'
      | q => digitsOfNat fuel' q acc'
      end
  end.

Definition numToString (n : nat) : string := digitsOfNat (S n) n EmptyString.

(** [items.map((x, index) => f(x, index))] from index [i]. *)
Fixpoint mapi {A R} (f : A -> nat -> R) (i : nat) (items : list A) : list R :=
  match items with
  | [] => []
  | x :: rest => f x i :: mapi f (S i) rest
  end.

Section Routes.

Context {St : Type} {storage : IStorage St} {mailer : Mailer St} {crypto : Crypto} {jws : Jws} {platform : Platform}.

Definition json_of_submission (s : Submission) : Json :=
  JObj [("id", JNum (sub_id s));
        ("name", JStr (sub_name s));
        ("email", JStr (sub_email s));
        ("companyCode", match sub_companyCode s with Some c => JStr c | None => JNull end);
        ("coreValues", match sub_coreValues s with
                       | CvArray l => JArr (map JStr l)
                       | CvNotArray => JNull
                       end);
        ("createdAt", JStr (toISOString (sub_createdAt s)))].

(** A route registered with [authenticateToken] before its handler. *)
Definition withAuth {P B} (handler : Request P B -> M St Response) (req : Request P B)
  : M St Response :=
  r <- authenticateToken req ;;
  match r with
  | Respond resp => ret resp
  | Next req' => handler req'
  end.

(** [GET /] *)
Definition getRoot {P B} (req : Request P B) : M St Response :=
  now <- Date_now ;;
  ret (status_json 200 (JObj [("status", JStr "ok"); ("timestamp", JStr (toISOString now))])).

(** [GET /api/health] *)
Definition getHealth {P B} (req : Request P B) : M St Response :=
  try (call getAllLeadershipValues ;;;
       now <- Date_now ;;
       up <- process_uptime ;;
       ret (status_json 200
              (JObj [("status", JStr "healthy");
                     ("timestamp", JStr (toISOString now));
                     ("uptime", JNum up);
                     ("database", JStr "connected")])))
  catch (fun error =>
       console_error "Health check failed:" error ;;;
       now <- Date_now ;;
       up <- process_uptime ;;
       ret (status_json 503
              (JObj [("status", JStr "unhealthy");
                     ("timestamp", JStr (toISOString now));
                     ("uptime", JNum up);
                     ("database", JStr "disconnected");
                     ("error", JStr (errorMessage error))]))).

Definition authBody (result : User * string) : Json :=
  JObj [("user", json_of_user (fst result)); ("token", JStr (snd result))].

(** [POST /api/login] *)
Definition postLogin {P} (req : Request P Credentials) : M St Response :=
  try (match cred_username (req_body req), cred_password (req_body req) with
       | Some uname, Some pass =>
           if negb (Js.truthy uname) || negb (Js.truthy pass)
           then ret (status_json 400 (message "Username and password are required"))
           else
             result <- loginUser uname pass ;;
             match result with
             | None => ret (status_json 401 (message "Invalid credentials"))
             | Some r => ret (res_json (authBody r))
             end
       | _, _ => ret (status_json 400 (message "Username and password are required"))
       end)
  catch (fun error =>
       console_error "Login error:" error ;;;
       ret (status_json 500 (message "Internal server error"))).

(** [POST /api/register] *)
Definition postRegister {P} (req : Request P Credentials) : M St Response :=
  try (match cred_username (req_body req), cred_password (req_body req) with
       | Some uname, Some pass =>
           if negb (Js.truthy uname) || negb (Js.truthy pass)
           then ret (status_json 400 (message "Username and password are required"))
           else
             result <- registerUser uname pass ;;
             match result with
             | None => ret (status_json 400 (message "Username already exists"))
             | Some r => ret (status_json 201 (authBody r))
             end
       | _, _ => ret (status_json 400 (message "Username and password are required"))
       end)
  catch (fun error =>
       console_error "Registration error:" error ;;;
       ret (status_json 500 (message "Internal server error"))).

(** [GET /api/user], after [authenticateToken]: [res.json(req.user)]. *)
Definition getCurrentUser {P B} (req : Request P B) : M St Response :=
  ret (res_json (match req_user req with
                 | Some u => json_of_user u
                 | None => JNull
                 end)).

(** [POST /api/logout] *)
Definition postLogout {P B} (req : Request P B) : M St Response :=
  ret (res_json (message "Logged out successfully")).

(** [POST /api/submissions] *)
Definition postSubmission {P} (req : Request P Json) : M St Response :=
  try (submissionData <- lift (insertSubmissionSchema_parse (req_body req)) ;;
       submission <- call (createSubmission submissionData) ;;
       ret (status_json 201
              (JObj [("message", JStr "Submission recorded successfully");
                     ("data", json_of_submission submission)])))
  catch (fun error =>
       if isZodError error
       then ret (status_json 400
                   (JObj [("message", JStr "Invalid submission data");
                          ("errors", JStr (fromZodError error))]))
       else
         console_error "Error handling submission:" error ;;;
         ret (status_json 500 (message "An error occurred while processing your submission"))).

(** [GET /api/leadership-values] *)
Definition getLeadershipValues {P B} (req : Request P B) : M St Response :=
  try (values <- call getAllLeadershipValues ;;
       ret (res_json (JArr (map json_of_leadershipValue values))))
  catch (fun error =>
       console_error "Error fetching leadership values:" error ;;;
       ret (status_json 500 (message "An error occurred while fetching leadership values"))).

(** [POST /api/leadership-values], after [authenticateToken]. *)
Definition postLeadershipValue {P} (req : Request P Json) : M St Response :=
  try (valueData <- lift (insertLeadershipValueSchema_parse (req_body req)) ;;
       value <- call (createLeadershipValue valueData) ;;
       ret (status_json 201
              (JObj [("message", JStr "Leadership value created successfully");
                     ("data", json_of_leadershipValue value)])))
  catch (fun error =>
       if isZodError error
       then ret (status_json 400
                   (JObj [("message", JStr "Invalid leadership value data");
                          ("errors", JStr (fromZodError error))]))
       else
         console_error "Error creating leadership value:" error ;;;
         ret (status_json 500 (message "An error occurred while creating the leadership value"))).


(** [GET /api/leadership-values/:id], after [authenticateToken]. *)
Definition getLeadershipValue {B} (req : Request IdParams B) : M St Response :=
  try (let id := Js.parseInt (param_id (req_params req)) in
       match id with
       | Js.NaN => ret (status_json 400 (message "Invalid ID format"))
       | Js.Int n =>
           value <- call (getLeadershipValueById n) ;;
           match value with
           | None => ret (status_json 404 (message "Leadership value not found"))
           | Some v => ret (res_json (json_of_leadershipValue v))
           end
       end)
  catch (fun error =>
       console_error "Error fetching leadership value:" error ;;;
       ret (status_json 500 (message "An error occurred while fetching the leadership value"))).

(** [PUT /api/leadership-values/:id], after [authenticateToken]. *)
Definition putLeadershipValue (req : Request IdParams Json) : M St Response :=
  try (let id := Js.parseInt (param_id (req_params req)) in
       match id with
       | Js.NaN => ret (status_json 400 (message "Invalid ID format"))
       | Js.Int n =>
           existingValue <- call (getLeadershipValueById n) ;;
           match existingValue with
           | None => ret (status_json 404 (message "Leadership value not found"))
           | Some _ =>
               valueData <- lift (insertLeadershipValueSchema_parse (req_body req)) ;;
               updatedValue <- call (updateLeadershipValue n valueData) ;;
               ret (res_json
                      (JObj (("message", JStr "Leadership value updated successfully")
                             :: match updatedValue with
                                | Some v => [("data", json_of_leadershipValue v)]
                                | None => []
                                end)))
           end
       end)
  catch (fun error =>
       if isZodError error
       then ret (status_json 400
                   (JObj [("message", JStr "Invalid leadership value data");
                          ("errors", JStr (fromZodError error))]))
       else
         console_error "Error updating leadership value:" error ;;;
         ret (status_json 500 (message "An error occurred while updating the leadership value"))).

(** [DELETE /api/leadership-values/:id], after [authenticateToken]. *)
Definition deleteLeadershipValueHandler {B} (req : Request IdParams B) : M St Response :=
  try (let id := Js.parseInt (param_id (req_params req)) in
       match id with
       | Js.NaN => ret (status_json 400 (message "Invalid ID format"))
       | Js.Int n =>
           existingValue <- call (getLeadershipValueById n) ;;
           match existingValue with
           | None => ret (status_json 404 (message "Leadership value not found"))
           | Some _ =>
               call (deleteLeadershipValue n) ;;;
               ret (res_json (message "Leadership value deleted successfully"))
           end
       end)
  catch (fun error =>
       console_error "Error deleting leadership value:" error ;;;
       ret (status_json 500 (message "An error occurred while deleting the leadership value"))).

(** The list items of the e-mail body. *)
Definition valuesList (coreValues : list CoreValueItem) : string :=
  Js.join EmptyString
    (mapi (fun value index =>
             "<li>" ++ numToString (index + 1) ++ ". <strong>" ++ cvi_value value
             ++ "</strong>: " ++ cvi_description value ++ "</li>")
          0 coreValues).

Definition emailHtml (firstName : string) (items : string) : string :=
  newline ++
  "        <div style=" ++ dquote ++ "font-family: Arial, sans-serif; max-width: 600px; margin: 0 auto;" ++ dquote ++ ">" ++ newline ++
  "          <h1 style=" ++ dquote ++ "color: #3b82f6;" ++ dquote ++ ">Your Leadership Values</h1>" ++ newline ++
  "          <p>Hello " ++ firstName ++ ",</p>" ++ newline ++
  "          <p>Thank you for completing the Leadership Values Assessment. Your PDF is attached to this email.</p>" ++ newline ++
  "          <h2 style=" ++ dquote ++ "color: #3b82f6;" ++ dquote ++ ">Your Core Leadership Values:</h2>" ++ newline ++
  "          <ul>" ++ newline ++
  "            " ++ items ++ newline ++
  "          </ul>" ++ newline ++
  "          <p>Use these values to guide your leadership journey and decision-making.</p>" ++ newline ++
  "          <p>Best regards,<br>The Leadership Values Team</p>" ++ newline ++
  "        </div>" ++ newline ++
  "      ".

(** [Buffer.from(pdfBase64.split(',')[1], 'base64')]: [Buffer.from]
    refuses [undefined] with a [TypeError]. *)
Definition pdfBufferOf (pdfBase64 : string) : outcome Buffer.t :=
  match nth_error (Js.split "," pdfBase64) 1 with
  | Some data => Ok (base64_decode data)
  | None =>
      Throw (ErrorObject TypeError
               "The first argument must be of type string or an instance of Buffer, ArrayBuffer, or Array or an Array-like Object. Received undefined")
  end.

Definition missingData : Response :=
  status_json 400 (JObj [("error", JStr "Missing required data")]).

(** [POST /api/send-pdf-email] *)
Definition postSendPdfEmail {P} (req : Request P PdfEmailBody) : M St Response :=
  try (match pe_pdfBase64 (req_body req), pe_userInfo (req_body req),
             pe_coreValues (req_body req) with
       | Some pdfBase64, Some userInfo, Some coreValues =>
           match ui_email userInfo, ui_name userInfo with
           | Some email, Some name =>
               if negb (Js.truthy pdfBase64) || negb (Js.truthy email)
                  || negb (Js.truthy name)
               then ret missingData
               else
                 pdfBuffer <- lift (pdfBufferOf pdfBase64) ;;
                 let firstName := extractFirstName name in
                 let html := emailHtml firstName (valuesList coreValues) in
                 result <- call (sendEmail
                                   (mkEmailParams email "Your Leadership Values Results" html
                                      [mkAttachment (firstName ++ "_Leadership_Values.pdf")
                                         pdfBuffer])) ;;
                 if sr_success result
                 then ret (res_json (JObj [("success", JBool true)]))
                 else ret (status_json 500
                             (JObj (("error", JStr "Failed to send email")
                                    :: match sr_error result with
                                       | Some details => [("details", details)]
                                       | None => []
                                       end)))
           | _, _ => ret missingData
           end
       | _, _, _ => ret missingData
       end)
  catch (fun error =>
       console_error "Error sending email:" error ;;;
       ret (status_json 500 (JObj [("error", JStr "Failed to send email")]))).

(** [GET /api/submissions], after [authenticateToken]. *)
Definition getSubmissions {P B} (req : Request P B) : M St Response :=
  try (submissions <- call getAllSubmissions ;;
       ret (res_json (JArr (map json_of_submission submissions))))
  catch (fun error =>
       console_error "Error fetching submissions:" error ;;;
       ret (status_json 500 (message "An error occurred while fetching submissions"))).

(** [GET /api/submissions/company/:companyCode], after
    [authenticateToken]. *)
Definition getSubmissionsByCompany {B} (req : Request CompanyParams B) : M St Response :=
  try (let companyCode := param_companyCode (req_params req) in
       submissions <- call (getSubmissionsByCompanyCode companyCode) ;;
       ret (res_json (JArr (map json_of_submission submissions))))
  catch (fun error =>
       console_error "Error fetching submissions by company code:" error ;;;
       ret (status_json 500 (message "An error occurred while fetching submissions"))).

(** [GET /api/submissions/company-codes], after [authenticateToken]. *)
Definition getCompanyCodes {P B} (req : Request P B) : M St Response :=
  try (companyCodes <- call getUniqueCompanyCodes ;;
       ret (res_json (JArr (map JStr companyCodes))))
  catch (fun error =>
       console_error "Error fetching company codes:" error ;;;
       ret (status_json 500 (message "An error occurred while fetching company codes"))).

Definition csvHeader : string :=
  "Name,Email,Company Code,Core Values,Date Submitted" ++ newline.

Definition quoted (s : string) : string := dquote ++ s ++ dquote.

(** One row of the export. *)
Definition csvRow (submission : Submission) : string :=
  let coreValuesList :=
    match sub_coreValues submission with
    | CvArray values => Js.join ", " values
    | CvNotArray => "No values"
    end in
  Js.join ","
    [quoted (sub_name submission);
     quoted (sub_email submission);
     quoted (match sub_companyCode submission with
             | Some c => if Js.truthy c then c else EmptyString
             | None => EmptyString
             end);
     quoted coreValuesList;
     quoted (toLocaleDateString (sub_createdAt submission))].

(** The name of the exported file:
    [`submissions${companyCode ? `_${companyCode}` : ''}.csv`]. *)
Definition exportFilename (companyCode : option string) : string :=
  "submissions"
  ++ match companyCode with
     | Some c => if Js.truthy c then "_" ++ c else EmptyString
     | None => EmptyString
     end
  ++ ".csv".

(** [GET /api/submissions/export], after [authenticateToken]. *)
Definition getSubmissionsExport {P B} (req : Request P B) : M St Response :=
  try (let companyCode := lookup "companyCode" (req_query req) in
       submissions <-
         match companyCode with
         | Some c =>
             if Js.truthy c && negb (String.eqb c "all")
             then call (getSubmissionsByCompanyCode c)
             else call getAllSubmissions
         | None => call getAllSubmissions
         end ;;
       let csvRows := map csvRow submissions in
       let csvContent := csvHeader ++ Js.join newline csvRows in
       ret (mkResponse 200
              [("Content-Type", "text/csv");
               ("Content-Disposition",
                "attachment; filename=" ++ dquote ++ exportFilename companyCode ++ dquote)]
              (BText csvContent)))
  catch (fun error =>
       console_error "Error exporting submissions:" error ;;;
       ret (status_json 500 (message "An error occurred while exporting submissions"))).

(** The routes [registerRoutes] installs. *)
Inductive Route :=
| GET_root
| GET_health
| POST_login
| POST_register
| GET_user
| POST_logout
| POST_submissions
| GET_leadership_values
| POST_leadership_values
| GET_leadership_value
| PUT_leadership_value
| DELETE_leadership_value
| POST_send_pdf_email
| GET_submissions
| GET_submissions_company
| GET_company_codes
| GET_submissions_export.

Definition params_of (r : Route) : Type :=
  match r with
  | GET_leadership_value | PUT_leadership_value | DELETE_leadership_value => IdParams
  | GET_submissions_company => CompanyParams
  | _ => unit
  end.

Definition body_of (r : Route) : Type :=
  match r with
  | POST_login | POST_register => Credentials
  | POST_submissions | POST_leadership_values | PUT_leadership_value => Json
  | POST_send_pdf_email => PdfEmailBody
  | _ => unit
  end.

(** The handler chain of each route: the routes registered with
    [authenticateToken] run their handler behind it. *)
Definition registerRoutes (r : Route)
  : Request (params_of r) (body_of r) -> M St Response :=
  match r with
  | GET_root => getRoot
  | GET_health => getHealth
  | POST_login => postLogin
  | POST_register => postRegister
  | GET_user => withAuth getCurrentUser
  | POST_logout => postLogout
  | POST_submissions => postSubmission
  | GET_leadership_values => getLeadershipValues
  | POST_leadership_values => withAuth postLeadershipValue
  | GET_leadership_value => withAuth getLeadershipValue
  | PUT_leadership_value => withAuth putLeadershipValue
  | DELETE_leadership_value => withAuth deleteLeadershipValueHandler
  | POST_send_pdf_email => postSendPdfEmail
  | GET_submissions => withAuth getSubmissions
  | GET_submissions_company => withAuth getSubmissionsByCompany
  | GET_company_codes => withAuth getCompanyCodes
  | GET_submissions_export => withAuth getSubmissionsExport
  end.

End Routes.

(* ================================================================== *)
(** ** The browser: [fetch], [localStorage], the query cache *)
(* ================================================================== *)

(** The options of a [fetch] call. *)
Record FetchInit := mkFetchInit {
  fi_method : option string;
  fi_headers : list (string * string);
  fi_body : option string
}.

(** The [Response] of a [fetch] call: the status, the status text, and
    what reading the body gives, as text (or blob) and as JSON. *)
Record FetchResponse := mkFetchResponse {
  fr_status : nat;
  fr_statusText : string;
  fr_text : outcome string;
  fr_json : outcome Json
}.

(** [res.ok]: the status is in the range 200-299. *)
Definition fr_ok (res : FetchResponse) : bool :=
  Nat.leb 200 (fr_status res) && Nat.leb (fr_status res) 299.

Record Toast := mkToast {
  toast_title : string;
  toast_description : string;
  toast_variant : option string
}.

(** What the page can read or change in the browser: [localStorage], the
    data of the query cache by query key, the toasts shown, the files
    downloaded (name and content), and the network. *)
Record Browser (Net : Type) := mkBrowser {
  b_localStorage : list (string * string);
  b_queryCache : list (list string * Json);
  b_toasts : list Toast;
  b_downloads : list (string * string);
  b_net : Net
}.
Arguments mkBrowser {Net}.
Arguments b_localStorage {Net}.
Arguments b_queryCache {Net}.
Arguments b_toasts {Net}.
Arguments b_downloads {Net}.
Arguments b_net {Net}.

(** The network the browser talks to. *)
Class Fetch (Net : Type) := {
  fetch : string -> FetchInit -> Net -> outcome FetchResponse * Net
}.

(** What the client takes from its build and platform:
    [import.meta.env.VITE_SERVER_URL] and [JSON.stringify]. *)
Class ClientEnv := {
  VITE_SERVER_URL : option string;
  JSON_stringify : Json -> string
}.

(** Truthiness of a value that may be [undefined]. *)
Definition truthyJson (v : option Json) : bool :=
  match v with
  | None | Some JNull => false
  | Some (JBool b) => b
  | Some (JNum z) => negb (Z.eqb z 0)
  | Some (JStr s) => Js.truthy s
  | Some (JArr _) | Some (JObj _) => true
  end.

(** [value.key]: a [TypeError] on [null], [undefined] for a missing key
    or a value that is not an object. *)
Definition getProp (key : string) (value : Json) : outcome (option Json) :=
  match value with
  | JNull =>
      Throw (ErrorObject TypeError ("Cannot read properties of null (reading '" ++ key ++ "')"))
  | JObj fields =>
      Ok match find (fun kv => String.eqb (fst kv) key) fields with
         | Some kv => Some (snd kv)
         | None => None
         end
  | _ => Ok None
  end.

(** [String(value)], as [localStorage.setItem] stores a value; integers
    are written in decimal. *)
Fixpoint toStringJs (value : Json) : string :=
  match value with
  | JNull => "null"
  | JBool true => "true"
  | JBool false => "false"
  | JNum z =>
      match z with
      | Z0 => "0"
      | Zpos p => numToString (Pos.to_nat p)
      | Zneg p => "-" ++ numToString (Pos.to_nat p)
      end
  | JStr s => s
  | JArr items =>
      Js.join ","
        (map (fun item => match item with JNull => EmptyString | _ => toStringJs item end)
           items)
  | JObj _ => "[object Object]"
  end.

Definition toStringOpt (value : option Json) : string :=
  match value with
  | Some v => toStringJs v
  | None => "undefined"
  end.

(** [error.message]. *)
Definition messageOf (e : Exn) : option string :=
  match e with
  | ErrorObject _ m => Some m
  | ThrownValue _ => None
  end.

Fixpoint removeKey {K V} (eqb : K -> K -> bool) (key : K) (l : list (K * V))
  : list (K * V) :=
  match l with
  | [] => []
  | (k, v) :: rest =>
      if eqb k key then removeKey eqb key rest else (k, v) :: removeKey eqb key rest
  end.

Fixpoint findKey {K V} (eqb : K -> K -> bool) (key : K) (l : list (K * V)) : option V :=
  match l with
  | [] => None
  | (k, v) :: rest => if eqb k key then Some v else findKey eqb key rest
  end.

Definition queryKeyEqb (a b : list string) : bool :=
  if list_eq_dec string_dec a b then true else false.

Section BrowserOps.

Context {Net : Type} {net : Fetch Net}.

Definition localStorage_getItem (key : string) : M (Browser Net) (option string) :=
  fun w => (Ok (findKey String.eqb key (b_localStorage (w_store w))), w).

Definition localStorage_setItem (key value : string) : M (Browser Net) unit :=
  fun w =>
    let b := w_store w in
    (Ok tt,
     set_store w
       (mkBrowser ((key, value) :: removeKey String.eqb key (b_localStorage b))
          (b_queryCache b) (b_toasts b) (b_downloads b) (b_net b))).

Definition localStorage_removeItem (key : string) : M (Browser Net) unit :=
  fun w =>
    let b := w_store w in
    (Ok tt,
     set_store w
       (mkBrowser (removeKey String.eqb key (b_localStorage b))
          (b_queryCache b) (b_toasts b) (b_downloads b) (b_net b))).

(** [queryClient.setQueryData(key, data)]: [undefined] leaves the cache
    as it is. *)
Definition setQueryData (key : list string) (data : option Json) : M (Browser Net) unit :=
  fun w =>
    let b := w_store w in
    match data with
    | None => (Ok tt, w)
    | Some d =>
        (Ok tt,
         set_store w
           (mkBrowser (b_localStorage b)
              ((key, d) :: removeKey queryKeyEqb key (b_queryCache b))
              (b_toasts b) (b_downloads b) (b_net b)))
    end.

Definition toast (t : Toast) : M (Browser Net) unit :=
  fun w =>
    let b := w_store w in
    (Ok tt,
     set_store w
       (mkBrowser (b_localStorage b) (b_queryCache b) (b_toasts b ++ [t])
          (b_downloads b) (b_net b))).

(** A link with [download = name] to a blob is created and clicked. *)
Definition download (name content : string) : M (Browser Net) unit :=
  fun w =>
    let b := w_store w in
    (Ok tt,
     set_store w
       (mkBrowser (b_localStorage b) (b_queryCache b) (b_toasts b)
          (b_downloads b ++ [(name, content)]) (b_net b))).

(** [await fetch(url, init)]. *)
Definition doFetch (url : string) (init : FetchInit) : M (Browser Net) FetchResponse :=
  call (fun b =>
          let '(r, n) := fetch url init (b_net b) in
          (r, mkBrowser (b_localStorage b) (b_queryCache b) (b_toasts b)
                (b_downloads b) n)).

(** A mutation of the query library run once, without retry: the
    mutation function, then [onSuccess] on its result; [onError] on what
    either throws; what [onError] throws is dropped. *)
Definition mutate {V D} (mutationFn : V -> M (Browser Net) D)
  (onSuccess : D -> M (Browser Net) unit) (onError : Exn -> M (Browser Net) unit)
  (variables : V) : M (Browser Net) unit :=
  try (try (data <- mutationFn variables ;; onSuccess data) catch onError)
  catch (fun _ => ret tt).

End BrowserOps.

(* ================================================================== *)
(** ** [client/src/lib/queryClient.ts] *)
(* ================================================================== *)

Inductive UnauthorizedBehavior :=
| returnNull
| throwOn401.

Section QueryClient.

Context {Net : Type} {net : Fetch Net} {env : ClientEnv}.

Definition API_SERVER_URL : option string := VITE_SERVER_URL.

(** [`${value}`] of a string that may be [undefined]. *)
Definition interpolate (value : option string) : string :=
  match value with
  | Some s => s
  | None => "undefined"
  end.

Definition getApiUrl (path : string) : string :=
  let normalizedPath := if Js.startsWith "/" path then path else "/" ++ path in
  interpolate API_SERVER_URL ++ normalizedPath.

Definition throwIfResNotOk (res : FetchResponse) : M (Browser Net) unit :=
  if negb (fr_ok res)
  then
    body <- lift (fr_text res) ;;
    let text := if Js.truthy body then body else fr_statusText res in
    throw (ErrorObject PlainError (numToString (fr_status res) ++ ": " ++ text))
  else ret tt.

(** The headers [apiRequest] sends for a body and a stored token. *)
Definition requestHeaders (data : option Json) (token : option string)
  : list (string * string) :=
  (if truthyJson data then [("Content-Type", "application/json")] else [])
  ++ match token with
     | Some tok => if Js.truthy tok then [("Authorization", "Bearer " ++ tok)] else []
     | None => []
     end.

Definition apiRequest (method url : string) (data : option Json)
  : M (Browser Net) FetchResponse :=
  let fullUrl := if Js.startsWith "/api" url then getApiUrl url else url in
  token <- localStorage_getItem "authToken" ;;
  let headers := requestHeaders data token in
  res <- doFetch fullUrl
           (mkFetchInit (Some method) headers
              (if truthyJson data
               then match data with Some d => Some (JSON_stringify d) | None => None end
               else None)) ;;
  throwIfResNotOk res ;;;
  ret res.

Definition getQueryFn (on401 : UnauthorizedBehavior) (queryKey : list string)
  : M (Browser Net) Json :=
  match hd_error queryKey with
  | None =>
      throw (ErrorObject TypeError
               "Cannot read properties of undefined (reading 'startsWith')")
  | Some urlPath =>
      let fullUrl := if Js.startsWith "/api" urlPath then getApiUrl urlPath else urlPath in
      token <- localStorage_getItem "authToken" ;;
      let headers := requestHeaders None token in
      res <- doFetch fullUrl (mkFetchInit None headers None) ;;
      match on401 with
      | returnNull =>
          if Nat.eqb (fr_status res) 401 then ret JNull
          else throwIfResNotOk res ;;; lift (fr_json res)
      | throwOn401 => throwIfResNotOk res ;;; lift (fr_json res)
      end
  end.

End QueryClient.

(* ================================================================== *)
(** ** [client/src/hooks/use-auth.tsx] *)
(* ================================================================== *)

Record LoginData := mkLoginData {
  ld_username : string;
  ld_password : string
}.

Definition json_of_loginData (c : LoginData) : Json :=
  JObj [("username", JStr (ld_username c)); ("password", JStr (ld_password c))].

Definition userQueryKey : list string := ["/api/user"].

Section UseAuth.

Context {Net : Type} {net : Fetch Net} {env : ClientEnv}.

(** The mutation function of [loginMutation] and [registerMutation]. *)
Definition postCredentials (url : string) (credentials : LoginData)
  : M (Browser Net) Json :=
  res <- apiRequest "POST" url (Some (json_of_loginData credentials)) ;;
  data <- lift (fr_json res) ;;
  ret data.

(** [onSuccess] of [loginMutation] and [registerMutation], up to the
    toast. *)
Definition storeSession (data : Json) (t : Toast) : M (Browser Net) unit :=
  token <- lift (getProp "token" data) ;;
  localStorage_setItem "authToken" (toStringOpt token) ;;;
  user <- lift (getProp "user" data) ;;
  setQueryData userQueryKey user ;;;
  toast t.

Definition loginMutation (credentials : LoginData) : M (Browser Net) unit :=
  mutate (postCredentials "/api/login")
    (fun data =>
       storeSession data
         (mkToast "Login successful" "You are now logged in to the admin portal." None))
    (fun error =>
       match messageOf error with
       | Some m =>
           toast (mkToast "Login failed"
                    (if Js.includes "Invalid" m
                     then "Please check your credentials and try again."
                     else m)
                    (Some "destructive"))
       | None =>
           throw (ErrorObject TypeError
                    "Cannot read properties of undefined (reading 'includes')")
       end)
    credentials.

Definition registerMutation (credentials : LoginData) : M (Browser Net) unit :=
  mutate (postCredentials "/api/register")
    (fun data =>
       storeSession data
         (mkToast "Account created" "Your admin account has been created successfully."
            None))
    (fun error =>
       toast (mkToast "Registration failed"
                (match messageOf error with
                 | Some m => if Js.truthy m then m
                             else "Could not create account. Please try again."
                 | None => "Could not create account. Please try again."
                 end)
                (Some "destructive")))
    credentials.

Definition loggedOutToast : Toast :=
  mkToast "Logged out" "You have been logged out of the admin portal." None.

Definition logoutMutation : M (Browser Net) unit :=
  mutate
    (fun _ : unit =>
       localStorage_removeItem "authToken" ;;;
       apiRequest "POST" "/api/logout" None ;;;
       ret tt)
    (fun _ =>
       setQueryData userQueryKey (Some JNull) ;;;
       toast loggedOutToast)
    (fun _ =>
       localStorage_removeItem "authToken" ;;;
       setQueryData userQueryKey (Some JNull) ;;;
       toast loggedOutToast)
    tt.

(** [enabled] of the user query: [!!localStorage.getItem('authToken')]. *)
Definition userQueryEnabled (b : Browser Net) : bool :=
  Js.truthy_opt (findKey String.eqb "authToken" (b_localStorage b)).

End UseAuth.

(* ================================================================== *)
(** ** [client/src/pages/auth-page.tsx] and the submissions page *)
(* ================================================================== *)


(** [filteredSubmissions] of the submissions page. *)
Definition filteredSubmissions (selectedCompanyCode : string) (submissions : list Submission)
  : list Submission :=
  if String.eqb selectedCompanyCode "all" then submissions
  else filter (fun sub => match sub_companyCode sub with
                          | Some c => String.eqb c selectedCompanyCode
                          | None => false
                          end) submissions.

(** The URL [handleExport] requests and the name it gives the file. *)
Definition exportUrl (selectedCompanyCode : string) : string :=
  if String.eqb selectedCompanyCode "all" then "/api/submissions/export"
  else "/api/submissions/export?companyCode=" ++ selectedCompanyCode.

Definition downloadName (selectedCompanyCode : string) : string :=
  "submissions"
  ++ (if negb (String.eqb selectedCompanyCode "all")
      then "_" ++ selectedCompanyCode else EmptyString)
  ++ ".csv".

(** The text of the "Core Values" cell of the table. *)
Definition coreValuesCell (coreValues : CoreValues) : string :=
  match coreValues with
  | CvArray values =>
      if Nat.ltb 0 (length values) then Js.join ", " values else "No values"
  | CvNotArray => "No values"
  end.

Section Pages.

Context {Net : Type} {net : Fetch Net} {env : ClientEnv}.


Definition handleExport (selectedCompanyCode : string) : M (Browser Net) unit :=
  try (let url := exportUrl selectedCompanyCode in
       response <- apiRequest "GET" url None ;;
       blob <- lift (fr_text response) ;;
       download (downloadName selectedCompanyCode) blob ;;;
       toast (mkToast "Export Successful" "CSV file has been downloaded." None))
  catch (fun error =>
       console_error "Export error:" error ;;;
       toast (mkToast "Export Failed" "Could not export submissions. Please try again."
                (Some "destructive"))).

End Pages.

(* ================================================================== *)
(** ** Vocabulary of the properties *)
(* ================================================================== *)

(** What the token coding of [jsonwebtoken] guarantees: the segments are
    base64url text, so they hold no dot and a signature is never blank,
    and a header or payload that was encoded decodes to itself. *)
Class JwsLaws {jws : Jws} : Prop := {
  encodeHeader_lacks_dot : forall a, Js.lacks "." (encodeHeader a) = true;
  encodeClaims_lacks_dot : forall c, Js.lacks "." (encodeClaims c) = true;
  hmac_lacks_dot : forall a k m, Js.lacks "." (hmac a k m) = true;
  hmac_not_blank : forall a k m, Js.isBlank (hmac a k m) = false;
  decode_encodeHeader : forall a, decodeHeader (encodeHeader a) = Some a;
  decode_encodeClaims : forall c, decodeClaims (encodeClaims c) = Some c
}.

Section Vocabulary.

Context {St : Type} {crypto : Crypto}.

(** The salt [hashPassword] draws in world [w]. *)
Definition nextSalt (w : World St) : string :=
  Buffer.toString_hex (map (w_random w) (seq (w_random_pos w) 16)).

(** The credential [hashPassword] stores for a password and a salt. *)
Definition credential (pass salt : string) : string :=
  Buffer.toString_hex (scrypt pass salt 64) ++ "." ++ salt.

(** The derived key and the salt a stored credential holds. *)
Definition storedKey (stored : string) : Buffer.t :=
  Buffer.from_hex (hd EmptyString (Js.split "." stored)).

Definition storedSalt (stored : string) : option string :=
  nth_error (Js.split "." stored) 1.

(** The key derived from [pass] with the stored salt is the stored key. *)
Definition passwordMatches (pass stored : string) : bool :=
  match storedSalt stored with
  | Some salt => Buffer.eqb (storedKey stored) (scrypt pass salt 64)
  | None => false
  end.

End Vocabulary.

Section RouteVocabulary.

Context {St : Type} {storage : IStorage St} {jws : Jws} {platform : Platform}.

(** What a route on [/api/leadership-values/:id] answers to a caller the
    middleware lets through: 400 when [parseInt] reads no integer in the
    id, without a call to storage, and 404 when it reads one and storage
    has no value under it. *)
Definition idRouteContract {B} (route : Request IdParams B -> M St Response) : Prop :=
  forall (req req' : Request IdParams B) (w w1 : World St),
    authenticateToken req w = (Ok (Next req'), w1) ->
    (Js.parseInt (param_id (req_params req)) = Js.NaN ->
     route req w = (Ok (status_json 400 (message "Invalid ID format")), w1))
    /\
    (forall n s',
       Js.parseInt (param_id (req_params req)) = Js.Int n ->
       getLeadershipValueById n (w_store w1) = (Ok None, s') ->
       route req w =
       (Ok (status_json 404 (message "Leadership value not found")), set_store w1 s')).

(** The response of the export: status 200, the two headers, and the
    header line followed by one row per submission. *)
Definition csvResponse (filename : string) (submissions : list Submission) : Response :=
  mkResponse 200
    [("Content-Type", "text/csv");
     ("Content-Disposition", "attachment; filename=" ++ dquote ++ filename ++ dquote)]
    (BText (csvHeader ++ Js.join newline (map csvRow submissions))).

End RouteVocabulary.

Section CsvVocabulary.

Context {platform : Platform}.

(** The five texts a row of the export puts between double quotes. *)
Definition csvFields (submission : Submission) : list string :=
  [sub_name submission;
   sub_email submission;
   match sub_companyCode submission with Some c => c | None => EmptyString end;
   match sub_coreValues submission with
   | CvArray values => Js.join ", " values
   | CvNotArray => "No values"
   end;
   toLocaleDateString (sub_createdAt submission)].

End CsvVocabulary.

(** The double quote, as a character. *)
Definition dquoteChar : ascii := ascii_of_nat 34.

(** The body a route sends with status 500 from its own [catch]. *)
Definition failureBody (r : Route) : option Json :=
  match r with
  | GET_root | GET_health | GET_user | POST_logout => None
  | POST_login | POST_register => Some (message "Internal server error")
  | POST_submissions =>
      Some (message "An error occurred while processing your submission")
  | GET_leadership_values =>
      Some (message "An error occurred while fetching leadership values")
  | POST_leadership_values =>
      Some (message "An error occurred while creating the leadership value")
  | GET_leadership_value =>
      Some (message "An error occurred while fetching the leadership value")
  | PUT_leadership_value =>
      Some (message "An error occurred while updating the leadership value")
  | DELETE_leadership_value =>
      Some (message "An error occurred while deleting the leadership value")
  | POST_send_pdf_email => Some (JObj [("error", JStr "Failed to send email")])
  | GET_submissions | GET_submissions_company =>
      Some (message "An error occurred while fetching submissions")
  | GET_company_codes => Some (message "An error occurred while fetching company codes")
  | GET_submissions_export =>
      Some (message "An error occurred while exporting submissions")
  end.

(** The routes [registerRoutes] installs behind [authenticateToken]. *)
Definition isProtected (r : Route) : bool :=
  match r with
  | GET_user | POST_leadership_values | GET_leadership_value | PUT_leadership_value
  | DELETE_leadership_value | GET_submissions | GET_submissions_company
  | GET_company_codes | GET_submissions_export => true
  | _ => false
  end.

(** The statuses the handler chain of a route sends. *)
Definition statusesOf (r : Route) : list Z :=
  match r with
  | GET_root | POST_logout => [200]
  | GET_health => [200; 503]
  | POST_login => [200; 400; 401]
  | POST_register => [201; 400]
  | POST_submissions => [201; 400; 500]
  | GET_leadership_values => [200; 500]
  | POST_leadership_values => [201; 400; 401; 403; 500]
  | GET_leadership_value | PUT_leadership_value | DELETE_leadership_value =>
      [200; 400; 401; 403; 404; 500]
  | POST_send_pdf_email => [200; 400; 500]
  | GET_user | GET_submissions | GET_submissions_company | GET_company_codes
  | GET_submissions_export => [200; 401; 403; 500]
  end%Z.

(** The same request with another [Authorization] header. *)
Definition with_authorization {P B} (req : Request P B) (auth : option string)
  : Request P B :=
  mkRequest auth (req_params req) (req_query req) (req_body req) (req_user req).

(** What the middleware decides: the answer it sends, or the user it
    attaches. *)
Definition decision {P B} (r : outcome (MwResult P B)) : outcome (Response + option User) :=
  match r with
  | Ok (Respond resp) => Ok (inl resp)
  | Ok (Next req') => Ok (inr (req_user req'))
  | Throw e => Throw e
  end.


(** Both credentials are present and not empty. *)
Definition credentialsGiven (c : Credentials) : bool :=
  Js.truthy_opt (cred_username c) && Js.truthy_opt (cred_password c).

(** A failure of a collaborator while a request is handled: an error the
    storage backend or the mail provider threw, or a failure the mail
    provider reported. *)
Inductive Fault :=
| Thrown (e : Exn)
| Reported (error : option Json).

(** The outside state, with the failures met so far. *)
Record Monitored (St : Type) := mkMonitored {
  mon_state : St;
  mon_faults : list Fault
}.
Arguments mkMonitored {St}.
Arguments mon_state {St}.
Arguments mon_faults {St}.

Section Monitors.

Context {St : Type} {storage : IStorage St} {mailer : Mailer St}.

(** A call to a collaborator, noted when it throws. *)
Definition observe {A} (op : St -> outcome A * St) (m : Monitored St)
  : outcome A * Monitored St :=
  match op (mon_state m) with
  | (Ok a, s') => (Ok a, mkMonitored s' (mon_faults m))
  | (Throw e, s') => (Throw e, mkMonitored s' (mon_faults m ++ [Thrown e]))
  end.

(** The storage backend and the mail provider under observation: they
    answer as [storage] and [mailer] do, and every failure is noted. *)
Definition MonitoredStorage : IStorage (Monitored St) :=
  Build_IStorage (Monitored St)
    (fun id => observe (getUser id))
    (fun name => observe (getUserByUsername name))
    (fun ins => observe (createUser ins))
    (observe getAllLeadershipValues)
    (fun id => observe (getLeadershipValueById id))
    (fun ins => observe (createLeadershipValue ins))
    (fun id ins => observe (updateLeadershipValue id ins))
    (fun id => observe (deleteLeadershipValue id))
    (fun ins => observe (createSubmission ins))
    (observe getAllSubmissions)
    (fun code => observe (getSubmissionsByCompanyCode code))
    (observe getUniqueCompanyCodes).

Definition MonitoredMailer : Mailer (Monitored St) :=
  Build_Mailer (Monitored St)
    (fun params m =>
       match sendEmail params (mon_state m) with
       | (Ok result, s') =>
           (Ok result,
            mkMonitored s'
              (mon_faults m
               ++ if sr_success result then [] else [Reported (sr_error result)]))
       | (Throw e, s') => (Throw e, mkMonitored s' (mon_faults m ++ [Thrown e]))
       end).

(** The world without the record of failures. *)
Definition unmonitored (w : World (Monitored St)) : World St :=
  mkWorld (mon_state (w_store w)) (w_now w) (w_uptime w) (w_random w) (w_random_pos w)
    (w_console w).

End Monitors.

(** The fixed answers of a route to a failure of a collaborator: the
    middleware's, on a route behind it, and the route's own, which for
    login and registration is the answer to a rejection. *)
Definition faultAnswers (r : Route) : list Response :=
  (if isProtected r then [status_json 500 (message "Authentication error")] else [])
  ++ match r with
     | GET_health => []
     | POST_login => [status_json 401 (message "Invalid credentials")]
     | POST_register => [status_json 400 (message "Username already exists")]
     | _ =>
         match failureBody r with
         | Some body => [status_json 500 body]
         | None => []
         end
     end.

Section FaultVocabulary.

Context {platform : Platform}.

(** The answer of the routes that validate a body to an error of class
    [ZodError]. *)
Definition validationAnswer (r : Route) (e : Exn) : option Response :=
  match r with
  | POST_submissions =>
      Some (status_json 400
              (JObj [("message", JStr "Invalid submission data");
                     ("errors", JStr (fromZodError e))]))
  | POST_leadership_values | PUT_leadership_value =>
      Some (status_json 400
              (JObj [("message", JStr "Invalid leadership value data");
                     ("errors", JStr (fromZodError e))]))
  | _ => None
  end.

(** The answer of the health check to an error of the storage probe. *)
Definition unhealthy (now uptime : Z) (e : Exn) : Response :=
  status_json 503
    (JObj [("status", JStr "unhealthy");
           ("timestamp", JStr (toISOString now));
           ("uptime", JNum uptime);
           ("database", JStr "disconnected");
           ("error", JStr (errorMessage e))]).

End FaultVocabulary.

(** The answer of the e-mail route when the provider reports a
    failure. *)
Definition mailFailure (error : option Json) : Response :=
  status_json 500
    (JObj (("error", JStr "Failed to send email")
           :: match error with
              | Some details => [("details", details)]
              | None => []
              end)).

Section ClientVocabulary.

Context {Net : Type} {net : Fetch Net} {env : ClientEnv}.

(** The token in [localStorage] and the user in the query cache. *)
Definition storedToken (w : World (Browser Net)) : option string :=
  findKey String.eqb "authToken" (b_localStorage (w_store w)).

Definition cachedUser (w : World (Browser Net)) : option Json :=
  findKey queryKeyEqb userQueryKey (b_queryCache (w_store w)).

(** The URL [apiRequest] and [getQueryFn] fetch for a path. *)
Definition targetUrl (url : string) : string :=
  if Js.startsWith "/api" url then getApiUrl url else url.

(** The options [apiRequest] and [getQueryFn] pass to [fetch] in world
    [w]. *)
Definition requestInit (method : option string) (data : option Json)
  (w : World (Browser Net)) : FetchInit :=
  mkFetchInit method (requestHeaders data (storedToken w))
    (if truthyJson data
     then match data with Some d => Some (JSON_stringify d) | None => None end
     else None).

(** What [fetch(url, init)] gives in world [w], and the world it
    leaves. *)
Definition answerOf (w : World (Browser Net)) (url : string) (init : FetchInit)
  : outcome FetchResponse :=
  fst (fetch url init (b_net (w_store w))).

Definition afterFetch (w : World (Browser Net)) (url : string) (init : FetchInit)
  : World (Browser Net) :=
  let b := w_store w in
  set_store w
    (mkBrowser (b_localStorage b) (b_queryCache b) (b_toasts b) (b_downloads b)
       (snd (fetch url init (b_net b)))).

(** The error [throwIfResNotOk] throws for a response and the text of
    its body. *)
Definition httpError (res : FetchResponse) (body : string) : Exn :=
  ErrorObject PlainError
    (numToString (fr_status res) ++ ": "
     ++ (if Js.truthy body then body else fr_statusText res)).

(** The world with one more toast shown. *)
Definition withToast (w : World (Browser Net)) (t : Toast) : World (Browser Net) :=
  let b := w_store w in
  set_store w
    (mkBrowser (b_localStorage b) (b_queryCache b) (b_toasts b ++ [t])
       (b_downloads b) (b_net b)).

(** The request the server receives for what the browser sent: the
    [Authorization] header of the [fetch] options. *)
Definition received {P B} (init : FetchInit) (params : P) (query : list (string * string))
  (body : B) : Request P B :=
  mkRequest (lookup "Authorization" (fi_headers init)) params query body None.

End ClientVocabulary.

Section SessionVocabulary.

Context {Net : Type} {net : Fetch Net} {env : ClientEnv}.

(** The mutation of the login page or of registration, and the path it
    posts the credentials to. *)
Definition credentialsMutation (register : bool) : LoginData -> M (Browser Net) unit :=
  if register then registerMutation else loginMutation.

Definition credentialsPath (register : bool) : string :=
  if register then "/api/register" else "/api/login".

(** What [fetch] answers to the credentials posted in world [w]. *)
Definition credentialsAnswer (register : bool) (credentials : LoginData)
  (w : World (Browser Net)) : outcome FetchResponse :=
  answerOf w (getApiUrl (credentialsPath register))
    (requestInit (Some "POST") (Some (json_of_loginData credentials)) w).

(** The toast of a failed login or registration for the message of the
    error. *)
Definition failureToast (register : bool) (m : string) : Toast :=
  if register
  then mkToast "Registration failed"
         (if Js.truthy m then m else "Could not create account. Please try again.")
         (Some "destructive")
  else mkToast "Login failed"
         (if Js.includes "Invalid" m
          then "Please check your credentials and try again." else m)
         (Some "destructive").

End SessionVocabulary.

(** A numeric identifier, as the specification reads it: an optional
    minus sign and decimal digits only. *)
Definition isDigit (c : ascii) : bool :=
  let n := nat_of_ascii c in (Nat.leb 48 n && Nat.leb n 57)%bool.

Fixpoint allDigits (s : string) : bool :=
  match s with
  | EmptyString => true
  | String c rest => isDigit c && allDigits rest
  end.

Definition isNumericId (s : string) : bool :=
  match s with
  | EmptyString => false
  | String c rest =>
      if Ascii.eqb c "-" then negb (String.eqb rest EmptyString) && allDigits rest
      else allDigits s
  end.

(* ================================================================== *)
(** ** Reference collaborators *)
(* ================================================================== *)

(** Concrete collaborators on which the handlers can be run: an in-memory
    store and mail provider with fault injection, and small stand-ins for
    the key derivation function, the MAC and the token coding. *)
Module Ref.

Inductive MailBehaviour :=
| MailDelivers
| MailReports (error : option Json)
| MailThrows (e : Exn).

(** Modelled from the spec: the storage backend ([server/storage.ts] is
    not among the sources), as the small CRUD store the specification
    describes: users with unique usernames and numeric identifiers,
    leadership values and submissions keyed by identifier, submissions
    stamped with a creation time.  [ms_fault], when set, makes every call
    throw, [ms_readOnly], when set, makes every write throw, and
    [ms_mail] is what the mail provider does. *)
Record MemState := mkMemState {
  ms_users : list User;
  ms_values : list LeadershipValue;
  ms_submissions : list Submission;
  ms_nextId : Z;
  ms_time : Z;
  ms_fault : option Exn;
  ms_readOnly : option Exn;
  ms_mail : MailBehaviour
}.

Definition guarded {A} (s : MemState) (r : outcome A * MemState) : outcome A * MemState :=
  match ms_fault s with
  | Some e => (Throw e, s)
  | None => r
  end.

Definition guardedWrite {A} (s : MemState) (r : outcome A * MemState)
  : outcome A * MemState :=
  guarded s
    match ms_readOnly s with
    | Some e => (Throw e, s)
    | None => r
    end.

Definition hasCompanyCode (code : string) (s : Submission) : bool :=
  match sub_companyCode s with
  | Some c => String.eqb c code
  | None => false
  end.

Definition companyCodes (subs : list Submission) : list string :=
  nodup string_dec
    (flat_map (fun s => match sub_companyCode s with Some c => [c] | None => [] end) subs).

Definition mem_getUser (id : Z) (s : MemState) : outcome (option User) * MemState :=
  guarded s (Ok (find (fun u => Z.eqb (user_id u) id) (ms_users s)), s).

Definition mem_getUserByUsername (name : string) (s : MemState)
  : outcome (option User) * MemState :=
  guarded s (Ok (find (fun u => String.eqb (user_username u) name) (ms_users s)), s).

Definition mem_createUser (ins : InsertUser) (s : MemState) : outcome User * MemState :=
  guardedWrite s
    (if existsb (fun u => String.eqb (user_username u) (iu_username ins)) (ms_users s)
     then (Throw (ErrorObject PlainError "duplicate key value violates unique constraint"), s)
     else
       let u := mkUser (ms_nextId s) (iu_username ins) (iu_password ins) in
       (Ok u, mkMemState (ms_users s ++ [u]) (ms_values s) (ms_submissions s)
                (ms_nextId s + 1) (ms_time s) (ms_fault s) (ms_readOnly s) (ms_mail s))).

Definition mem_getAllLeadershipValues (s : MemState)
  : outcome (list LeadershipValue) * MemState :=
  guarded s (Ok (ms_values s), s).

Definition mem_getLeadershipValueById (id : Z) (s : MemState)
  : outcome (option LeadershipValue) * MemState :=
  guarded s (Ok (find (fun v => Z.eqb (lv_id v) id) (ms_values s)), s).

Definition mem_createLeadershipValue (ins : InsertLeadershipValue) (s : MemState)
  : outcome LeadershipValue * MemState :=
  guardedWrite s
    (let v := mkLeadershipValue (ms_nextId s) (ilv_value ins) (ilv_description ins) in
     (Ok v, mkMemState (ms_users s) (ms_values s ++ [v]) (ms_submissions s)
              (ms_nextId s + 1) (ms_time s) (ms_fault s) (ms_readOnly s) (ms_mail s))).

Definition mem_updateLeadershipValue (id : Z) (ins : InsertLeadershipValue) (s : MemState)
  : outcome (option LeadershipValue) * MemState :=
  guardedWrite s
    (match find (fun v => Z.eqb (lv_id v) id) (ms_values s) with
     | None => (Ok None, s)
     | Some _ =>
         let v := mkLeadershipValue id (ilv_value ins) (ilv_description ins) in
         (Ok (Some v),
          mkMemState (ms_users s)
            (map (fun x => if Z.eqb (lv_id x) id then v else x) (ms_values s))
            (ms_submissions s) (ms_nextId s) (ms_time s) (ms_fault s) (ms_readOnly s) (ms_mail s))
     end).

Definition mem_deleteLeadershipValue (id : Z) (s : MemState) : outcome unit * MemState :=
  guardedWrite s
    (Ok tt,
     mkMemState (ms_users s)
       (filter (fun x => negb (Z.eqb (lv_id x) id)) (ms_values s))
       (ms_submissions s) (ms_nextId s) (ms_time s) (ms_fault s) (ms_readOnly s) (ms_mail s)).

Definition mem_createSubmission (ins : InsertSubmission) (s : MemState)
  : outcome Submission * MemState :=
  guardedWrite s
    (let sub := mkSubmission (ms_nextId s) (is_name ins) (is_email ins)
                  (is_companyCode ins) (CvArray (is_coreValues ins)) (ms_time s) in
     (Ok sub, mkMemState (ms_users s) (ms_values s) (ms_submissions s ++ [sub])
                (ms_nextId s + 1) (ms_time s) (ms_fault s) (ms_readOnly s) (ms_mail s))).

Definition mem_getAllSubmissions (s : MemState) : outcome (list Submission) * MemState :=
  guarded s (Ok (ms_submissions s), s).

Definition mem_getSubmissionsByCompanyCode (code : string) (s : MemState)
  : outcome (list Submission) * MemState :=
  guarded s (Ok (filter (hasCompanyCode code) (ms_submissions s)), s).

Definition mem_getUniqueCompanyCodes (s : MemState) : outcome (list string) * MemState :=
  guarded s (Ok (companyCodes (ms_submissions s)), s).

Definition MemStorage : IStorage MemState :=
  Build_IStorage MemState mem_getUser mem_getUserByUsername mem_createUser
    mem_getAllLeadershipValues mem_getLeadershipValueById mem_createLeadershipValue
    mem_updateLeadershipValue mem_deleteLeadershipValue mem_createSubmission
    mem_getAllSubmissions mem_getSubmissionsByCompanyCode mem_getUniqueCompanyCodes.

(** Modelled from the spec: the e-mail provider ([server/email.ts] is not
    among the sources), which reports success or failure as a boolean,
    or throws. *)
Definition mem_sendEmail (p : EmailParams) (s : MemState) : outcome SendResult * MemState :=
  match ms_mail s with
  | MailDelivers => (Ok (mkSendResult true None), s)
  | MailReports err => (Ok (mkSendResult false err), s)
  | MailThrows e => (Throw e, s)
  end.

Definition MemMailer : Mailer MemState := Build_Mailer MemState mem_sendEmail.

(** A stand-in for the key derivation function: the bytes of password
    and salt, cut or padded to the length asked. *)
Definition kdf (password salt : string) (keylen : nat) : Buffer.t :=
  firstn keylen (list_byte_of_string (password ++ "/" ++ salt) ++ repeat Byte.x00 keylen).

Definition RefCrypto : Crypto := Build_Crypto kdf.

(** A self-delimiting coding of integers, for the stand-in token
    payload. *)
Fixpoint encPos (p : positive) : string :=
  match p with
  | xH => "h"
  | xO q => String "0" (encPos q)
  | xI q => String "1" (encPos q)
  end.

Definition encZ (z : Z) : string :=
  match z with
  | Z0 => "z"
  | Zpos p => String "p" (encPos p)
  | Zneg p => String "n" (encPos p)
  end.

Fixpoint decPos (s : string) : option (positive * string) :=
  match s with
  | EmptyString => None
  | String c rest =>
      if Ascii.eqb c "h" then Some (xH, rest)
      else if Ascii.eqb c "0"
      then match decPos rest with Some (q, r) => Some (xO q, r) | None => None end
      else if Ascii.eqb c "1"
      then match decPos rest with Some (q, r) => Some (xI q, r) | None => None end
      else None
  end.

Definition decZ (s : string) : option (Z * string) :=
  match s with
  | EmptyString => None
  | String c rest =>
      if Ascii.eqb c "z" then Some (0%Z, rest)
      else if Ascii.eqb c "p"
      then match decPos rest with Some (q, r) => Some (Zpos q, r) | None => None end
      else if Ascii.eqb c "n"
      then match decPos rest with Some (q, r) => Some (Zneg q, r) | None => None end
      else None
  end.

Definition hexOfString (s : string) : string :=
  Buffer.toString_hex (list_byte_of_string s).

Definition stringOfHex (h : string) : string :=
  string_of_list_byte (Buffer.from_hex h).

Definition ref_encodeClaims (c : Claims) : string :=
  encZ (userId c) ++ encZ (iat c)
  ++ match exp c with Some e => String "e" (encZ e) | None => "u" end
  ++ hexOfString (username c).

Definition ref_decodeClaims (s : string) : option Claims :=
  match decZ s with
  | Some (uid, r1) =>
      match decZ r1 with
      | Some (issued, r2) =>
          match r2 with
          | EmptyString => None
          | String c r3 =>
              if Ascii.eqb c "u"
              then Some (mkClaims uid (stringOfHex r3) issued None)
              else if Ascii.eqb c "e"
              then match decZ r3 with
                   | Some (e, r4) => Some (mkClaims uid (stringOfHex r4) issued (Some e))
                   | None => None
                   end
              else None
          end
      | None => None
      end
  | None => None
  end.

Definition ref_encodeHeader (a : Alg) : string :=
  match a with
  | HS256 => "HS256"
  | HS384 => "HS384"
  | HS512 => "HS512"
  | OtherAlg => "none"
  end.

Definition ref_decodeHeader (s : string) : option Alg :=
  if String.eqb s "HS256" then Some HS256
  else if String.eqb s "HS384" then Some HS384
  else if String.eqb s "HS512" then Some HS512
  else if String.eqb s "none" then Some OtherAlg
  else None.

(** A stand-in for the MAC: key and message in hexadecimal, behind the
    algorithm's name. *)
Definition ref_hmac (a : Alg) (key msg : string) : string :=
  ref_encodeHeader a ++ hexOfString (key ++ msg).

Definition RefJws : Jws :=
  Build_Jws ref_hmac ref_encodeHeader ref_decodeHeader ref_encodeClaims ref_decodeClaims.

(** The key as HMAC uses it: a key shorter than the block of the hash
    (64 bytes for SHA-256, 128 for SHA-384 and SHA-512) is filled up
    with zero bytes. *)
Definition hmacBlock (a : Alg) : nat :=
  match a with
  | HS256 => 64
  | _ => 128
  end.

Fixpoint zeroBytes (n : nat) : string :=
  match n with
  | O => EmptyString
  | S k => String Ascii.zero (zeroBytes k)
  end.

Definition hmacKey (a : Alg) (key : string) : string :=
  key ++ zeroBytes (hmacBlock a - String.length key).

(** The stand-in for the MAC, with the key padded as HMAC pads it. *)
Definition padded_hmac (a : Alg) (key msg : string) : string :=
  ref_hmac a (hmacKey a key) msg.

Definition PaddedJws : Jws :=
  Build_Jws padded_hmac ref_encodeHeader ref_decodeHeader ref_encodeClaims
    ref_decodeClaims.

Definition jsonField (key : string) (j : Json) : option Json :=
  match j with
  | JObj fields =>
      match find (fun kv => String.eqb (fst kv) key) fields with
      | Some kv => Some (snd kv)
      | None => None
      end
  | _ => None
  end.

Definition jsonString (j : option Json) : option string :=
  match j with
  | Some (JStr s) => Some s
  | _ => None
  end.

Definition jsonStrings (j : option Json) : option (list string) :=
  match j with
  | Some (JArr items) =>
      if forallb (fun x => match x with JStr _ => true | _ => false end) items
      then Some (flat_map (fun x => match x with JStr s => [s] | _ => [] end) items)
      else None
  | _ => None
  end.

Definition validationError : Exn := ErrorObject ZodError "Required".

(** Modelled from the spec: the schemas of [shared/schema] (not among the
    sources): a submission has a name, an e-mail, an optional company
    code and a list of core values; a leadership value has a value and a
    description. *)
Definition ref_parseSubmission (j : Json) : outcome InsertSubmission :=
  match jsonString (jsonField "name" j), jsonString (jsonField "email" j),
        jsonStrings (jsonField "coreValues" j) with
  | Some n, Some e, Some vs =>
      Ok (mkInsertSubmission n e (jsonString (jsonField "companyCode" j)) vs)
  | _, _, _ => Throw validationError
  end.

Definition ref_parseLeadershipValue (j : Json) : outcome InsertLeadershipValue :=
  match jsonString (jsonField "value" j), jsonString (jsonField "description" j) with
  | Some v, Some d => Ok (mkInsertLeadershipValue v d)
  | _, _ => Throw validationError
  end.

Definition RefPlatform (secret : option string) : Platform :=
  Build_Platform secret
    (fun t => encZ t)
    (fun t => encZ t)
    list_byte_of_string
    ref_parseSubmission
    ref_parseLeadershipValue
    (fun e => "Validation error: " ++ errorMessage e)
    (fun name => hd EmptyString (Js.split " " name)).

Definition emptyStore : MemState :=
  mkMemState [] [] [] 1 0 None None MailDelivers.

(** A store that is down: every call throws. *)
Definition connectionRefused : Exn :=
  ErrorObject PlainError "connect ECONNREFUSED 10.0.0.5:5432".

Definition downStore : MemState :=
  mkMemState [] [] [] 1 0 (Some connectionRefused) None MailDelivers.

Definition world (s : MemState) (now : Z) : World MemState :=
  mkWorld s now 0 (fun i => match Byte.of_nat (Nat.modulo i 256) with
                            | Some b => b
                            | None => Byte.x00
                            end) 0 [].

(** The handlers on the reference collaborators, with the default
    secret. *)
Definition platform : Platform := RefPlatform None.

Definition register := @registerUser MemState MemStorage RefCrypto RefJws platform.
Definition login := @loginUser MemState MemStorage RefCrypto RefJws platform.
Definition verify := @verifyToken MemState RefJws platform.
Definition compare := @comparePasswords MemState RefCrypto.
Definition route :=
  @registerRoutes MemState MemStorage MemMailer RefCrypto RefJws platform.

(** A clock value, in milliseconds. *)
Definition t0 : Z := 1700000000000.

(** The world after alice has registered, her record and her token. *)
Definition registered : outcome (option (User * string)) * World MemState :=
  register "alice" "correct horse" (world emptyStore t0).

Definition aliceWorld : World MemState := snd registered.

Definition aliceStore : MemState := w_store aliceWorld.

Definition alice : User :=
  match fst registered with
  | Ok (Some (u, _)) => u
  | _ => mkUser 0 EmptyString EmptyString
  end.

Definition aliceToken : string :=
  match fst registered with
  | Ok (Some (_, tok)) => tok
  | _ => EmptyString
  end.

(** A request of a caller who presents [auth]. *)
Definition request {P B} (auth : option string) (params : P)
  (query : list (string * string)) (body : B) : Request P B :=
  mkRequest auth params query body None.

Definition bearer (token : string) : option string := Some ("Bearer " ++ token).

(** Alice's store with the two submissions of the specification's
    example, and three leadership values. *)
Definition ann : Submission :=
  mkSubmission 2 "Ann" "ann@example.org" (Some "acme")
    (CvArray ["Integrity"; "Courage"]) 1700000000000.

Definition bob : Submission :=
  mkSubmission 3 "Bob" "bob@example.org" (Some "beta") (CvArray ["Honesty"])
    1700000360000.

Definition surveyStore : MemState :=
  mkMemState (ms_users aliceStore)
    [mkLeadershipValue 4 "Integrity" "Doing what is right";
     mkLeadershipValue 5 "Courage" "Acting despite fear"]
    [ann; bob] 6 1700000400000 None None MailDelivers.

(** The same store when the mail provider reports a failure. *)
Definition mailFailingStore : MemState :=
  mkMemState (ms_users aliceStore) [] [] 2 0 None None
    (MailReports (Some (JStr "Invalid API key sk_live_4f2a"))).

(** A store that refuses writes. *)
Definition diskFull : Exn :=
  ErrorObject PlainError "could not extend file: No space left on device".

Definition readOnlyStore : MemState :=
  mkMemState [] [] [] 1 0 None (Some diskFull) MailDelivers.

(** Alice's store when it refuses writes. *)
Definition aliceReadOnlyStore : MemState :=
  mkMemState (ms_users aliceStore) [] [] 2 0 None (Some diskFull) MailDelivers.

(** A store in which mallory's credential has lost its salt. *)
Definition mallory : User := mkUser 7 "mallory" "deadbeef".

Definition corruptStore : MemState :=
  mkMemState [mallory] [] [] 8 0 None None MailDelivers.

Definition surveyWorld : World MemState := world surveyStore t0.

(** A request of alice, and the request the middleware passes on for
    her. *)
Definition asAlice {P B} (params : P) (query : list (string * string)) (body : B)
  : Request P B :=
  request (bearer aliceToken) params query body.

Definition attached {P B} (req : Request P B) (u : User) : Request P B :=
  mkRequest (req_authorization req) (req_params req) (req_query req) (req_body req)
    (Some u).

(** [GET /api/user]. *)
Definition whoami : Request unit unit -> M MemState Response :=
  withAuth (storage := MemStorage) (jws := RefJws) (platform := platform) getCurrentUser.

(** The payload of alice's token. *)
Definition aliceClaims : Claims := mkClaims 1 "alice" 1700000000 (Some 1700604800%Z).

(** A token for alice signed with another secret. *)
Definition forgedToken : string :=
  jwt_sign (jws := RefJws) 1 "alice" "attacker secret" 604800 t0.

(** The process-wide secret followed by a zero byte, and a token for
    alice signed with it. *)
Definition paddedSecret : string :=
  JWT_SECRET (platform := platform) ++ String Ascii.zero EmptyString.

Definition paddedToken : string :=
  jwt_sign (jws := PaddedJws) 1 "alice" paddedSecret 604800 t0.

(** A store in which trent's credential holds a key of two bytes. *)
Definition trent : User := mkUser 8 "trent" "abcd.0011".

Definition truncatedStore : MemState :=
  mkMemState [trent] [] [] 9 0 None None MailDelivers.

(** A request to a route on [/api/leadership-values/:id] and bodies for
    it. *)
Definition courage : LeadershipValue := mkLeadershipValue 5 "Courage" "Acting despite fear".

Definition candourBody : Json :=
  JObj [("value", JStr "Candour"); ("description", JStr "Say it")].

(** A scripted network: it notes each request and gives the answers it
    was loaded with, in order; a request beyond them fails as a request
    does when the network is down. *)
Record ScriptedNet := mkScriptedNet {
  sn_sent : list (string * FetchInit);
  sn_answers : list (outcome FetchResponse)
}.

Definition networkError : Exn := ErrorObject TypeError "Failed to fetch".

Definition scripted_fetch (url : string) (init : FetchInit) (n : ScriptedNet)
  : outcome FetchResponse * ScriptedNet :=
  match sn_answers n with
  | [] => (Throw networkError, mkScriptedNet (sn_sent n ++ [(url, init)]) [])
  | a :: rest => (a, mkScriptedNet (sn_sent n ++ [(url, init)]) rest)
  end.

Definition ScriptedFetch : Fetch ScriptedNet := Build_Fetch ScriptedNet scripted_fetch.

(** A stand-in for [JSON.stringify], without escapes. *)
Fixpoint stringify (j : Json) : string :=
  match j with
  | JNull => "null"
  | JBool true => "true"
  | JBool false => "false"
  | JNum z => toStringJs (JNum z)
  | JStr s => dquote ++ s ++ dquote
  | JArr items => "[" ++ Js.join "," (map stringify items) ++ "]"
  | JObj fields =>
      "{"
      ++ Js.join ","
           (map (fun kv => dquote ++ fst kv ++ dquote ++ ":" ++ stringify (snd kv)) fields)
      ++ "}"
  end.

Definition RefClientEnv : ClientEnv :=
  Build_ClientEnv (Some "https://api.example.org") stringify.

(** A browser with the token given in [localStorage], nothing cached or
    shown, and a network loaded with answers. *)
Definition browser (token : option string) (answers : list (outcome FetchResponse))
  : World (Browser ScriptedNet) :=
  mkWorld
    (mkBrowser (match token with Some t => [("authToken", t)] | None => [] end)
       [] [] [] (mkScriptedNet [] answers))
    t0 0 (fun _ => Byte.x00) 0 [].

(** The answer of the network for a response of the server with a JSON
    body. *)
Definition answered (status : nat) (statusText : string) (j : Json)
  : outcome FetchResponse :=
  Ok (mkFetchResponse status statusText (Ok (stringify j)) (Ok j)).

Definition aliceCredentials : LoginData := mkLoginData "alice" "correct horse".

(** A world under observation, with no failure met yet, and the routes
    on the observed reference collaborators. *)
Definition observing (w : World MemState) : World (Monitored MemState) :=
  mkWorld (mkMonitored (w_store w) []) (w_now w) (w_uptime w) (w_random w)
    (w_random_pos w) (w_console w).

Definition watched :=
  @registerRoutes (Monitored MemState) (MonitoredStorage (storage := MemStorage))
    (MonitoredMailer (mailer := MemMailer)) RefCrypto RefJws platform.

(** A store whose rows fail the validation of the storage layer: every
    call throws a [ZodError]. *)
Definition rowInvalid : Exn :=
  ErrorObject ZodError "Expected array, received string at coreValues".

Definition invalidRowStore : MemState :=
  mkMemState [] [] [] 1 0 (Some rowInvalid) None MailDelivers.

(** A valid body for [POST /api/submissions]. *)
Definition annBody : Json :=
  JObj [("name", JStr "Ann"); ("email", JStr "ann@example.org");
        ("companyCode", JStr "acme");
        ("coreValues", JArr [JStr "Integrity"; JStr "Courage"])].

Definition pdfRequest : Request unit PdfEmailBody :=
  request None tt []
    (mkPdfEmailBody (Some "data:application/pdf;base64,JVBERi0xLjQ=")
       (Some (mkUserInfo (Some "ann@example.org") (Some "Ann Lee")))
       (Some [mkCoreValueItem "Integrity" "Doing what is right"])).

End Ref.

(* ================================================================== *)
(** ** Strings and buffers *)
(* ================================================================== *)

Lemma append_String (c : ascii) (a b : string) :
  (String c a ++ b)%string = String c (a ++ b).
Proof. reflexivity. Qed.

Lemma append_assoc (a b c : string) : ((a ++ b) ++ c)%string = (a ++ (b ++ c))%string.
Proof.
  induction a as [|x a IH]; simpl; [reflexivity|].
  now rewrite IH.
Qed.

Lemma split_not_nil (sep : ascii) (s : string) : Js.split sep s <> [].
Proof.
  destruct s as [|c s]; simpl; [discriminate|].
  destruct (Ascii.eqb c sep); [discriminate|].
  destruct (Js.split sep s); discriminate.
Qed.

(** A string without the separator is the only part of its split. *)
Lemma split_lacks (sep : ascii) (s : string) :
  Js.lacks sep s = true -> Js.split sep s = [s].
Proof.
  induction s as [|c s IH]; simpl; intros Hl; [reflexivity|].
  apply andb_true_iff in Hl as [Hc Hs].
  apply negb_true_iff in Hc. rewrite Hc, (IH Hs). reflexivity.
Qed.

(** The first part of a split ends at the first separator. *)
Lemma split_app (sep : ascii) (a b : string) :
  Js.lacks sep a = true ->
  Js.split sep (a ++ String sep b) = a :: Js.split sep b.
Proof.
  induction a as [|c a IH]; simpl; intros Hl.
  - now rewrite Ascii.eqb_refl.
  - apply andb_true_iff in Hl as [Hc Ha].
    apply negb_true_iff in Hc. rewrite Hc, (IH Ha). reflexivity.
Qed.

Lemma lacks_app (sep : ascii) (a b : string) :
  Js.lacks sep (a ++ b) = (Js.lacks sep a && Js.lacks sep b)%bool.
Proof.
  induction a as [|c a IH]; simpl; [reflexivity|].
  now rewrite IH, andb_assoc.
Qed.

Lemma split3 (sep : ascii) (a b c : string) :
  Js.lacks sep a = true -> Js.lacks sep b = true -> Js.lacks sep c = true ->
  Js.split sep (a ++ String sep (b ++ String sep c)) = [a; b; c].
Proof.
  intros Ha Hb Hc.
  rewrite (split_app sep a _ Ha), (split_app sep b _ Hb), (split_lacks sep c Hc).
  reflexivity.
Qed.

Lemma truthy_app_String (a b : string) (c : ascii) :
  Js.truthy (a ++ String c b) = true.
Proof. destruct a; reflexivity. Qed.

Lemma from_hex_hexOfByte (b : byte) (rest : string) :
  Buffer.from_hex (Buffer.hexOfByte b ++ rest) = b :: Buffer.from_hex rest.
Proof. destruct b; reflexivity. Qed.

(** Decoding the hexadecimal text of a buffer gives the buffer back. *)
Lemma from_hex_toString_hex (buf : Buffer.t) :
  Buffer.from_hex (Buffer.toString_hex buf) = buf.
Proof.
  induction buf as [|b buf IH]; [reflexivity|].
  cbn [Buffer.toString_hex]. rewrite from_hex_hexOfByte, IH. reflexivity.
Qed.

Lemma hexOfByte_lacks_dot (b : byte) : Js.lacks "." (Buffer.hexOfByte b) = true.
Proof. destruct b; reflexivity. Qed.

Lemma toString_hex_lacks_dot (buf : Buffer.t) :
  Js.lacks "." (Buffer.toString_hex buf) = true.
Proof.
  induction buf as [|b buf IH]; [reflexivity|].
  cbn [Buffer.toString_hex]. now rewrite lacks_app, hexOfByte_lacks_dot, IH.
Qed.

Lemma Buffer_eqb_refl (a : Buffer.t) : Buffer.eqb a a = true.
Proof. unfold Buffer.eqb. destruct (list_eq_dec Byte.byte_eq_dec a a); congruence. Qed.

Lemma Buffer_eqb_eq (a b : Buffer.t) : Buffer.eqb a b = true <-> a = b.
Proof.
  unfold Buffer.eqb. destruct (list_eq_dec Byte.byte_eq_dec a b); split; congruence.
Qed.

(** *** What [parseInt] reads *)

Lemma readDigits_Some (radix : Z) (s : string) (a : Z) :
  exists n, Js.readDigits radix s (Some a) = Some n.
Proof.
  revert a. induction s as [|c s IH]; intros a; cbn [Js.readDigits]; [now exists a|].
  destruct (Js.digitValue c) as [d|]; [|now exists a].
  destruct (d <? radix)%Z; [apply IH|now exists a].
Qed.

Lemma digit_facts (c : ascii) :
  isDigit c = true ->
  Js.isWhiteSpace c = false /\ Ascii.eqb c "-" = false /\ Ascii.eqb c "+" = false /\
  Ascii.eqb c "x" = false /\ Ascii.eqb c "X" = false /\
  exists d, Js.digitValue c = Some d /\ (d <? 10)%Z = true.
Proof.
  destruct c as [[] [] [] [] [] [] [] []]; try discriminate; intros _;
    repeat (split; [reflexivity|]); eexists; split; reflexivity.
Qed.

Lemma readDigits_digits (s : string) :
  allDigits s = true -> s <> EmptyString ->
  exists n, Js.readDigits 10 s None = Some n.
Proof.
  destruct s as [|c s]; [congruence|]. cbn [allDigits Js.readDigits].
  intros Hd _. apply andb_true_iff in Hd as [Hc _].
  destruct (digit_facts c Hc) as (_ & _ & _ & _ & _ & d & -> & ->).
  apply readDigits_Some.
Qed.

(** The radix prefix test does not fire on digits. *)
Lemma parseInt_digits (sign : Z) (s : string) :
  allDigits s = true -> s <> EmptyString ->
  exists n,
    (let '(radix, s3) :=
       match s with
       | String c0 (String c1 r) =>
           if Ascii.eqb c0 "0" && (Ascii.eqb c1 "x" || Ascii.eqb c1 "X")
           then (16%Z, r)
           else (10%Z, s)
       | _ => (10%Z, s)
       end in
     match Js.readDigits radix s3 None with
     | None => Js.NaN
     | Some n => Js.Int (sign * n)
     end) = Js.Int n.
Proof.
  intros Hd Hne. destruct (readDigits_digits s Hd Hne) as [n Hn].
  destruct s as [|c0 [|c1 r]]; [congruence| |].
  - rewrite Hn. now eexists.
  - cbn [allDigits] in Hd. apply andb_true_iff in Hd as [_ Hd].
    apply andb_true_iff in Hd as [Hc1 _].
    destruct (digit_facts c1 Hc1) as (_ & _ & _ & -> & -> & _).
    rewrite andb_false_r. rewrite Hn. now eexists.
Qed.

(** An id that is numeric is read by [parseInt]: it is never refused
    with 400. *)
Lemma numeric_id_parses (s : string) :
  isNumericId s = true -> exists n, Js.parseInt s = Js.Int n.
Proof.
  destruct s as [|c rest]; [discriminate|]. cbn [isNumericId].
  destruct (Ascii.eqb c "-") eqn:Hminus.
  - apply Ascii.eqb_eq in Hminus. subst c. intros Hd.
    apply andb_true_iff in Hd as [Hne Hd].
    apply negb_true_iff, String.eqb_neq in Hne.
    unfold Js.parseInt. cbn [Js.trimStart].
    change (Js.isWhiteSpace "-") with false. cbv iota.
    change (Ascii.eqb "-" "-") with true. cbv iota beta.
    now apply (parseInt_digits (-1) rest).
  - intros Hd. pose proof Hd as Hall. cbn [allDigits] in Hd.
    apply andb_true_iff in Hd as [Hc _].
    destruct (digit_facts c Hc) as (Hws & _ & Hplus & _).
    unfold Js.parseInt. cbn [Js.trimStart]. rewrite Hws, Hminus, Hplus.
    cbv iota beta. apply (parseInt_digits 1 (String c rest)); [exact Hall|discriminate].
Qed.

(** *** Tokens as text *)

Lemma token_shape (a b c : string) :
  ((a ++ "." ++ b) ++ "." ++ c)%string = (a ++ String "." (b ++ String "." c))%string.
Proof. rewrite append_assoc. reflexivity. Qed.

(* ================================================================== *)
(** ** Tokens, passwords and the middleware *)
(* ================================================================== *)

Section AuthProperties.

Context {St : Type} {storage : IStorage St} {crypto : Crypto} {jws : Jws} {platform : Platform}.

(** [verifyToken] is [jwt.verify] with every failure turned into [null];
    it leaves the world as it is. *)
Lemma verifyToken_eq (token : string) (w : World St) :
  verifyToken token w =
  (match jwt_verify token JWT_SECRET (w_now w) with
   | Ok c => Ok (Some c)
   | Throw _ => Ok None
   end, w).
Proof.
  unfold verifyToken, try_catch, bind, Date_now, lift, ret.
  destruct (jwt_verify token JWT_SECRET (w_now w)); reflexivity.
Qed.

(** The only way through [jwt.verify]: three segments, a header and a
    payload that decode, an HMAC algorithm, the signature of the secret,
    and an expiry, if any, in the future. *)
Lemma jwt_verify_Ok (token secret : string) (now : Z) (c : Claims) :
  jwt_verify token secret now = Ok c ->
  exists h p s alg,
    Js.split "." token = [h; p; s] /\ decodeHeader h = Some alg /\
    decodeClaims p = Some c /\ isHmacAlg alg = true /\
    s = hmac alg secret (h ++ "." ++ p) /\
    (forall e, exp c = Some e -> (now / 1000 < e)%Z).
Proof.
  unfold jwt_verify. intros Hv.
  destruct (negb (Js.truthy token)); [discriminate|].
  destruct (Js.split "." token) as [|h [|p [|s [|x rest]]]]; try discriminate.
  destruct (decodeHeader h) as [alg|] eqn:Hh; [|discriminate].
  destruct (decodeClaims p) as [c'|] eqn:Hp; [|discriminate].
  destruct (Js.isBlank s); [discriminate|].
  destruct (isHmacAlg alg) eqn:Ha; [|discriminate]. cbn [negb] in Hv.
  destruct (String.eqb s (hmac alg secret (h ++ "." ++ p))) eqn:Hs; [|discriminate].
  cbn [negb] in Hv. apply String.eqb_eq in Hs.
  exists h, p, s, alg.
  destruct (exp c') as [e|] eqn:He.
  - destruct (Z.leb_spec e (now / 1000)); [discriminate|].
    injection Hv as <-. repeat (split; [solve [auto]|]).
    intros e' He'. rewrite He in He'. injection He' as <-. assumption.
  - injection Hv as <-. repeat (split; [solve [auto]|]).
    intros e' He'. rewrite He in He'. discriminate.
Qed.

(** [comparePasswords] leaves the world as it is; it throws when the
    stored credential has no salt or a key of another length than the
    derived one, and otherwise compares the two keys. *)
Lemma comparePasswords_eq (supplied stored : string) (w : World St) :
  comparePasswords supplied stored w =
  (match storedSalt stored with
   | None => Throw ERR_INVALID_ARG_TYPE_salt
   | Some salt =>
       if Nat.eqb (length (storedKey stored)) (length (scrypt supplied salt 64))
       then Ok (Buffer.eqb (storedKey stored) (scrypt supplied salt 64))
       else Throw ERR_CRYPTO_TIMING_SAFE_EQUAL_LENGTH
   end, w).
Proof.
  unfold comparePasswords, storedSalt, storedKey.
  destruct (Js.split "." stored) as [|hashed rest] eqn:Hs.
  - now apply split_not_nil in Hs.
  - destruct rest as [|salt rest]; cbn [hd_error nth_error hd].
    + reflexivity.
    + unfold bind, scryptAsync, ret, timingSafeEqual.
      destruct (Nat.eqb _ _); reflexivity.
Qed.

Lemma comparePasswords_true (supplied stored : string) (w : World St) :
  passwordMatches supplied stored = true ->
  comparePasswords supplied stored w = (Ok true, w).
Proof.
  unfold passwordMatches. rewrite comparePasswords_eq.
  destruct (storedSalt stored) as [salt|]; [|discriminate].
  intros Hm. rewrite Hm. apply Buffer_eqb_eq in Hm. rewrite Hm, Nat.eqb_refl.
  reflexivity.
Qed.

Lemma comparePasswords_not_true (supplied stored : string) (w : World St) :
  passwordMatches supplied stored = false ->
  fst (comparePasswords supplied stored w) <> Ok true.
Proof.
  unfold passwordMatches. rewrite comparePasswords_eq.
  destruct (storedSalt stored) as [salt|]; cbn [fst]; [|discriminate].
  intros Hm. rewrite Hm. destruct (Nat.eqb _ _); discriminate.
Qed.

(** The stored credential of [hashPassword] matches its password. *)
Lemma credential_matches (pass salt : string) :
  Js.lacks "." salt = true ->
  passwordMatches pass (credential pass salt) = true.
Proof.
  intros Hsalt. unfold passwordMatches, storedSalt, storedKey, credential.
  change (Buffer.toString_hex (scrypt pass salt 64) ++ "." ++ salt)%string
    with (Buffer.toString_hex (scrypt pass salt 64) ++ String "." salt)%string.
  rewrite split_app by apply toString_hex_lacks_dot.
  rewrite (split_lacks _ _ Hsalt). cbn [nth_error hd].
  rewrite from_hex_toString_hex. apply Buffer_eqb_refl.
Qed.

Lemma hashPassword_eq (pass : string) (w : World St) :
  hashPassword pass w =
  (Ok (credential pass (nextSalt w)),
   mkWorld (w_store w) (w_now w) (w_uptime w) (w_random w) (w_random_pos w + 16)
     (w_console w)).
Proof. reflexivity. Qed.

(** What [loginUser] returns, by what storage and the password check
    give. *)
Lemma loginUser_eq (uname pass : string) (w : World St) :
  loginUser uname pass w =
  match getUserByUsername uname (w_store w) with
  | (Throw e, s') => (Ok None, logged (set_store w s') "Login error:" e)
  | (Ok None, s') => (Ok None, set_store w s')
  | (Ok (Some u), s') =>
      match fst (comparePasswords pass (user_password u) (set_store w s')) with
      | Throw e => (Ok None, logged (set_store w s') "Login error:" e)
      | Ok false => (Ok None, set_store w s')
      | Ok true =>
          (Ok (Some (u, jwt_sign (user_id u) (user_username u) JWT_SECRET JWT_EXPIRES_IN
                          (w_now w))),
           set_store w s')
      end
  end.
Proof.
  unfold loginUser, try_catch, bind, call.
  destruct (getUserByUsername uname (w_store w)) as [[[u|]|e] s']; try reflexivity.
  rewrite comparePasswords_eq. cbn [fst].
  destruct (storedSalt (user_password u)) as [salt|]; [|reflexivity].
  destruct (Nat.eqb _ _); [|reflexivity].
  destruct (Buffer.eqb _ _); reflexivity.
Qed.

Context {laws : JwsLaws}.

(** A token signed with a secret verifies under the same secret until it
    expires, and gives back the payload that was signed. *)
Lemma jwt_verify_sign (uid : Z) (un secret : string) (ttl t now : Z) :
  (now / 1000 < t / 1000 + ttl)%Z ->
  jwt_verify (jwt_sign uid un secret ttl t) secret now = Ok (jwt_payload uid un ttl t).
Proof.
  intros Hlt. unfold jwt_sign, jwt_verify, jwt_signingInput.
  rewrite token_shape, truthy_app_String. cbn [negb].
  rewrite split3
    by (apply encodeHeader_lacks_dot || apply encodeClaims_lacks_dot || apply hmac_lacks_dot).
  rewrite decode_encodeHeader, decode_encodeClaims, hmac_not_blank.
  cbn [isHmacAlg negb]. rewrite String.eqb_refl. cbn [negb exp jwt_payload].
  destruct (Z.leb_spec (t / 1000 + ttl) (now / 1000)); [lia|reflexivity].
Qed.

(** The token [generateToken] issues is accepted by [verifyToken] in
    every world whose clock is before the expiry. *)
Lemma verifyToken_generated (u : User) (t : Z) (w : World St) :
  (w_now w / 1000 < t / 1000 + 604800)%Z ->
  verifyToken (jwt_sign (user_id u) (user_username u) JWT_SECRET JWT_EXPIRES_IN t) w =
  (Ok (Some (jwt_payload (user_id u) (user_username u) JWT_EXPIRES_IN t)), w).
Proof.
  intros Hlt. rewrite verifyToken_eq, jwt_verify_sign; [reflexivity|].
  unfold JWT_EXPIRES_IN. exact Hlt.
Qed.

(** ** C1: register, then login, then verify *)

(** C1. When no user has the username and storage persists the new user
    (it stores the credential it is given and finds the user again),
    [registerUser] returns the user and a token, and [loginUser] with the
    same credentials, in any world whose storage is the one registration
    left, returns the user and a token that [verifyToken] accepts, at
    once and until the token's seven days are over, with the user's
    identifier and username in it. *)
Theorem register_then_login_verifies
  (w0 : World St) (uname pass : string) (s1 s2 s3 : St) (u : User) :
  getUserByUsername uname (w_store w0) = (Ok None, s1) ->
  createUser (mkInsertUser uname (credential pass (nextSalt w0))) s1 = (Ok u, s2) ->
  user_password u = credential pass (nextSalt w0) ->
  getUserByUsername uname s2 = (Ok (Some u), s3) ->
  exists tok0 w1,
    registerUser uname pass w0 = (Ok (Some (u, tok0)), w1) /\
    w_store w1 = s2 /\
    forall w2, w_store w2 = s2 ->
      exists tok w3 c,
        loginUser uname pass w2 = (Ok (Some (u, tok)), w3) /\
        verifyToken tok w3 = (Ok (Some c), w3) /\
        userId c = user_id u /\ username c = user_username u /\
        forall w4 : World St, (w_now w4 / 1000 < w_now w2 / 1000 + 604800)%Z ->
          verifyToken tok w4 = (Ok (Some c), w4).
Proof.
  intros Habsent Hcreate Hstored Hfound.
  eexists. eexists. split.
  { unfold registerUser, try_catch, bind, call. rewrite Habsent.
    rewrite hashPassword_eq. cbn [w_store set_store].
    change (nextSalt (set_store w0 s1)) with (nextSalt w0).
    rewrite Hcreate. reflexivity. }
  split; [reflexivity|].
  intros w2 Hw2.
  exists (jwt_sign (user_id u) (user_username u) JWT_SECRET JWT_EXPIRES_IN (w_now w2)),
         (set_store w2 s3),
         (jwt_payload (user_id u) (user_username u) JWT_EXPIRES_IN (w_now w2)).
  split.
  { rewrite loginUser_eq, Hw2, Hfound.
    rewrite comparePasswords_true; [reflexivity|].
    rewrite Hstored. apply credential_matches. apply toString_hex_lacks_dot. }
  split; [apply verifyToken_generated; cbn; lia|].
  split; [reflexivity|]. split; [reflexivity|].
  intros w4 Hlt. now apply verifyToken_generated.
Qed.

(** A route behind [authenticateToken] answers with the middleware's
    response, or runs its handler on the request the middleware passes
    on. *)
Lemma withAuth_eq {P B} (handler : Request P B -> M St Response) (req : Request P B)
  (w : World St) :
  withAuth handler req w =
  match authenticateToken req w with
  | (Ok (Respond resp), w') => (Ok resp, w')
  | (Ok (Next req'), w') => handler req' w'
  | (Throw e, w') => (Throw e, w')
  end.
Proof.
  unfold withAuth, bind.
  destruct (authenticateToken req w) as [[[resp|req']|e] w']; reflexivity.
Qed.

(** What the middleware does, by the token, its verification and the
    storage lookup. *)
Lemma authenticateToken_eq {P B} (req : Request P B) (w : World St) :
  authenticateToken req w =
  match bearerToken (req_authorization req) with
  | None => (Ok (Respond (status_json 401 (message "Access token required"))), w)
  | Some tok =>
      if negb (Js.truthy tok)
      then (Ok (Respond (status_json 401 (message "Access token required"))), w)
      else
        match jwt_verify tok JWT_SECRET (w_now w) with
        | Throw _ => (Ok (Respond (status_json 403 (message "Invalid or expired token"))), w)
        | Ok d =>
            match getUser (userId d) (w_store w) with
            | (Ok None, s') =>
                (Ok (Respond (status_json 403 (message "User not found"))), set_store w s')
            | (Ok (Some u), s') =>
                (Ok (Next (mkRequest (req_authorization req) (req_params req)
                             (req_query req) (req_body req) (Some u))),
                 set_store w s')
            | (Throw _, s') =>
                (Ok (Respond (status_json 500 (message "Authentication error"))),
                 set_store w s')
            end
        end
  end.
Proof.
  unfold authenticateToken.
  destruct (bearerToken (req_authorization req)) as [tok|]; [|reflexivity].
  destruct (negb (Js.truthy tok)); [reflexivity|].
  unfold bind at 1. rewrite verifyToken_eq.
  destruct (jwt_verify tok JWT_SECRET (w_now w)) as [d|e]; [|reflexivity].
  unfold try_catch, bind, call.
  destruct (getUser (userId d) (w_store w)) as [[[u|]|e] s']; reflexivity.
Qed.

(** ** C2: the four stages of the auth middleware *)

(** C2. On a route behind [authenticateToken]: without a bearer token the
    answer is 401; with a token that fails verification it is 403; with
    a verified token whose user storage does not have it is 403; when
    the storage lookup throws it is 500; in these four cases the answer
    does not depend on the handler, which is not run.  Otherwise the
    handler runs on the request with the user attached. *)
Theorem authenticateToken_stages {P B}
  (handler : Request P B -> M St Response) (req : Request P B) (w : World St) :
  (Js.truthy_opt (bearerToken (req_authorization req)) = false ->
   withAuth handler req w =
   (Ok (status_json 401 (message "Access token required")), w))
  /\
  (forall tok,
     bearerToken (req_authorization req) = Some tok -> Js.truthy tok = true ->
     (verifyToken tok w = (Ok None, w) ->
      withAuth handler req w =
      (Ok (status_json 403 (message "Invalid or expired token")), w))
     /\
     (forall d, verifyToken tok w = (Ok (Some d), w) ->
        (forall s', getUser (userId d) (w_store w) = (Ok None, s') ->
           withAuth handler req w =
           (Ok (status_json 403 (message "User not found")), set_store w s'))
        /\
        (forall e s', getUser (userId d) (w_store w) = (Throw e, s') ->
           withAuth handler req w =
           (Ok (status_json 500 (message "Authentication error")), set_store w s'))
        /\
        (forall u s', getUser (userId d) (w_store w) = (Ok (Some u), s') ->
           withAuth handler req w =
           handler (mkRequest (req_authorization req) (req_params req) (req_query req)
                      (req_body req) (Some u))
             (set_store w s')))).
Proof.
  rewrite withAuth_eq, authenticateToken_eq. split.
  - destruct (bearerToken (req_authorization req)) as [tok|]; cbn [Js.truthy_opt].
    + intros ->. reflexivity.
    + reflexivity.
  - intros tok -> Htok. rewrite Htok. cbn [negb].
    rewrite verifyToken_eq.
    destruct (jwt_verify tok JWT_SECRET (w_now w)) as [d|e]; split.
    + discriminate.
    + intros d' [= <-]. repeat split.
      * intros s' ->. reflexivity.
      * intros e s' ->. reflexivity.
      * intros u s' ->. reflexivity.
    + reflexivity.
    + discriminate.
Qed.

(** ** C3: [verifyToken] never throws, and what it refuses *)

(** C3, as the code has it.  [verifyToken] returns, for every string
    and in every world, the decoded payload or [null], and changes
    nothing.  It returns [null] for a token whose payload holds an
    expiry that has passed, for the token [generateToken] issued once
    its seven days are over, and for a malformed string: one that is not
    three segments, or whose header or payload does not decode.  A token
    signed with another secret is judged by its MAC alone: it gives
    [null] when the MAC under that secret is not the MAC under the
    process-wide secret, and it is accepted, until it expires, when the
    two MACs are the same. *)
Theorem verifyToken_total_and_rejects (token : string) (w : World St) :
  (exists r, verifyToken token w = (Ok r, w))
  /\
  (forall h p s c e,
     Js.split "." token = [h; p; s] -> decodeClaims p = Some c -> exp c = Some e ->
     (e <= w_now w / 1000)%Z ->
     verifyToken token w = (Ok None, w))
  /\
  (forall u t,
     token = jwt_sign (user_id u) (user_username u) JWT_SECRET JWT_EXPIRES_IN t ->
     (t / 1000 + 604800 <= w_now w / 1000)%Z ->
     verifyToken token w = (Ok None, w))
  /\
  (forall uid un secret ttl t,
     token = jwt_sign uid un secret ttl t ->
     hmac HS256 secret (jwt_signingInput (jwt_payload uid un ttl t))
     <> hmac HS256 JWT_SECRET (jwt_signingInput (jwt_payload uid un ttl t)) ->
     verifyToken token w = (Ok None, w))
  /\
  (length (Js.split "." token) <> 3%nat -> verifyToken token w = (Ok None, w))
  /\
  (forall h p s,
     Js.split "." token = [h; p; s] ->
     decodeHeader h = None \/ decodeClaims p = None ->
     verifyToken token w = (Ok None, w))
  /\
  (forall uid un secret ttl t,
     token = jwt_sign uid un secret ttl t ->
     hmac HS256 secret (jwt_signingInput (jwt_payload uid un ttl t))
     = hmac HS256 JWT_SECRET (jwt_signingInput (jwt_payload uid un ttl t)) ->
     (w_now w / 1000 < t / 1000 + ttl)%Z ->
     verifyToken token w = (Ok (Some (jwt_payload uid un ttl t)), w)).
Proof.
  rewrite verifyToken_eq.
  assert (Hsigned : forall uid un secret ttl t,
             Js.split "." (jwt_sign uid un secret ttl t) =
             [encodeHeader HS256; encodeClaims (jwt_payload uid un ttl t);
              hmac HS256 secret (jwt_signingInput (jwt_payload uid un ttl t))]).
  { intros. unfold jwt_sign, jwt_signingInput. rewrite token_shape.
    apply split3;
      (apply encodeHeader_lacks_dot || apply encodeClaims_lacks_dot || apply hmac_lacks_dot). }
  assert (Hsame : forall uid un secret ttl t,
             token = jwt_sign uid un secret ttl t ->
             hmac HS256 secret (jwt_signingInput (jwt_payload uid un ttl t))
             = hmac HS256 JWT_SECRET (jwt_signingInput (jwt_payload uid un ttl t)) ->
             (w_now w / 1000 < t / 1000 + ttl)%Z ->
             jwt_verify token JWT_SECRET (w_now w) = Ok (jwt_payload uid un ttl t)).
  { intros uid un secret ttl t -> Hmac Hlt.
    assert (Htok : jwt_sign uid un secret ttl t = jwt_sign uid un JWT_SECRET ttl t).
    { unfold jwt_sign. cbv zeta. now rewrite Hmac. }
    rewrite Htok. now apply jwt_verify_sign. }
  destruct (jwt_verify token JWT_SECRET (w_now w)) as [c|err] eqn:Hv.
  2:{ split; [eexists; reflexivity|]. repeat (split; [reflexivity|]).
      intros uid un secret ttl t Htok Hmac Hlt.
      pose proof (Hsame uid un secret ttl t Htok Hmac Hlt) as Hok. congruence. }
  pose proof Hv as Hv0.
  apply jwt_verify_Ok in Hv as (h & p & s & alg & Hsplit & Hh & Hp & Halg & Hs & Hexp).
  split; [eexists; reflexivity|].
  split; [|split; [|split; [|split; [|split]]]].
  - intros h' p' s' c' e Hsplit' Hp' He Hle. exfalso.
    rewrite Hsplit in Hsplit'. injection Hsplit' as <- <- <-.
    rewrite Hp in Hp'. injection Hp' as <-.
    specialize (Hexp e He). lia.
  - intros u t -> Hle. exfalso.
    rewrite Hsigned in Hsplit. injection Hsplit as <- <- <-.
    rewrite decode_encodeClaims in Hp. injection Hp as <-.
    specialize (Hexp _ eq_refl). unfold JWT_EXPIRES_IN in Hexp. lia.
  - intros uid un secret ttl t -> Hneq. exfalso.
    rewrite Hsigned in Hsplit. injection Hsplit as <- <- <-.
    rewrite decode_encodeHeader in Hh. injection Hh as <-.
    apply Hneq. exact Hs.
  - intros Hlen. exfalso. rewrite Hsplit in Hlen. now apply Hlen.
  - intros h' p' s' Hsplit' Hbad. exfalso.
    rewrite Hsplit in Hsplit'. injection Hsplit' as <- <- <-.
    destruct Hbad as [Hbad|Hbad]; congruence.
  - intros uid un secret ttl t Htok Hmac Hlt.
    pose proof (Hsame uid un secret ttl t Htok Hmac Hlt) as Hok. congruence.
Qed.

(** ** C4: what [loginUser] does with the password *)

(** C4. When storage has no user of that name, [loginUser] returns
    [null]; when it has one and the key derived from the supplied
    password is not the stored one, it returns [null]; when it is the
    stored one, it returns the user and a token in which [verifyToken]
    finds the user's username and identifier. *)
Theorem loginUser_checks_password (uname pass : string) (w : World St) :
  (forall s', getUserByUsername uname (w_store w) = (Ok None, s') ->
     loginUser uname pass w = (Ok None, set_store w s'))
  /\
  (forall u s', getUserByUsername uname (w_store w) = (Ok (Some u), s') ->
     passwordMatches pass (user_password u) = false ->
     exists w', loginUser uname pass w = (Ok None, w'))
  /\
  (forall u s', getUserByUsername uname (w_store w) = (Ok (Some u), s') ->
     passwordMatches pass (user_password u) = true ->
     exists tok c,
       loginUser uname pass w = (Ok (Some (u, tok)), set_store w s') /\
       verifyToken tok (set_store w s') = (Ok (Some c), set_store w s') /\
       username c = user_username u /\ userId c = user_id u).
Proof.
  rewrite loginUser_eq. repeat split.
  - intros s' ->. reflexivity.
  - intros u s' -> Hm.
    pose proof (comparePasswords_not_true pass (user_password u) (set_store w s') Hm) as Hn.
    destruct (fst (comparePasswords pass (user_password u) (set_store w s')))
      as [[|]|e]; [congruence| |]; eexists; reflexivity.
  - intros u s' -> Hm.
    rewrite (comparePasswords_true _ _ _ Hm). cbn [fst].
    eexists. eexists. split; [reflexivity|].
    split; [apply verifyToken_generated; cbn; lia|].
    split; reflexivity.
Qed.

End AuthProperties.

(* ================================================================== *)
(** ** Faults in login and registration *)
(* ================================================================== *)

Section FaultProperties.

Context {St : Type} {storage : IStorage St} {mailer : Mailer St} {crypto : Crypto} {jws : Jws} {platform : Platform}.

(** What [registerUser] returns, by what storage gives. *)
Lemma registerUser_eq (uname pass : string) (w : World St) :
  registerUser uname pass w =
  match getUserByUsername uname (w_store w) with
  | (Throw e, s1) => (Ok None, logged (set_store w s1) "Registration error:" e)
  | (Ok (Some _), s1) => (Ok None, set_store w s1)
  | (Ok None, s1) =>
      let w1 := mkWorld s1 (w_now w) (w_uptime w) (w_random w) (w_random_pos w + 16)
                  (w_console w) in
      match createUser (mkInsertUser uname (credential pass (nextSalt w))) s1 with
      | (Throw e, s2) => (Ok None, logged (set_store w1 s2) "Registration error:" e)
      | (Ok u, s2) =>
          (Ok (Some (u, jwt_sign (user_id u) (user_username u) JWT_SECRET JWT_EXPIRES_IN
                          (w_now w))),
           set_store w1 s2)
      end
  end.
Proof.
  unfold registerUser, try_catch, bind, call.
  destruct (getUserByUsername uname (w_store w)) as [[[u|]|e] s1]; try reflexivity.
  rewrite hashPassword_eq. cbn [w_store set_store].
  change (nextSalt (set_store w s1)) with (nextSalt w).
  destruct (createUser _ s1) as [[u|e] s2]; reflexivity.
Qed.

(** [loginUser] and [registerUser] never throw. *)
Lemma loginUser_returns (uname pass : string) (w : World St) :
  exists r w', loginUser uname pass w = (Ok r, w').
Proof.
  rewrite loginUser_eq.
  destruct (getUserByUsername uname (w_store w)) as [[[u|]|e] s'];
    try (eexists; eexists; reflexivity).
  destruct (fst (comparePasswords pass (user_password u) (set_store w s'))) as [[|]|e];
    eexists; eexists; reflexivity.
Qed.

Lemma registerUser_returns (uname pass : string) (w : World St) :
  exists r w', registerUser uname pass w = (Ok r, w').
Proof.
  rewrite registerUser_eq.
  destruct (getUserByUsername uname (w_store w)) as [[[u|]|e] s'];
    try (eexists; eexists; reflexivity).
  cbv zeta. destruct (createUser _ s') as [[u|e] s2]; eexists; eexists; reflexivity.
Qed.

(** The answer of [POST /api/login] and [POST /api/register] to
    credentials that are both present and not empty. *)
Lemma postLogin_eq {P} (req : Request P Credentials) (uname pass : string) (w : World St) :
  cred_username (req_body req) = Some uname -> cred_password (req_body req) = Some pass ->
  Js.truthy uname = true -> Js.truthy pass = true ->
  postLogin req w =
  match loginUser uname pass w with
  | (Ok None, w') => (Ok (status_json 401 (message "Invalid credentials")), w')
  | (Ok (Some r), w') => (Ok (res_json (authBody r)), w')
  | (Throw e, w') =>
      (Ok (status_json 500 (message "Internal server error")), logged w' "Login error:" e)
  end.
Proof.
  intros Hu Hp Htu Htp. unfold postLogin, try_catch. rewrite Hu, Hp, Htu, Htp.
  cbn [negb orb]. unfold bind.
  destruct (loginUser uname pass w) as [[[r|]|e] w']; reflexivity.
Qed.

Lemma postRegister_eq {P} (req : Request P Credentials) (uname pass : string)
  (w : World St) :
  cred_username (req_body req) = Some uname -> cred_password (req_body req) = Some pass ->
  Js.truthy uname = true -> Js.truthy pass = true ->
  postRegister req w =
  match registerUser uname pass w with
  | (Ok None, w') => (Ok (status_json 400 (message "Username already exists")), w')
  | (Ok (Some r), w') => (Ok (status_json 201 (authBody r)), w')
  | (Throw e, w') =>
      (Ok (status_json 500 (message "Internal server error")),
       logged w' "Registration error:" e)
  end.
Proof.
  intros Hu Hp Htu Htp. unfold postRegister, try_catch. rewrite Hu, Hp, Htu, Htp.
  cbn [negb orb]. unfold bind.
  destruct (registerUser uname pass w) as [[[r|]|e] w']; reflexivity.
Qed.

(** ** C5: a fault and a rejection give the same result *)

(** C5, as the code has it.  In [loginUser] and [registerUser] a fault of
    storage or of the hasher is caught, written to the console and
    surfaced as [null]: the result of the invalid-credentials and
    duplicate-username rejections.  The routes answer 401 "Invalid
    credentials" and 400 "Username already exists" to a fault as to a
    rejection.  Only the console tells them apart: a rejection writes
    nothing to it. *)
Theorem faults_surface_as_null (uname pass : string) (w : World St) :
  (forall e s',
     getUserByUsername uname (w_store w) = (Throw e, s') ->
     loginUser uname pass w = (Ok None, logged (set_store w s') "Login error:" e) /\
     registerUser uname pass w =
     (Ok None, logged (set_store w s') "Registration error:" e))
  /\
  (forall u s' e,
     getUserByUsername uname (w_store w) = (Ok (Some u), s') ->
     fst (comparePasswords pass (user_password u) (set_store w s')) = Throw e ->
     loginUser uname pass w = (Ok None, logged (set_store w s') "Login error:" e))
  /\
  (forall s1 e s2,
     getUserByUsername uname (w_store w) = (Ok None, s1) ->
     createUser (mkInsertUser uname (credential pass (nextSalt w))) s1 = (Throw e, s2) ->
     exists w',
       registerUser uname pass w = (Ok None, w') /\
       w_console w' = (w_console w ++ [("Registration error:", e)])%list)
  /\
  (forall s',
     getUserByUsername uname (w_store w) = (Ok None, s') ->
     loginUser uname pass w = (Ok None, set_store w s'))
  /\
  (forall u s',
     getUserByUsername uname (w_store w) = (Ok (Some u), s') ->
     (fst (comparePasswords pass (user_password u) (set_store w s')) = Ok false ->
      loginUser uname pass w = (Ok None, set_store w s')) /\
     registerUser uname pass w = (Ok None, set_store w s'))
  /\
  (forall P (req : Request P Credentials),
     cred_username (req_body req) = Some uname ->
     cred_password (req_body req) = Some pass ->
     Js.truthy uname = true -> Js.truthy pass = true ->
     (fst (loginUser uname pass w) = Ok None ->
      fst (postLogin req w) = Ok (status_json 401 (message "Invalid credentials"))) /\
     (fst (registerUser uname pass w) = Ok None ->
      fst (postRegister req w) = Ok (status_json 400 (message "Username already exists")))).
Proof.
  rewrite loginUser_eq, registerUser_eq.
  split; [|split; [|split; [|split; [|split]]]].
  - intros e s' ->. split; reflexivity.
  - intros u s' e -> ->. reflexivity.
  - intros s1 e s2 -> Hc. cbv zeta. rewrite Hc. eexists. split; reflexivity.
  - intros s' ->. reflexivity.
  - intros u s' ->. split; [intros ->|]; reflexivity.
  - intros P req Hu Hp Htu Htp.
    rewrite (postLogin_eq req uname pass w Hu Hp Htu Htp).
    rewrite (postRegister_eq req uname pass w Hu Hp Htu Htp).
    rewrite loginUser_eq, registerUser_eq. split.
    + destruct (getUserByUsername uname (w_store w)) as [[[u|]|e] s']; try reflexivity.
      destruct (fst (comparePasswords pass (user_password u) (set_store w s')))
        as [[|]|e]; try reflexivity.
      discriminate.
    + destruct (getUserByUsername uname (w_store w)) as [[[u|]|e] s']; try reflexivity.
      cbv zeta. destruct (createUser _ s') as [[u|e] s2]; try reflexivity.
      discriminate.
Qed.

(** ** C6: a stored credential without separator *)

(** C6, as the code has it.  On a stored credential that holds no dot,
    [comparePasswords] does not return [false]: it throws the
    [TypeError] of [scrypt] on the missing salt.  [loginUser] catches
    it, writes it to the console and returns [null], so the login fails
    and the fault goes no further. *)
Theorem malformed_credential_throws_and_login_fails
  (supplied stored : string) (w : World St) :
  Js.lacks "." stored = true ->
  comparePasswords supplied stored w = (Throw ERR_INVALID_ARG_TYPE_salt, w) /\
  forall uname u s',
    getUserByUsername uname (w_store w) = (Ok (Some u), s') ->
    user_password u = stored ->
    loginUser uname supplied w =
    (Ok None, logged (set_store w s') "Login error:" ERR_INVALID_ARG_TYPE_salt).
Proof.
  intros Hl.
  assert (Hsalt : storedSalt stored = None).
  { unfold storedSalt. now rewrite (split_lacks _ _ Hl). }
  split.
  - now rewrite comparePasswords_eq, Hsalt.
  - intros uname u s' Hu Hp. rewrite loginUser_eq, Hu, comparePasswords_eq, Hp, Hsalt.
    reflexivity.
Qed.

End FaultProperties.

(* ================================================================== *)
(** ** The route handlers *)
(* ================================================================== *)

Section RouteProperties.

Context {St : Type} {storage : IStorage St} {mailer : Mailer St} {crypto : Crypto} {jws : Jws} {platform : Platform}.

(** A request the middleware lets through is passed on with the same
    parameters, query and body, and with a user attached. *)
Lemma authenticateToken_Next {P B} (req req' : Request P B) (w w1 : World St) :
  authenticateToken req w = (Ok (Next req'), w1) ->
  exists u,
    req' = mkRequest (req_authorization req) (req_params req) (req_query req)
             (req_body req) (Some u).
Proof.
  rewrite authenticateToken_eq.
  destruct (bearerToken (req_authorization req)) as [tok|]; [|discriminate].
  destruct (negb (Js.truthy tok)); [discriminate|].
  destruct (jwt_verify tok JWT_SECRET (w_now w)) as [d|e]; [|discriminate].
  destruct (getUser (userId d) (w_store w)) as [[[u|]|e] s']; try discriminate.
  intros [= <- <-]. now exists u.
Qed.

Lemma withAuth_Next {P B} (handler : Request P B -> M St Response)
  (req req' : Request P B) (w w1 : World St) :
  authenticateToken req w = (Ok (Next req'), w1) ->
  withAuth handler req w = handler req' w1.
Proof. intros Ha. now rewrite withAuth_eq, Ha. Qed.

(** A handler that refuses the ids [parseInt] cannot read and answers
    404 to the ids storage does not have keeps doing so behind the
    middleware. *)
Lemma idRouteContract_withAuth {B} (handler : Request IdParams B -> M St Response) :
  (forall req w,
     Js.parseInt (param_id (req_params req)) = Js.NaN ->
     handler req w = (Ok (status_json 400 (message "Invalid ID format")), w)) ->
  (forall req w n s',
     Js.parseInt (param_id (req_params req)) = Js.Int n ->
     getLeadershipValueById n (w_store w) = (Ok None, s') ->
     handler req w =
     (Ok (status_json 404 (message "Leadership value not found")), set_store w s')) ->
  idRouteContract (withAuth handler).
Proof.
  intros Hnan Hmissing req req' w w1 Hauth.
  rewrite (withAuth_Next _ _ _ _ _ Hauth).
  destruct (authenticateToken_Next _ _ _ _ Hauth) as [u ->].
  split.
  - intros Hid. now apply Hnan.
  - intros n s' Hid Hnone. now apply Hmissing with (n := n).
Qed.

Lemma getLeadershipValue_contract {B} :
  idRouteContract (withAuth (@getLeadershipValue St _ B)).
Proof.
  apply idRouteContract_withAuth; intros req w;
    unfold getLeadershipValue, try_catch, bind, call; cbv beta zeta.
  - intros ->. reflexivity.
  - intros n s' -> ->. reflexivity.
Qed.

Lemma putLeadershipValue_contract :
  idRouteContract (withAuth putLeadershipValue).
Proof.
  apply idRouteContract_withAuth; intros req w;
    unfold putLeadershipValue, try_catch, bind, call; cbv beta zeta.
  - intros ->. reflexivity.
  - intros n s' -> ->. reflexivity.
Qed.

Lemma deleteLeadershipValue_contract {B} :
  idRouteContract (withAuth (@deleteLeadershipValueHandler St _ B)).
Proof.
  apply idRouteContract_withAuth; intros req w;
    unfold deleteLeadershipValueHandler, try_catch, bind, call; cbv beta zeta.
  - intros ->. reflexivity.
  - intros n s' -> ->. reflexivity.
Qed.

(** ** C7: identifiers of leadership values *)

(** C7, as the code has it.  On GET, PUT and DELETE
    [/api/leadership-values/:id], for a caller the middleware lets
    through: an id in which [parseInt] reads no integer is answered 400
    "Invalid ID format" and storage is not called; an id in which it
    reads one, for which storage has no value, is answered 404. *)
Theorem leadership_value_id_routes :
  idRouteContract (registerRoutes GET_leadership_value) /\
  idRouteContract (registerRoutes PUT_leadership_value) /\
  idRouteContract (registerRoutes DELETE_leadership_value).
Proof.
  split; [|split].
  - exact getLeadershipValue_contract.
  - exact putLeadershipValue_contract.
  - exact deleteLeadershipValue_contract.
Qed.

(** What the export handler answers, by the [companyCode] query
    parameter and what storage gives. *)
Lemma getSubmissionsExport_eq {P B} (req : Request P B) (w : World St) :
  getSubmissionsExport req w =
  match
    match lookup "companyCode" (req_query req) with
    | Some c =>
        if Js.truthy c && negb (String.eqb c "all")
        then getSubmissionsByCompanyCode c (w_store w)
        else getAllSubmissions (w_store w)
    | None => getAllSubmissions (w_store w)
    end
  with
  | (Ok subs, s') =>
      (Ok (csvResponse (exportFilename (lookup "companyCode" (req_query req))) subs),
       set_store w s')
  | (Throw e, s') =>
      (Ok (status_json 500 (message "An error occurred while exporting submissions")),
       logged (set_store w s') "Error exporting submissions:" e)
  end.
Proof.
  unfold getSubmissionsExport, try_catch, bind, call. cbv beta zeta.
  destruct (lookup "companyCode" (req_query req)) as [c|].
  - destruct (Js.truthy c && negb (String.eqb c "all"))%bool.
    + destruct (getSubmissionsByCompanyCode c (w_store w)) as [[subs|e] s']; reflexivity.
    + destruct (getAllSubmissions (w_store w)) as [[subs|e] s']; reflexivity.
  - destruct (getAllSubmissions (w_store w)) as [[subs|e] s']; reflexivity.
Qed.


(** ** C8: the CSV export *)


(** ** C10: [companyCode=all] *)

(** C10. With [companyCode=all] the export route answers as it does to
    the same caller without the parameter: the same status and body, and
    the same world left behind.  For a caller the middleware lets
    through, when storage returns the submissions, both answers are 200
    with the export of all the submissions, none filtered out; only the
    file name differs: [submissions_all.csv] instead of
    [submissions.csv].  No answer is 200 in another way. *)
Theorem export_all_is_unfiltered (req req0 : Request unit unit) (w : World St) :
  req_authorization req = req_authorization req0 ->
  lookup "companyCode" (req_query req) = Some "all" ->
  lookup "companyCode" (req_query req0) = None ->
  exists resp resp0 w',
    registerRoutes GET_submissions_export req w = (Ok resp, w') /\
    registerRoutes GET_submissions_export req0 w = (Ok resp0, w') /\
    res_status resp = res_status resp0 /\
    res_body resp = res_body resp0 /\
    (forall req' w1 subs s',
       authenticateToken req w = (Ok (Next req'), w1) ->
       getAllSubmissions (w_store w1) = (Ok subs, s') ->
       resp = csvResponse "submissions_all.csv" subs /\
       resp0 = csvResponse "submissions.csv" subs /\
       w' = set_store w1 s' /\
       res_status resp = 200%Z /\
       res_body resp
       = BText (csvHeader ++ Js.join newline (map csvRow subs))) /\
    (res_status resp = 200%Z ->
     (exists req' w1 subs s',
        authenticateToken req w = (Ok (Next req'), w1) /\
        getAllSubmissions (w_store w1) = (Ok subs, s') /\
        w' = set_store w1 s' /\
        resp = csvResponse "submissions_all.csv" subs /\
        resp0 = csvResponse "submissions.csv" subs)).
Proof.
  intros Hauth Hall Hnone. cbn [registerRoutes].
  rewrite !withAuth_eq, !authenticateToken_eq. cbn [params_of body_of].
  rewrite <- Hauth.
  destruct (bearerToken (req_authorization req)) as [tok|].
  2:{ do 3 eexists. repeat (split; [reflexivity|]).
      split; [intros ? ? ? ? H; discriminate H|discriminate]. }
  destruct (negb (Js.truthy tok)).
  { do 3 eexists. repeat (split; [reflexivity|]).
    split; [intros ? ? ? ? H; discriminate H|discriminate]. }
  destruct (jwt_verify tok JWT_SECRET (w_now w)) as [d|e].
  2:{ do 3 eexists. repeat (split; [reflexivity|]).
      split; [intros ? ? ? ? H; discriminate H|discriminate]. }
  destruct (getUser (userId d) (w_store w)) as [[[u|]|e] s1].
  2,3: do 3 eexists; repeat (split; [reflexivity|]);
       (split; [intros ? ? ? ? H; discriminate H|discriminate]).
  rewrite !getSubmissionsExport_eq. cbn [req_query]. rewrite Hall, Hnone.
  cbn [Js.truthy String.eqb negb andb].
  change (String.eqb "all" "all") with true. cbn [negb andb].
  destruct (getAllSubmissions (w_store (set_store w s1))) as [[subs|e] s'] eqn:Hs.
  - do 3 eexists. repeat (split; [reflexivity|]). split.
    + intros req' w1 subs' s'' [= <- <-] Hs'. rewrite Hs in Hs'.
      injection Hs' as <- <-. repeat split.
    + intros _. do 2 eexists. exists subs, s'.
      split; [reflexivity|]. split; [exact Hs|]. repeat split.
  - do 3 eexists. repeat (split; [reflexivity|]). split.
    + intros req' w1 subs' s'' [= <- <-] Hs'. rewrite Hs in Hs'. discriminate Hs'.
    + discriminate.
Qed.

(** ** C9: what a failure shows to the client *)

Ltac destruct_match :=
  match goal with
  | |- context [match ?x with _ => _ end] =>
      lazymatch x with
      | context [match _ with _ => _ end] => fail
      | _ => destruct x eqn:?
      end
  end.

Ltac run_handler :=
  unfold try_catch, bind, call, lift, ret, throw, console_error, Date_now,
    process_uptime;
  cbv beta zeta; repeat destruct_match.

Ltac generic_answer :=
  do 2 eexists; split; [reflexivity|];
  unfold missingData, res_json, status_json, csvResponse;
  cbn [res_status res_body failureBody option_map];
  intros Hstatus;
  first
    [ exfalso; lia
    | left; reflexivity
    | right; left; reflexivity
    | right; right; split; [reflexivity|];
      do 5 eexists; repeat (split; [eassumption|]); reflexivity ].

(** X7. On every route but the health check, a request is answered, and
    an answer with a status from 500 up is the fixed message of the
    middleware or of the route; the one exception is
    [POST /api/send-pdf-email] when the mail provider itself reports a
    failure with an error, which the route sends as [details].  The
    health check, when the storage probe throws, answers 503 with the
    error's message in [error]. *)
Lemma answers_from_500_are_fixed :
  (forall r : Route, r <> GET_health ->
   forall (req : Request (params_of r) (body_of r)) (w : World St),
   exists resp w',
     registerRoutes r req w = (Ok resp, w') /\
     ((500 <= res_status resp)%Z ->
      res_body resp = BJson (message "Authentication error") \/
      Some (res_body resp) = option_map BJson (failureBody r) \/
      (r = POST_send_pdf_email /\
       exists details params s result s',
         sendEmail params s = (Ok result, s') /\
         sr_success result = false /\
         sr_error result = Some details /\
         res_body resp =
         BJson (JObj [("error", JStr "Failed to send email"); ("details", details)]))))
  /\
  (forall (req : Request unit unit) (w : World St) e s',
     getAllLeadershipValues (w_store w) = (Throw e, s') ->
     registerRoutes GET_health req w =
     (Ok (status_json 503
            (JObj [("status", JStr "unhealthy");
                   ("timestamp", JStr (toISOString (w_now w)));
                   ("uptime", JNum (w_uptime w));
                   ("database", JStr "disconnected");
                   ("error", JStr (errorMessage e))])),
      logged (set_store w s') "Health check failed:" e)).
Proof.
  split.
  - intros r Hr. destruct r; try congruence; clear Hr; intros req w;
      cbn [registerRoutes params_of body_of] in *;
      try rewrite withAuth_eq, authenticateToken_eq.
    + unfold getRoot. run_handler; generic_answer.
    + unfold postLogin. run_handler; generic_answer.
    + unfold postRegister. run_handler; generic_answer.
    + unfold getCurrentUser. run_handler; generic_answer.
    + unfold postLogout. run_handler; generic_answer.
    + unfold postSubmission. run_handler; generic_answer.
    + unfold getLeadershipValues. run_handler; generic_answer.
    + unfold postLeadershipValue. run_handler; generic_answer.
    + unfold getLeadershipValue. run_handler; generic_answer.
    + unfold putLeadershipValue. run_handler; generic_answer.
    + unfold deleteLeadershipValueHandler. run_handler; generic_answer.
    + unfold postSendPdfEmail. run_handler; generic_answer.
    + unfold getSubmissions. run_handler; generic_answer.
    + unfold getSubmissionsByCompany. run_handler; generic_answer.
    + unfold getCompanyCodes. run_handler; generic_answer.
    + unfold getSubmissionsExport. run_handler; generic_answer.
  - intros req w e s' Hprobe. cbn [registerRoutes].
    unfold getHealth, try_catch, bind, call. rewrite Hprobe. reflexivity.
Qed.

(** *** Failures of the collaborators, observed *)

Ltac innermost_match :=
  match goal with
  | |- context [loginUser ?u ?p ?w] => rewrite (loginUser_eq u p w)
  | |- context [registerUser ?u ?p ?w] => rewrite (registerUser_eq u p w); cbv zeta
  | |- context [comparePasswords ?a ?b ?w] =>
      rewrite (comparePasswords_eq a b w); cbn [fst]
  | |- context [match ?x with _ => _ end] =>
      lazymatch x with
      | context [match _ with _ => _ end] => fail
      | _ => destruct x eqn:?
      end
  end.

Ltac observed :=
  cbn [getUser getUserByUsername createUser getAllLeadershipValues getLeadershipValueById
       createLeadershipValue updateLeadershipValue deleteLeadershipValue createSubmission
       getAllSubmissions getSubmissionsByCompanyCode getUniqueCompanyCodes sendEmail
       MonitoredStorage MonitoredMailer];
  unfold observe; cbn [mon_state mon_faults w_store set_store].

Ltac run_monitored :=
  unfold try_catch, bind, call, lift, ret, throw, console_error, Date_now,
    process_uptime;
  cbv beta zeta; repeat (observed; innermost_match).

Ltac split_in Hin :=
  cbn [In] in Hin;
  repeat match type of Hin with _ \/ _ => destruct Hin as [Hin|Hin] end.

Ltac fault_answer Hlog :=
  do 2 eexists; split; [reflexivity|];
  unfold logged; cbn [w_store set_store mon_faults w_now w_uptime];
  rewrite ?Hlog; cbn [app];
  split;
  [ let e := fresh "e" in let Hin := fresh "Hin" in
    intros e Hin; split_in Hin;
    first
      [ contradiction
      | discriminate Hin
      | injection Hin as <-;
        first
          [ left; split; reflexivity
          | right; left; split; [assumption|reflexivity]
          | right; right; cbn; tauto ] ]
  | let d := fresh "d" in let Hin := fresh "Hin" in
    intros d Hin; split_in Hin;
    first
      [ contradiction
      | discriminate Hin
      | injection Hin as <-; split; [reflexivity|];
        unfold mailFailure; repeat innermost_match; congruence ] ].

Ltac unobserved :=
  cbn [getUser getUserByUsername createUser getAllLeadershipValues getLeadershipValueById
       createLeadershipValue updateLeadershipValue deleteLeadershipValue createSubmission
       getAllSubmissions getSubmissionsByCompanyCode getUniqueCompanyCodes sendEmail
       MonitoredStorage MonitoredMailer];
  unfold observe, unmonitored, logged, set_store, nextSalt;
  cbn [mon_state mon_faults w_store w_now w_uptime w_random w_random_pos w_console].

Ltac lockstep :=
  unfold try_catch, bind, call, lift, ret, throw, console_error, Date_now,
    process_uptime;
  cbv beta zeta; repeat (unobserved; innermost_match); unobserved;
  try (split; reflexivity).

(** Observation changes nothing: on the observed collaborators a route
    answers as on the collaborators themselves, and leaves the same
    world. *)
Lemma monitored_route (r : Route) (req : Request (params_of r) (body_of r))
  (w : World (Monitored St)) :
  fst (registerRoutes (storage := MonitoredStorage) (mailer := MonitoredMailer) r req w)
  = fst (registerRoutes r req (unmonitored w))
  /\ unmonitored
       (snd (registerRoutes (storage := MonitoredStorage) (mailer := MonitoredMailer)
               r req w))
     = snd (registerRoutes r req (unmonitored w)).
Proof.
  destruct r; cbn [registerRoutes params_of body_of] in *;
    try rewrite !withAuth_eq, !authenticateToken_eq.
  - unfold getRoot. lockstep.
  - unfold getHealth. lockstep.
  - unfold postLogin. lockstep.
  - unfold postRegister. lockstep.
  - unfold getCurrentUser. lockstep.
  - unfold postLogout. lockstep.
  - unfold postSubmission. lockstep.
  - unfold getLeadershipValues. lockstep.
  - unfold postLeadershipValue. lockstep.
  - unfold getLeadershipValue. lockstep.
  - unfold putLeadershipValue. lockstep.
  - unfold deleteLeadershipValueHandler. lockstep.
  - unfold postSendPdfEmail. lockstep.
  - unfold getSubmissions. lockstep.
  - unfold getSubmissionsByCompany. lockstep.
  - unfold getCompanyCodes. lockstep.
  - unfold getSubmissionsExport. lockstep.
Qed.

(** C9, as the code has it.  Take any storage backend and mail
    provider and note each failure they have while a request is
    handled: an error one of their calls throws, or a failure the mail
    provider reports.  Every route answers, with the answer it gives on
    the collaborators themselves.  When a call threw, the answer is one
    of the fixed answers of the route, in which nothing of the error
    appears: the middleware's 500 "Authentication error", the route's
    own 500 with its constant message, and for login and registration
    the 401 "Invalid credentials" and 400 "Username already exists" of a
    rejection.  There are three exceptions.  The health check answers
    503 with the error's message in [error].  The routes that validate a
    body answer an error of class [ZodError], also one storage throws,
    with 400 and the validation message made from it.  And when the
    mail provider reports a failure, [POST /api/send-pdf-email] answers
    500 with the provider's error as [details]. *)
Theorem failures_are_generic_but_health_and_mail
  (r : Route) (req : Request (params_of r) (body_of r)) (w : World (Monitored St)) :
  mon_faults (w_store w) = [] ->
  exists resp w',
    registerRoutes (storage := MonitoredStorage) (mailer := MonitoredMailer) r req w
    = (Ok resp, w')
    /\ registerRoutes r req (unmonitored w) = (Ok resp, unmonitored w')
    /\ (forall e, In (Thrown e) (mon_faults (w_store w')) ->
          (r = GET_health /\ resp = unhealthy (w_now w) (w_uptime w) e)
          \/ (isZodError e = true /\ validationAnswer r e = Some resp)
          \/ In resp (faultAnswers r))
    /\ (forall error, In (Reported error) (mon_faults (w_store w')) ->
          r = POST_send_pdf_email /\ resp = mailFailure error).
Proof.
  intros Hlog.
  assert (Hrun : exists resp w',
             registerRoutes (storage := MonitoredStorage) (mailer := MonitoredMailer)
               r req w = (Ok resp, w')
             /\ (forall e, In (Thrown e) (mon_faults (w_store w')) ->
                   (r = GET_health /\ resp = unhealthy (w_now w) (w_uptime w) e)
                   \/ (isZodError e = true /\ validationAnswer r e = Some resp)
                   \/ In resp (faultAnswers r))
             /\ (forall error, In (Reported error) (mon_faults (w_store w')) ->
                   r = POST_send_pdf_email /\ resp = mailFailure error)).
  { destruct r; cbn [registerRoutes params_of body_of] in *;
      try rewrite withAuth_eq, authenticateToken_eq.
    - unfold getRoot. run_monitored; fault_answer Hlog.
    - unfold getHealth. run_monitored; fault_answer Hlog.
    - unfold postLogin. run_monitored; fault_answer Hlog.
    - unfold postRegister. run_monitored; fault_answer Hlog.
    - unfold getCurrentUser. run_monitored; fault_answer Hlog.
    - unfold postLogout. run_monitored; fault_answer Hlog.
    - unfold postSubmission. run_monitored; fault_answer Hlog.
    - unfold getLeadershipValues. run_monitored; fault_answer Hlog.
    - unfold postLeadershipValue. run_monitored; fault_answer Hlog.
    - unfold getLeadershipValue. run_monitored; fault_answer Hlog.
    - unfold putLeadershipValue. run_monitored; fault_answer Hlog.
    - unfold deleteLeadershipValueHandler. run_monitored; fault_answer Hlog.
    - unfold postSendPdfEmail. run_monitored; fault_answer Hlog.
    - unfold getSubmissions. run_monitored; fault_answer Hlog.
    - unfold getSubmissionsByCompany. run_monitored; fault_answer Hlog.
    - unfold getCompanyCodes. run_monitored; fault_answer Hlog.
    - unfold getSubmissionsExport. run_monitored; fault_answer Hlog.
}
  destruct Hrun as (resp & w' & Hrun & Hthrown & Hreported).
  exists resp, w'. split; [exact Hrun|]. split; [|split; assumption].
  destruct (monitored_route r req w) as [Hfst Hsnd]. rewrite Hrun in Hfst, Hsnd.
  cbn [fst snd] in Hfst, Hsnd.
  destruct (registerRoutes r req (unmonitored w)) as [o w2].
  cbn [fst snd] in Hfst, Hsnd. now subst.
Qed.

End RouteProperties.

(* ================================================================== *)
(** ** More on passwords and tokens *)
(* ================================================================== *)

Lemma string_length_app (a b : string) :
  String.length (a ++ b) = (String.length a + String.length b)%nat.
Proof. induction a as [|c a IH]; cbn; [reflexivity|now rewrite IH]. Qed.

Lemma length_toString_hex (buf : Buffer.t) :
  String.length (Buffer.toString_hex buf) = (2 * length buf)%nat.
Proof.
  induction buf as [|b buf IH]; [reflexivity|].
  cbn [Buffer.toString_hex length]. rewrite string_length_app, IH.
  unfold Buffer.hexOfByte. cbn [String.length]. lia.
Qed.

Lemma Buffer_eqb_neq (a b : Buffer.t) : a <> b -> Buffer.eqb a b = false.
Proof.
  intros Hn. unfold Buffer.eqb. destruct (list_eq_dec Byte.byte_eq_dec a b); congruence.
Qed.

Section MoreAuthProperties.

Context {St : Type} {storage : IStorage St} {crypto : Crypto} {jws : Jws}
  {platform : Platform}.

(** X1. [hashPassword] never throws and never touches storage; the
    credential it returns is the hexadecimal key, a dot, and a salt of
    32 hexadecimal characters; [comparePasswords] answers [true] to the
    password that was hashed, and [false] to a password whose derived
    key, of the same length, is another one. *)
Theorem hashed_password_verifies (pass : string) (w : World St) :
  exists cred w',
    hashPassword pass w = (Ok cred, w') /\
    w_store w' = w_store w /\
    Js.split "." cred
    = [Buffer.toString_hex (scrypt pass (nextSalt w) 64); nextSalt w] /\
    String.length (nextSalt w) = 32%nat /\
    comparePasswords pass cred w' = (Ok true, w') /\
    forall other,
      length (scrypt other (nextSalt w) 64) = length (scrypt pass (nextSalt w) 64) ->
      scrypt other (nextSalt w) 64 <> scrypt pass (nextSalt w) 64 ->
      comparePasswords other cred w' = (Ok false, w').
Proof.
  rewrite hashPassword_eq. eexists. eexists. split; [reflexivity|].
  split; [reflexivity|].
  assert (Hsplit : Js.split "." (credential pass (nextSalt w))
                   = [Buffer.toString_hex (scrypt pass (nextSalt w) 64); nextSalt w]).
  { unfold credential.
    change (Buffer.toString_hex (scrypt pass (nextSalt w) 64) ++ "." ++ nextSalt w)%string
      with (Buffer.toString_hex (scrypt pass (nextSalt w) 64)
            ++ String "." (nextSalt w))%string.
    rewrite split_app by apply toString_hex_lacks_dot.
    now rewrite split_lacks by apply toString_hex_lacks_dot. }
  split; [exact Hsplit|].
  split.
  { unfold nextSalt. rewrite length_toString_hex, length_map, length_seq. reflexivity. }
  split.
  { apply comparePasswords_true, credential_matches, toString_hex_lacks_dot. }
  intros other Hlen Hneq. rewrite comparePasswords_eq.
  unfold storedSalt, storedKey. rewrite Hsplit. cbn [nth_error hd].
  rewrite from_hex_toString_hex, <- Hlen, Nat.eqb_refl.
  rewrite Buffer_eqb_neq; [reflexivity|]. congruence.
Qed.

(** X2. When the key a stored credential holds has another length than
    the derived key, [comparePasswords] does not answer [false]: it
    throws the [RangeError] of [timingSafeEqual]; [loginUser] catches
    it, writes it to the console and returns [null]. *)
Theorem unequal_key_length_throws (supplied stored salt : string) (w : World St) :
  storedSalt stored = Some salt ->
  length (storedKey stored) <> length (scrypt supplied salt 64) ->
  comparePasswords supplied stored w = (Throw ERR_CRYPTO_TIMING_SAFE_EQUAL_LENGTH, w) /\
  forall uname u s',
    getUserByUsername uname (w_store w) = (Ok (Some u), s') ->
    user_password u = stored ->
    loginUser uname supplied w =
    (Ok None, logged (set_store w s') "Login error:" ERR_CRYPTO_TIMING_SAFE_EQUAL_LENGTH).
Proof.
  intros Hsalt Hlen. apply Nat.eqb_neq in Hlen. split.
  - now rewrite comparePasswords_eq, Hsalt, Hlen.
  - intros uname u s' Hu Hp.
    now rewrite loginUser_eq, Hu, comparePasswords_eq, Hp, Hsalt, Hlen.
Qed.

(** X3. Registering a username twice: when the first registration
    succeeds and storage finds the user afterwards, a second
    [registerUser] with that username, whatever the password, returns
    [null] without hashing or creating anything, and the route answers
    400 "Username already exists". *)
Theorem register_twice_rejected
  (w0 : World St) (uname pass : string) (s1 s2 s3 : St) (u : User) :
  getUserByUsername uname (w_store w0) = (Ok None, s1) ->
  createUser (mkInsertUser uname (credential pass (nextSalt w0))) s1 = (Ok u, s2) ->
  getUserByUsername uname s2 = (Ok (Some u), s3) ->
  exists tok w1,
    registerUser uname pass w0 = (Ok (Some (u, tok)), w1) /\
    w_store w1 = s2 /\
    forall (pass' : string) (w2 : World St),
      w_store w2 = s2 ->
      registerUser uname pass' w2 = (Ok None, set_store w2 s3) /\
      forall P (req : Request P Credentials),
        cred_username (req_body req) = Some uname ->
        cred_password (req_body req) = Some pass' ->
        Js.truthy uname = true -> Js.truthy pass' = true ->
        postRegister req w2
        = (Ok (status_json 400 (message "Username already exists")), set_store w2 s3).
Proof.
  intros Hfree Hcreate Hfound. eexists. eexists. split.
  { rewrite registerUser_eq, Hfree. cbv zeta. rewrite Hcreate. reflexivity. }
  split; [reflexivity|].
  intros pass' w2 Hw2.
  assert (Hsecond : registerUser uname pass' w2 = (Ok None, set_store w2 s3)).
  { now rewrite registerUser_eq, Hw2, Hfound. }
  split; [exact Hsecond|].
  intros P req Hu Hp Htu Htp.
  now rewrite (postRegister_eq req uname pass' w2 Hu Hp Htu Htp), Hsecond.
Qed.

(** X4. [verifyToken] accepts a token only when it is three segments,
    the header names an HMAC algorithm, the third segment is the MAC of
    the first two under the process-wide secret, and the expiry in the
    payload, if any, is in the future; what it returns is the decoded
    payload, and the world is left as it was. *)
Theorem verifyToken_accepts_only_signed (token : string) (w w' : World St) (c : Claims) :
  verifyToken token w = (Ok (Some c), w') ->
  w' = w /\
  exists h p s alg,
    Js.split "." token = [h; p; s] /\
    decodeHeader h = Some alg /\ isHmacAlg alg = true /\
    decodeClaims p = Some c /\
    s = hmac alg JWT_SECRET (h ++ "." ++ p) /\
    (forall e, exp c = Some e -> (w_now w / 1000 < e)%Z).
Proof.
  rewrite verifyToken_eq.
  destruct (jwt_verify token JWT_SECRET (w_now w)) as [d|e] eqn:Hv; [|discriminate].
  intros [= -> <-]. split; [reflexivity|].
  apply jwt_verify_Ok in Hv as (h & p & s & alg & H1 & H2 & H3 & H4 & H5 & H6).
  exists h, p, s, alg. repeat (split; [assumption|]). assumption.
Qed.

End MoreAuthProperties.

Section TokenProperties.

Context {St : Type} {storage : IStorage St} {crypto : Crypto} {jws : Jws}
  {platform : Platform} {laws : JwsLaws}.

(** The three segments of a signed token. *)
Lemma jwt_sign_split (uid : Z) (un secret : string) (ttl t : Z) :
  Js.split "." (jwt_sign uid un secret ttl t)
  = [encodeHeader HS256; encodeClaims (jwt_payload uid un ttl t);
     hmac HS256 secret (jwt_signingInput (jwt_payload uid un ttl t))].
Proof.
  unfold jwt_sign, jwt_signingInput. rewrite token_shape.
  apply split3;
    (apply encodeHeader_lacks_dot || apply encodeClaims_lacks_dot || apply hmac_lacks_dot).
Qed.

(** A signed token is refused from its expiry on. *)
Lemma jwt_verify_sign_expired (uid : Z) (un secret secret' : string) (ttl t now : Z) :
  (t / 1000 + ttl <= now / 1000)%Z ->
  exists e, jwt_verify (jwt_sign uid un secret ttl t) secret' now = Throw e.
Proof.
  intros Hle.
  destruct (jwt_verify (jwt_sign uid un secret ttl t) secret' now) as [c|e] eqn:Hv;
    [exfalso|now exists e].
  apply jwt_verify_Ok in Hv as (h & p & s & alg & Hsplit & _ & Hp & _ & _ & Hexp).
  rewrite jwt_sign_split in Hsplit. injection Hsplit as <- <- <-.
  rewrite decode_encodeClaims in Hp. injection Hp as <-.
  specialize (Hexp _ eq_refl). lia.
Qed.

(** X5. The token [generateToken] issues for a user carries the user's
    identifier and username, the second it was issued at and an expiry
    604800 seconds later; [verifyToken] returns that payload in every
    world whose clock is before the expiry, and [null] from the expiry
    on. *)
Theorem token_lifetime_is_seven_days (u : User) (w : World St) :
  exists tok,
    generateToken u w = (Ok tok, w) /\
    forall w' : World St,
      verifyToken tok w'
      = (if (w_now w' / 1000 <? w_now w / 1000 + 604800)%Z
         then Ok (Some (mkClaims (user_id u) (user_username u) (w_now w / 1000)
                          (Some (w_now w / 1000 + 604800)%Z)))
         else Ok None,
         w').
Proof.
  eexists. split; [reflexivity|]. intros w'.
  destruct (Z.ltb_spec (w_now w' / 1000) (w_now w / 1000 + 604800)) as [Hlt|Hge].
  - now apply verifyToken_generated.
  - rewrite verifyToken_eq.
    destruct (jwt_verify_sign_expired (user_id u) (user_username u) JWT_SECRET JWT_SECRET
                JWT_EXPIRES_IN (w_now w) (w_now w') Hge) as [e ->].
    reflexivity.
Qed.

End TokenProperties.

Section SchemeProperties.

Context {St : Type} {storage : IStorage St} {jws : Jws} {platform : Platform}.

Lemma bearerToken_any_scheme (scheme tok : string) :
  Js.lacks " " scheme = true -> Js.lacks " " tok = true ->
  bearerToken (Some (scheme ++ " " ++ tok)) = Some tok.
Proof.
  intros Hs Ht. unfold bearerToken.
  change (scheme ++ " " ++ tok)%string with (scheme ++ String " " tok)%string.
  rewrite truthy_app_String, split_app, (split_lacks _ _ Ht) by exact Hs.
  reflexivity.
Qed.

Lemma bearerToken_Bearer (tok : string) :
  Js.lacks " " tok = true -> bearerToken (Some ("Bearer " ++ tok)) = Some tok.
Proof. exact (bearerToken_any_scheme "Bearer" tok eq_refl). Qed.

(** X6. The middleware does not look at the authorization scheme: a
    header made of any word without a space, a space and a token without
    a space is treated as [Bearer] followed by that token; it gives the
    same answer, or attaches the same user, and leaves the same world. *)
Theorem authenticateToken_ignores_scheme {P B}
  (scheme tok : string) (req : Request P B) (w : World St) :
  Js.lacks " " scheme = true -> Js.lacks " " tok = true ->
  bearerToken (Some (scheme ++ " " ++ tok)) = Some tok /\
  decision (fst (authenticateToken
                   (with_authorization req (Some (scheme ++ " " ++ tok))) w))
  = decision (fst (authenticateToken
                     (with_authorization req (Some ("Bearer " ++ tok))) w)) /\
  snd (authenticateToken (with_authorization req (Some (scheme ++ " " ++ tok))) w)
  = snd (authenticateToken (with_authorization req (Some ("Bearer " ++ tok))) w).
Proof.
  intros Hs Ht.
  pose proof (bearerToken_any_scheme scheme tok Hs Ht) as H1.
  pose proof (bearerToken_any_scheme "Bearer" tok eq_refl Ht) as H2.
  split; [exact H1|].
  rewrite !authenticateToken_eq. cbn [with_authorization req_authorization].
  change ("Bearer " ++ tok)%string with ("Bearer" ++ " " ++ tok)%string.
  rewrite H1, H2.
  destruct (negb (Js.truthy tok)); [split; reflexivity|].
  destruct (jwt_verify tok JWT_SECRET (w_now w)) as [d|e]; [|split; reflexivity].
  destruct (getUser (userId d) (w_store w)) as [[[u|]|e] s']; split; reflexivity.
Qed.

End SchemeProperties.

(* ================================================================== *)
(** ** More on the routes *)
(* ================================================================== *)

Section MoreRouteProperties.

Context {St : Type} {storage : IStorage St} {mailer : Mailer St} {crypto : Crypto}
  {jws : Jws} {platform : Platform}.

Ltac destruct_scrutinee :=
  match goal with
  | |- context [loginUser ?u ?p ?w] =>
      destruct (loginUser_returns u p w) as (? & ? & ->)
  | |- context [registerUser ?u ?p ?w] =>
      destruct (registerUser_returns u p w) as (? & ? & ->)
  | |- context [match ?x with _ => _ end] =>
      lazymatch x with
      | context [match _ with _ => _ end] => fail
      | context [loginUser] => fail
      | context [registerUser] => fail
      | _ => destruct x eqn:?
      end
  end.

Ltac run_route :=
  unfold try_catch, bind, call, lift, ret, throw, console_error, Date_now,
    process_uptime;
  cbv beta zeta; repeat destruct_scrutinee.

Ltac status_listed :=
  do 2 eexists; split; [reflexivity|];
  unfold missingData, res_json, status_json, csvResponse;
  cbn [res_status statusesOf In];
  repeat (first [left; reflexivity | right]).

(** X8. Every route answers every request: no handler chain throws, and
    the status it sends is one of the statuses of its route.  In
    particular the login route never answers 500 and the register route
    never answers 401 or 500. *)
Theorem route_statuses (r : Route) (req : Request (params_of r) (body_of r))
  (w : World St) :
  exists resp w',
    registerRoutes r req w = (Ok resp, w') /\ In (res_status resp) (statusesOf r).
Proof.
  destruct r; cbn [registerRoutes params_of body_of] in *;
    try rewrite withAuth_eq, authenticateToken_eq.
  - unfold getRoot. run_route; status_listed.
  - unfold getHealth. run_route; status_listed.
  - unfold postLogin. run_route; status_listed.
  - unfold postRegister. run_route; status_listed.
  - unfold getCurrentUser. run_route; status_listed.
  - unfold postLogout. run_route; status_listed.
  - unfold postSubmission. run_route; status_listed.
  - unfold getLeadershipValues. run_route; status_listed.
  - unfold postLeadershipValue. run_route; status_listed.
  - unfold getLeadershipValue. run_route; status_listed.
  - unfold putLeadershipValue. run_route; status_listed.
  - unfold deleteLeadershipValueHandler. run_route; status_listed.
  - unfold postSendPdfEmail. run_route; status_listed.
  - unfold getSubmissions. run_route; status_listed.
  - unfold getSubmissionsByCompany. run_route; status_listed.
  - unfold getCompanyCodes. run_route; status_listed.
  - unfold getSubmissionsExport. run_route; status_listed.
Qed.

(** X9. On every route registered behind [authenticateToken], a request
    whose [Authorization] header yields no token is answered 401 "Access
    token required", and nothing is called: the world is left as it
    was. *)
Theorem protected_routes_need_token (r : Route)
  (req : Request (params_of r) (body_of r)) (w : World St) :
  isProtected r = true ->
  Js.truthy_opt (bearerToken (req_authorization req)) = false ->
  registerRoutes r req w = (Ok (status_json 401 (message "Access token required")), w).
Proof.
  intros Hp Hnone.
  destruct r; try discriminate Hp; cbn [registerRoutes params_of body_of] in *;
    rewrite withAuth_eq, authenticateToken_eq;
    destruct (bearerToken (req_authorization req)) as [tok|]; try reflexivity;
    cbn [Js.truthy_opt] in Hnone; rewrite Hnone; reflexivity.
Qed.

(** X10. The other routes do not look at the [Authorization] header:
    they answer a request the same way whatever the header is. *)
Theorem public_routes_ignore_authorization (r : Route)
  (req : Request (params_of r) (body_of r)) (auth : option string) (w : World St) :
  isProtected r = false ->
  registerRoutes r (with_authorization req auth) w = registerRoutes r req w.
Proof.
  intros Hp. destruct r; try discriminate Hp; reflexivity.
Qed.

(** X11. The login and register routes answer 400 "Username and password
    are required" when a credential is missing or empty, without
    calling storage or the hasher: the world is left as it was. *)
Theorem credentials_required {P} (req : Request P Credentials) (w : World St) :
  credentialsGiven (req_body req) = false ->
  postLogin req w
  = (Ok (status_json 400 (message "Username and password are required")), w) /\
  postRegister req w
  = (Ok (status_json 400 (message "Username and password are required")), w).
Proof.
  unfold credentialsGiven, postLogin, postRegister, try_catch. intros Hc.
  destruct (cred_username (req_body req)) as [u|];
    destruct (cred_password (req_body req)) as [p|]; try (split; reflexivity).
  cbn [Js.truthy_opt] in Hc.
  destruct (Js.truthy u); destruct (Js.truthy p); try discriminate Hc; split; reflexivity.
Qed.

End MoreRouteProperties.

Section EndToEnd.

Context {St : Type} {storage : IStorage St} {mailer : Mailer St} {crypto : Crypto}
  {jws : Jws} {platform : Platform} {laws : JwsLaws}.

(** X12. Register through the route, then ask who you are: when the
    username is free and storage persists the user, [POST /api/register]
    answers 201 with the user and a token; a later [GET /api/user] that
    presents [Bearer] and that token (which holds no space), before the
    token expires, answers 200 with that user, as storage has it under
    the token's identifier. *)
Theorem register_then_whoami {P}
  (req : Request P Credentials) (w0 : World St) (uname pass : string)
  (s1 s2 s3 : St) (u : User) :
  cred_username (req_body req) = Some uname ->
  cred_password (req_body req) = Some pass ->
  Js.truthy uname = true -> Js.truthy pass = true ->
  getUserByUsername uname (w_store w0) = (Ok None, s1) ->
  createUser (mkInsertUser uname (credential pass (nextSalt w0))) s1 = (Ok u, s2) ->
  getUser (user_id u) s2 = (Ok (Some u), s3) ->
  exists tok w1,
    postRegister req w0 = (Ok (status_json 201 (authBody (u, tok))), w1) /\
    w_store w1 = s2 /\
    (Js.lacks " " tok = true ->
     forall (req2 : Request unit unit) (w2 : World St),
       req_authorization req2 = Some ("Bearer " ++ tok) ->
       w_store w2 = s2 ->
       (w_now w2 / 1000 < w_now w0 / 1000 + 604800)%Z ->
       registerRoutes GET_user req2 w2 = (Ok (res_json (json_of_user u)), set_store w2 s3)).
Proof.
  intros Hu Hp Htu Htp Hfree Hcreate Hget. eexists. eexists. split.
  { rewrite (postRegister_eq req uname pass w0 Hu Hp Htu Htp).
    rewrite registerUser_eq, Hfree. cbv zeta. rewrite Hcreate. reflexivity. }
  split; [reflexivity|].
  intros Hsp req2 w2 Hauth Hw2 Hclock. cbn [registerRoutes].
  rewrite withAuth_eq, authenticateToken_eq. cbn [params_of body_of]. rewrite Hauth.
  rewrite (bearerToken_Bearer _ Hsp).
  assert (Ht : Js.truthy
                 (jwt_sign (user_id u) (user_username u) JWT_SECRET JWT_EXPIRES_IN (w_now w0))
               = true).
  { unfold jwt_sign. apply truthy_app_String. }
  rewrite Ht. cbn [negb].
  rewrite jwt_verify_sign by (unfold JWT_EXPIRES_IN; exact Hclock).
  cbn [userId jwt_payload]. rewrite Hw2, Hget. reflexivity.
Qed.

End EndToEnd.

Section ValueRoutes.

Context {St : Type} {storage : IStorage St} {mailer : Mailer St} {crypto : Crypto}
  {jws : Jws} {platform : Platform}.

(** X13. [PUT /api/leadership-values/:id] validates the body only after
    it has found the value: for an id storage has, a body the schema
    refuses is answered 400 with the validation message and nothing is
    updated; a body the schema accepts is passed to
    [updateLeadershipValue] and answered 200 with what it returns; and
    when the update throws, the answer is the route's 500. *)
Theorem put_validates_after_lookup
  (req req' : Request IdParams Json) (w w1 : World St) (n : Z) (v : LeadershipValue)
  (s' : St) :
  authenticateToken req w = (Ok (Next req'), w1) ->
  Js.parseInt (param_id (req_params req)) = Js.Int n ->
  getLeadershipValueById n (w_store w1) = (Ok (Some v), s') ->
  (forall m,
     insertLeadershipValueSchema_parse (req_body req) = Throw (ErrorObject ZodError m) ->
     registerRoutes PUT_leadership_value req w
     = (Ok (status_json 400
              (JObj [("message", JStr "Invalid leadership value data");
                     ("errors", JStr (fromZodError (ErrorObject ZodError m)))])),
        set_store w1 s'))
  /\
  (forall data updated s'',
     insertLeadershipValueSchema_parse (req_body req) = Ok data ->
     updateLeadershipValue n data s' = (Ok updated, s'') ->
     registerRoutes PUT_leadership_value req w
     = (Ok (res_json
              (JObj (("message", JStr "Leadership value updated successfully")
                     :: match updated with
                        | Some x => [("data", json_of_leadershipValue x)]
                        | None => []
                        end))),
        set_store w1 s''))
  /\
  (forall data e s'',
     insertLeadershipValueSchema_parse (req_body req) = Ok data ->
     updateLeadershipValue n data s' = (Throw e, s'') ->
     isZodError e = false ->
     registerRoutes PUT_leadership_value req w
     = (Ok (status_json 500
              (message "An error occurred while updating the leadership value")),
        logged (set_store w1 s'') "Error updating leadership value:" e)).
Proof.
  intros Hauth Hid Hfound. cbn [registerRoutes].
  rewrite (withAuth_Next _ _ _ _ _ Hauth).
  destruct (authenticateToken_Next _ _ _ _ Hauth) as [u ->].
  unfold putLeadershipValue, try_catch, bind, call, lift. cbv beta zeta.
  cbn [req_params req_body]. rewrite Hid, Hfound. cbn [w_store set_store].
  split; [|split].
  - intros m ->. reflexivity.
  - intros data updated s'' -> ->. reflexivity.
  - intros data e s'' -> -> ->. reflexivity.
Qed.

(** X14. For an id storage has, [GET /api/leadership-values/:id] answers
    200 with the value, and [DELETE] calls [deleteLeadershipValue] with
    the number [parseInt] read and answers 200, or the route's 500 when
    the deletion throws. *)
Theorem existing_value_get_and_delete
  (req req' : Request IdParams unit) (w w1 : World St) (n : Z) (v : LeadershipValue)
  (s' : St) :
  authenticateToken req w = (Ok (Next req'), w1) ->
  Js.parseInt (param_id (req_params req)) = Js.Int n ->
  getLeadershipValueById n (w_store w1) = (Ok (Some v), s') ->
  registerRoutes GET_leadership_value req w
  = (Ok (res_json (json_of_leadershipValue v)), set_store w1 s')
  /\
  (forall s'',
     deleteLeadershipValue n s' = (Ok tt, s'') ->
     registerRoutes DELETE_leadership_value req w
     = (Ok (res_json (message "Leadership value deleted successfully")),
        set_store w1 s''))
  /\
  (forall e s'',
     deleteLeadershipValue n s' = (Throw e, s'') ->
     registerRoutes DELETE_leadership_value req w
     = (Ok (status_json 500
              (message "An error occurred while deleting the leadership value")),
        logged (set_store w1 s'') "Error deleting leadership value:" e)).
Proof.
  intros Hauth Hid Hfound. cbn [registerRoutes].
  rewrite !(withAuth_Next _ _ _ _ _ Hauth).
  destruct (authenticateToken_Next _ _ _ _ Hauth) as [u ->].
  unfold getLeadershipValue, deleteLeadershipValueHandler, try_catch, bind, call.
  cbv beta zeta. cbn [req_params]. rewrite Hid, Hfound. cbn [w_store set_store].
  split; [reflexivity|]. split.
  - intros s'' ->. reflexivity.
  - intros e s'' ->. reflexivity.
Qed.

(** X15. [POST /api/submissions] passes a body the schema accepts to
    [createSubmission] and answers 201 with the row storage returns.
    What is thrown on the way is told apart by its class only: a
    [ZodError] is answered 400 "Invalid submission data", also when it
    comes from storage and the body was valid; anything else is written
    to the console and answered 500 with the route's fixed message. *)
Theorem post_submission_outcomes {P} (req : Request P Json) (w : World St) :
  (forall data row s',
     insertSubmissionSchema_parse (req_body req) = Ok data ->
     createSubmission data (w_store w) = (Ok row, s') ->
     postSubmission req w
     = (Ok (status_json 201
              (JObj [("message", JStr "Submission recorded successfully");
                     ("data", json_of_submission row)])),
        set_store w s'))
  /\
  (forall e w1,
     (insertSubmissionSchema_parse (req_body req) = Throw e /\ w1 = w) \/
     (exists data s',
        insertSubmissionSchema_parse (req_body req) = Ok data /\
        createSubmission data (w_store w) = (Throw e, s') /\ w1 = set_store w s') ->
     postSubmission req w
     = if isZodError e
       then (Ok (status_json 400
                   (JObj [("message", JStr "Invalid submission data");
                          ("errors", JStr (fromZodError e))])),
             w1)
       else (Ok (status_json 500
                   (message "An error occurred while processing your submission")),
             logged w1 "Error handling submission:" e)).
Proof.
  unfold postSubmission, try_catch, bind, call, lift. split.
  - intros data row s' -> ->. reflexivity.
  - intros e w1 [[-> ->]|(data & s' & -> & -> & ->)];
      destruct (isZodError e); reflexivity.
Qed.


End ValueRoutes.

Section CsvProperties.

Context {platform : Platform}.

Lemma csvRow_fields (sub : Submission) :
  exists a b c d e,
    csvFields sub = [a; b; c; d; e] /\
    csvRow sub
    = String dquoteChar (a ++ String dquoteChar (String ","
        (String dquoteChar (b ++ String dquoteChar (String ","
          (String dquoteChar (c ++ String dquoteChar (String ","
            (String dquoteChar (d ++ String dquoteChar (String ","
              (String dquoteChar (e ++ String dquoteChar EmptyString))))))))))))).
Proof.
  do 5 eexists. split; [reflexivity|].
  unfold csvRow, quoted. cbn [Js.join].
  assert (Hc : match sub_companyCode sub with
               | Some c => if Js.truthy c then c else EmptyString
               | None => EmptyString
               end
               = match sub_companyCode sub with Some c => c | None => EmptyString end).
  { destruct (sub_companyCode sub) as [c|]; [|reflexivity].
    unfold Js.truthy. now destruct (String.eqb_spec c EmptyString) as [->|]. }
  rewrite Hc. rewrite !append_assoc. reflexivity.
Qed.

Lemma split_at_head (sep : ascii) (rest : string) :
  Js.split sep (String sep rest) = EmptyString :: Js.split sep rest.
Proof. exact (split_app sep EmptyString rest eq_refl). Qed.

Lemma split_after_comma (rest : string) :
  Js.split dquoteChar (String "," (String dquoteChar rest))
  = "," :: Js.split dquoteChar rest.
Proof. exact (split_app dquoteChar "," rest eq_refl). Qed.

(** X17. The export does not lose the fields of a row when none of them
    holds a double quote: cutting the row at the double quotes gives
    back the name, the e-mail, the company code, the core values and
    the date, with the commas between them. *)
Theorem csv_row_fields_recoverable (sub : Submission) :
  Forall (fun field => Js.lacks dquoteChar field = true) (csvFields sub) ->
  exists a b c d e,
    csvFields sub = [a; b; c; d; e] /\
    Js.split dquoteChar (csvRow sub)
    = [EmptyString; a; ","; b; ","; c; ","; d; ","; e; EmptyString].
Proof.
  intros Hall.
  destruct (csvRow_fields sub) as (a & b & c & d & e & Hf & Hrow).
  exists a, b, c, d, e. split; [exact Hf|].
  rewrite Hf in Hall.
  inversion_clear Hall as [|? ? Ha Hall1].
  inversion_clear Hall1 as [|? ? Hb Hall2].
  inversion_clear Hall2 as [|? ? Hc Hall3].
  inversion_clear Hall3 as [|? ? Hd Hall4].
  inversion_clear Hall4 as [|? ? He _].
  rewrite Hrow.
  rewrite split_at_head, (split_app dquoteChar a) by exact Ha.
  rewrite split_after_comma, (split_app dquoteChar b) by exact Hb.
  rewrite split_after_comma, (split_app dquoteChar c) by exact Hc.
  rewrite split_after_comma, (split_app dquoteChar d) by exact Hd.
  rewrite split_after_comma, (split_app dquoteChar e) by exact He.
  reflexivity.
Qed.

(** X18. The export does not escape double quotes: a submission whose
    name ends in [a","b] and one whose e-mail starts with [b","e], the
    rest alike, give the same row. *)
Theorem csv_row_not_escaped
  (id : Z) (a b e : string) (code : option string) (values : CoreValues) (created : Z) :
  csvRow (mkSubmission id (a ++ dquote ++ "," ++ dquote ++ b) e code values created)
  = csvRow (mkSubmission id a (b ++ dquote ++ "," ++ dquote ++ e) code values created).
Proof.
  unfold csvRow, quoted. cbn [Js.join sub_name sub_email].
  rewrite !append_assoc. reflexivity.
Qed.

End CsvProperties.

(* ================================================================== *)
(** ** The client: requests *)
(* ================================================================== *)

Section RequestProperties.

Context {Net : Type} {net : Fetch Net} {env : ClientEnv}.

Lemma doFetch_eq (url : string) (init : FetchInit) (w : World (Browser Net)) :
  doFetch url init w = (answerOf w url init, afterFetch w url init).
Proof.
  unfold doFetch, call, answerOf, afterFetch.
  destruct (fetch url init (b_net (w_store w))) as [r n]. reflexivity.
Qed.

Lemma afterFetch_storage (w : World (Browser Net)) (url : string) (init : FetchInit) :
  b_localStorage (w_store (afterFetch w url init)) = b_localStorage (w_store w)
  /\ b_queryCache (w_store (afterFetch w url init)) = b_queryCache (w_store w)
  /\ b_toasts (w_store (afterFetch w url init)) = b_toasts (w_store w)
  /\ b_downloads (w_store (afterFetch w url init)) = b_downloads (w_store w)
  /\ w_console (afterFetch w url init) = w_console w.
Proof. repeat split. Qed.

Lemma apiRequest_eq (method url : string) (data : option Json) (w : World (Browser Net)) :
  apiRequest method url data w
  = let init := requestInit (Some method) data w in
    let w1 := afterFetch w (targetUrl url) init in
    match answerOf w (targetUrl url) init with
    | Ok res =>
        if fr_ok res then (Ok res, w1)
        else match fr_text res with
             | Ok body => (Throw (httpError res body), w1)
             | Throw e => (Throw e, w1)
             end
    | Throw e => (Throw e, w1)
    end.
Proof.
  unfold apiRequest, bind, localStorage_getItem. cbv zeta.
  fold (storedToken w). fold (targetUrl url).
  change (mkFetchInit (Some method) (requestHeaders data (storedToken w))
            (if truthyJson data
             then match data with Some d => Some (JSON_stringify d) | None => None end
             else None))
    with (requestInit (Some method) data w).
  rewrite doFetch_eq.
  destruct (answerOf w (targetUrl url) (requestInit (Some method) data w)) as [res|e];
    [|reflexivity].
  unfold throwIfResNotOk, bind, lift, throw, ret.
  destruct (fr_ok res); cbn [negb]; [reflexivity|].
  destruct (fr_text res); reflexivity.
Qed.

End RequestProperties.

Section RequestTheorems.

Context {Net : Type} {net : Fetch Net} {env : ClientEnv}.
Context {St : Type} {storage : IStorage St} {jws : Jws} {platform : Platform}.

Lemma getQueryFn_eq (on401 : UnauthorizedBehavior) (key : string) (rest : list string)
  (w : World (Browser Net)) :
  getQueryFn on401 (key :: rest) w
  = let init := requestInit None None w in
    let w1 := afterFetch w (targetUrl key) init in
    match answerOf w (targetUrl key) init with
    | Ok res =>
        match on401, Nat.eqb (fr_status res) 401 with
        | returnNull, true => (Ok JNull, w1)
        | _, _ =>
            if fr_ok res then (fr_json res, w1)
            else match fr_text res with
                 | Ok body => (Throw (httpError res body), w1)
                 | Throw e => (Throw e, w1)
                 end
        end
    | Throw e => (Throw e, w1)
    end.
Proof.
  unfold getQueryFn, bind, localStorage_getItem. cbn [hd_error]. cbv zeta.
  fold (storedToken w). fold (targetUrl key).
  change (mkFetchInit None (requestHeaders None (storedToken w)) None)
    with (requestInit None None w).
  rewrite doFetch_eq.
  destruct (answerOf w (targetUrl key) (requestInit None None w)) as [res|e];
    [|reflexivity].
  unfold throwIfResNotOk, bind, lift, throw, ret.
  destruct on401; [destruct (Nat.eqb (fr_status res) 401); [reflexivity|]|];
    (destruct (fr_ok res); cbn [negb]; [reflexivity|]);
    destruct (fr_text res); reflexivity.
Qed.

Lemma authorization_header (data : option Json) (tok : string) :
  Js.truthy tok = true ->
  lookup "Authorization" (requestHeaders data (Some tok)) = Some ("Bearer " ++ tok).
Proof.
  intros Ht. unfold requestHeaders. rewrite Ht.
  destruct (truthyJson data); reflexivity.
Qed.

Lemma no_authorization_header (data : option Json) (token : option string) :
  Js.truthy_opt token = false ->
  lookup "Authorization" (requestHeaders data token) = None.
Proof.
  intros Ht. unfold requestHeaders.
  destruct token as [tok|]; [cbn [Js.truthy_opt] in Ht; rewrite Ht|];
    destruct (truthyJson data); reflexivity.
Qed.

Lemma snd_apiRequest (method url : string) (data : option Json) (w : World (Browser Net)) :
  snd (apiRequest method url data w)
  = afterFetch w (targetUrl url) (requestInit (Some method) data w).
Proof.
  rewrite apiRequest_eq. cbv zeta.
  destruct (answerOf w (targetUrl url) (requestInit (Some method) data w)) as [res|e];
    [|reflexivity].
  destruct (fr_ok res); [reflexivity|]. destruct (fr_text res); reflexivity.
Qed.

Lemma snd_getQueryFn (on401 : UnauthorizedBehavior) (key : string) (rest : list string)
  (w : World (Browser Net)) :
  snd (getQueryFn on401 (key :: rest) w)
  = afterFetch w (targetUrl key) (requestInit None None w).
Proof.
  rewrite getQueryFn_eq. cbv zeta.
  destruct (answerOf w (targetUrl key) (requestInit None None w)) as [res|e];
    [|reflexivity].
  destruct on401; [destruct (Nat.eqb (fr_status res) 401); [reflexivity|]|];
    (destruct (fr_ok res); [destruct (fr_json res); reflexivity|]);
    destruct (fr_text res); reflexivity.
Qed.

(** X19. Every request of [apiRequest] and of [getQueryFn] is one
    [fetch], to the API server for a path under [/api] and to the URL as
    it is otherwise; when [localStorage] holds a token that is not empty
    and has no space, the request carries that token in an
    [Authorization] header from which [bearerToken], the extraction of
    the server's middleware, reads it back. *)
Theorem stored_token_reaches_middleware
  (method url key : string) (rest : list string) (data : option Json)
  (on401 : UnauthorizedBehavior) (w : World (Browser Net)) (tok : string) :
  storedToken w = Some tok -> Js.truthy tok = true -> Js.lacks " " tok = true ->
  snd (apiRequest method url data w)
  = afterFetch w (targetUrl url) (requestInit (Some method) data w)
  /\ snd (getQueryFn on401 (key :: rest) w)
     = afterFetch w (targetUrl key) (requestInit None None w)
  /\ forall m,
       lookup "Authorization" (fi_headers (requestInit m data w)) = Some ("Bearer " ++ tok)
       /\ bearerToken (lookup "Authorization" (fi_headers (requestInit m data w)))
          = Some tok.
Proof.
  intros Hs Ht Hl. split; [apply snd_apiRequest|]. split; [apply snd_getQueryFn|].
  intros m. unfold requestInit. cbn [fi_headers]. rewrite Hs.
  rewrite (authorization_header data tok Ht). split; [reflexivity|].
  now apply bearerToken_Bearer.
Qed.

(** X20. A browser without a token, or with an empty one, sends no
    [Authorization] header, and the server's middleware answers such a
    request 401 "Access token required" without looking at anything
    else. *)
Theorem request_without_token_is_refused {P B}
  (method : option string) (data : option Json) (w : World (Browser Net))
  (params : P) (query : list (string * string)) (body : B) (ws : World St) :
  Js.truthy_opt (storedToken w) = false ->
  lookup "Authorization" (fi_headers (requestInit method data w)) = None
  /\ authenticateToken (received (requestInit method data w) params query body) ws
     = (Ok (Respond (status_json 401 (message "Access token required"))), ws).
Proof.
  intros Hn.
  assert (Hh : lookup "Authorization" (fi_headers (requestInit method data w)) = None).
  { unfold requestInit. cbn [fi_headers]. now apply no_authorization_header. }
  split; [exact Hh|].
  rewrite authenticateToken_eq. unfold received. cbn [req_authorization].
  rewrite Hh. reflexivity.
Qed.

(** X21. [apiRequest] returns a response only when its status is in
    200-299.  For any other status it reads the body and throws an
    [Error] whose message is the status, a colon and the body, or the
    status text when the body is empty; what [fetch] or reading the body
    throws is thrown on. *)
Theorem apiRequest_returns_only_ok
  (method url : string) (data : option Json) (w : World (Browser Net)) :
  (forall res w', apiRequest method url data w = (Ok res, w') ->
     fr_ok res = true
     /\ answerOf w (targetUrl url) (requestInit (Some method) data w) = Ok res)
  /\
  (forall res,
     answerOf w (targetUrl url) (requestInit (Some method) data w) = Ok res ->
     fr_ok res = false ->
     fst (apiRequest method url data w)
     = match fr_text res with
       | Ok body =>
           Throw (ErrorObject PlainError
                    (numToString (fr_status res) ++ ": "
                     ++ (if Js.truthy body then body else fr_statusText res)))
       | Throw e => Throw e
       end)
  /\
  (forall e,
     answerOf w (targetUrl url) (requestInit (Some method) data w) = Throw e ->
     fst (apiRequest method url data w) = Throw e).
Proof.
  rewrite apiRequest_eq. cbv zeta. split; [|split].
  - intros res w'.
    destruct (answerOf w (targetUrl url) (requestInit (Some method) data w)) as [r|e];
      [|discriminate].
    destruct (fr_ok r) eqn:Hok; [|destruct (fr_text r); discriminate].
    intros [= <- <-]. split; [exact Hok|reflexivity].
  - intros res -> ->. destruct (fr_text res); reflexivity.
  - intros e ->. reflexivity.
Qed.

(** X22. The query function fetches the first element of the query key.
    With [on401: "returnNull"] a 401 gives [null] and the body is not
    read; with [on401: "throw"] a 401 throws like any other status
    outside 200-299, and a 403 throws with both.  A status in 200-299
    gives the JSON of the body.  An empty query key throws a
    [TypeError] and nothing is fetched. *)
Theorem getQueryFn_unauthorized
  (key : string) (rest : list string) (w : World (Browser Net)) (res : FetchResponse) :
  answerOf w (targetUrl key) (requestInit None None w) = Ok res ->
  (fr_status res = 401%nat ->
   fst (getQueryFn returnNull (key :: rest) w) = Ok JNull
   /\ exists e, fst (getQueryFn throwOn401 (key :: rest) w) = Throw e)
  /\ (fr_status res <> 401%nat ->
      getQueryFn returnNull (key :: rest) w = getQueryFn throwOn401 (key :: rest) w)
  /\ (fr_ok res = false -> fr_status res <> 401%nat ->
      forall on401, exists e, fst (getQueryFn on401 (key :: rest) w) = Throw e)
  /\ (fr_ok res = true ->
      forall on401, fst (getQueryFn on401 (key :: rest) w) = fr_json res)
  /\ (forall on401, exists e, getQueryFn on401 [] w = (Throw e, w)).
Proof.
  intros Hres. split; [|split; [|split; [|split]]].
  - intros H401. rewrite !getQueryFn_eq. cbv zeta. rewrite Hres, H401.
    cbn [Nat.eqb]. split; [reflexivity|].
    unfold fr_ok. rewrite H401. cbn.
    destruct (fr_text res) as [body|e]; eexists; reflexivity.
  - intros Hn. apply Nat.eqb_neq in Hn. rewrite !getQueryFn_eq. cbv zeta.
    rewrite Hres, Hn. reflexivity.
  - intros Hok Hn on401. apply Nat.eqb_neq in Hn. rewrite getQueryFn_eq. cbv zeta.
    rewrite Hres, Hn, Hok.
    destruct on401; destruct (fr_text res) as [body|e]; eexists; reflexivity.
  - intros Hok on401. rewrite getQueryFn_eq. cbv zeta. rewrite Hres, Hok.
    assert (Hn : Nat.eqb (fr_status res) 401 = false).
    { apply Nat.eqb_neq. intros H401. unfold fr_ok in Hok. rewrite H401 in Hok.
      discriminate Hok. }
    rewrite Hn. destruct on401; reflexivity.
  - intros on401. eexists. reflexivity.
Qed.

End RequestTheorems.

(* ================================================================== *)
(** ** The client: the session *)
(* ================================================================== *)

Lemma findKey_removeKey_string {V} (key : string) (l : list (string * V)) :
  findKey String.eqb key (removeKey String.eqb key l) = None.
Proof.
  induction l as [|[k v] l IH]; [reflexivity|]. cbn [removeKey].
  destruct (String.eqb k key) eqn:Hk; [exact IH|]. cbn [findKey]. now rewrite Hk.
Qed.

Lemma startsWith_app (prefix rest : string) : Js.startsWith prefix (prefix ++ rest) = true.
Proof.
  induction prefix as [|c prefix IH]; [now destruct rest|].
  cbn. now rewrite Ascii.eqb_refl.
Qed.

Lemma includes_app_r (needle before s : string) :
  Js.includes needle s = true -> Js.includes needle (before ++ s) = true.
Proof.
  intros H. induction before as [|c before IH]; [exact H|].
  cbn [append Js.includes]. rewrite IH. apply Bool.orb_true_r.
Qed.

Lemma includes_truthy (needle s : string) :
  Js.truthy needle = true -> Js.includes needle s = true -> Js.truthy s = true.
Proof.
  intros Hn H. destruct s; [|reflexivity].
  destruct needle; [discriminate Hn|discriminate H].
Qed.

Section SessionProperties.

Context {Net : Type} {net : Fetch Net} {env : ClientEnv}.

Lemma mutate_eq {V D} (mutationFn : V -> M (Browser Net) D)
  (onSuccess : D -> M (Browser Net) unit) (onError : Exn -> M (Browser Net) unit)
  (variables : V) (w : World (Browser Net)) :
  mutate mutationFn onSuccess onError variables w
  = match mutationFn variables w with
    | (Ok data, w1) =>
        match onSuccess data w1 with
        | (Ok _, w2) => (Ok tt, w2)
        | (Throw e, w2) => (Ok tt, snd (onError e w2))
        end
    | (Throw e, w1) => (Ok tt, snd (onError e w1))
    end.
Proof.
  unfold mutate, try_catch, bind, ret.
  destruct (mutationFn variables w) as [[data|e] w1].
  - destruct (onSuccess data w1) as [[[]|e] w2]; [reflexivity|].
    destruct (onError e w2) as [[[]|e'] w3]; reflexivity.
  - destruct (onError e w1) as [[[]|e'] w3]; reflexivity.
Qed.

Lemma storedToken_afterFetch (w : World (Browser Net)) (url : string) (init : FetchInit) :
  storedToken (afterFetch w url init) = storedToken w.
Proof. reflexivity. Qed.

Lemma cachedUser_afterFetch (w : World (Browser Net)) (url : string) (init : FetchInit) :
  cachedUser (afterFetch w url init) = cachedUser w.
Proof. reflexivity. Qed.

(** X23. Logging out always ends with the session cleared, whatever the
    server or the network does: the mutation does not throw, the token
    is gone from [localStorage], the cached user is [null] and the
    "Logged out" toast is shown.  The token is removed before the
    request is made, so [POST /api/logout] is sent without an
    [Authorization] header. *)
Theorem logout_always_clears_session (w : World (Browser Net)) :
  exists w',
    logoutMutation w = (Ok tt, w')
    /\ storedToken w' = None
    /\ cachedUser w' = Some JNull
    /\ b_toasts (w_store w') = (b_toasts (w_store w) ++ [loggedOutToast])%list
    /\ b_downloads (w_store w') = b_downloads (w_store w)
    /\ b_net (w_store w')
       = snd (fetch (getApiUrl "/api/logout") (mkFetchInit (Some "POST") [] None)
                (b_net (w_store w))).
Proof.
  unfold logoutMutation. rewrite mutate_eq.
  unfold bind at 1. unfold localStorage_removeItem at 1. cbv beta zeta.
  set (w0 := set_store w _).
  assert (H0 : storedToken w0 = None).
  { unfold storedToken, w0. cbn [w_store set_store b_localStorage].
    apply findKey_removeKey_string. }
  unfold bind at 1. rewrite apiRequest_eq. cbv zeta.
  assert (Hinit : requestInit (Some "POST") None w0 = mkFetchInit (Some "POST") [] None).
  { unfold requestInit. rewrite H0. reflexivity. }
  rewrite Hinit.
  change (targetUrl "/api/logout") with (getApiUrl "/api/logout").
  set (w1 := afterFetch w0 _ _).
  assert (H1 : storedToken w1 = None) by exact H0.
  assert (Hclear : forall w2 : World (Browser Net),
            storedToken w2 = None ->
            storedToken (snd ((setQueryData userQueryKey (Some JNull) ;;;
                               toast loggedOutToast) w2)) = None) by (intros w2 H2; exact H2).
  assert (Hnet : b_net (w_store w1)
                 = snd (fetch (getApiUrl "/api/logout") (mkFetchInit (Some "POST") [] None)
                          (b_net (w_store w)))) by reflexivity.
  assert (Hto : b_toasts (w_store w1) = b_toasts (w_store w)) by reflexivity.
  assert (Hdl : b_downloads (w_store w1) = b_downloads (w_store w)) by reflexivity.
  clearbody w1. clear Hinit.
  assert (Herr : forall (x : outcome unit),
            exists w',
              (let '(r, w2) := (x, w1) in
               match r with
               | Ok _ => match (setQueryData userQueryKey (Some JNull) ;;;
                                toast loggedOutToast) w2 with
                         | (Ok _, w3) => (Ok tt, w3)
                         | (Throw e, w3) => (Ok tt, w3)
                         end
               | Throw e =>
                   (Ok tt,
                    snd ((localStorage_removeItem "authToken" ;;;
                          setQueryData userQueryKey (Some JNull) ;;;
                          toast loggedOutToast) w2))
               end) = (Ok tt, w')
              /\ storedToken w' = None
              /\ cachedUser w' = Some JNull
              /\ b_toasts (w_store w') = (b_toasts (w_store w) ++ [loggedOutToast])%list
              /\ b_downloads (w_store w') = b_downloads (w_store w)
              /\ b_net (w_store w')
                 = snd (fetch (getApiUrl "/api/logout") (mkFetchInit (Some "POST") [] None)
                          (b_net (w_store w)))).
  { intros [[]|e]; eexists; (split; [reflexivity|]).
    - unfold bind, setQueryData, toast. cbn [w_store set_store b_localStorage b_queryCache
        b_toasts b_downloads b_net]. unfold storedToken, cachedUser.
      cbn [w_store set_store b_localStorage b_queryCache b_toasts b_downloads b_net findKey].
      repeat split; try assumption; try (now rewrite Hto); reflexivity.
    - unfold bind, setQueryData, toast, localStorage_removeItem.
      cbn [snd w_store set_store b_localStorage b_queryCache
        b_toasts b_downloads b_net]. unfold storedToken, cachedUser.
      cbn [w_store set_store b_localStorage b_queryCache b_toasts b_downloads b_net findKey].
      repeat split; try assumption; try (now rewrite Hto);
        try reflexivity. apply findKey_removeKey_string. }
  destruct (answerOf w0 (getApiUrl "/api/logout") (mkFetchInit (Some "POST") [] None))
    as [res|e].
  - destruct (fr_ok res).
    + unfold ret. exact (Herr (Ok tt)).
    + destruct (fr_text res) as [body|e].
      * exact (Herr (Throw (httpError res body))).
      * exact (Herr (Throw e)).
  - exact (Herr (Throw e)).
Qed.

End SessionProperties.

Section CredentialProperties.

Context {Net : Type} {net : Fetch Net} {env : ClientEnv}.

Lemma postCredentials_eq (register : bool) (c : LoginData) (w : World (Browser Net)) :
  postCredentials (credentialsPath register) c w
  = let w1 := afterFetch w (getApiUrl (credentialsPath register))
                (requestInit (Some "POST") (Some (json_of_loginData c)) w) in
    match credentialsAnswer register c w with
    | Ok res =>
        if fr_ok res then (fr_json res, w1)
        else match fr_text res with
             | Ok body => (Throw (httpError res body), w1)
             | Throw e => (Throw e, w1)
             end
    | Throw e => (Throw e, w1)
    end.
Proof.
  unfold postCredentials, credentialsAnswer. unfold bind at 1. rewrite apiRequest_eq.
  cbv zeta.
  assert (Hurl : targetUrl (credentialsPath register) = getApiUrl (credentialsPath register))
    by now destruct register.
  rewrite Hurl.
  destruct (answerOf w (getApiUrl (credentialsPath register))
              (requestInit (Some "POST") (Some (json_of_loginData c)) w)) as [res|e];
    [|reflexivity].
  destruct (fr_ok res); [|destruct (fr_text res); reflexivity].
  unfold bind, lift, ret. destruct (fr_json res); reflexivity.
Qed.

Lemma credentialsMutation_eq (register : bool) (c : LoginData) (w : World (Browser Net)) :
  credentialsMutation register c w
  = match postCredentials (credentialsPath register) c w with
    | (Ok data, w1) =>
        match storeSession data
                (if register
                 then mkToast "Account created"
                        "Your admin account has been created successfully." None
                 else mkToast "Login successful"
                        "You are now logged in to the admin portal." None) w1 with
        | (Ok _, w2) => (Ok tt, w2)
        | (Throw e, w2) =>
            (Ok tt, match messageOf e with
                    | Some m => withToast w2 (failureToast register m)
                    | None =>
                        if register
                        then withToast w2
                               (mkToast "Registration failed"
                                  "Could not create account. Please try again."
                                  (Some "destructive"))
                        else w2
                    end)
        end
    | (Throw e, w1) =>
        (Ok tt, match messageOf e with
                | Some m => withToast w1 (failureToast register m)
                | None =>
                    if register
                    then withToast w1
                           (mkToast "Registration failed"
                              "Could not create account. Please try again."
                              (Some "destructive"))
                    else w1
                end)
    end.
Proof.
  destruct register; unfold credentialsMutation, registerMutation, loginMutation,
    credentialsPath; rewrite mutate_eq;
    destruct (postCredentials _ c w) as [[data|e] w1].
  - destruct (storeSession data _ w1) as [[[]|e] w2]; [reflexivity|].
    destruct (messageOf e); reflexivity.
  - destruct (messageOf e); reflexivity.
  - destruct (storeSession data _ w1) as [[[]|e] w2]; [reflexivity|].
    destruct (messageOf e); reflexivity.
  - destruct (messageOf e); reflexivity.
Qed.

End CredentialProperties.

Section CredentialTheorems.

Context {Net : Type} {net : Fetch Net} {env : ClientEnv}.

(** X24. Login and registration store the session the server sends:
    when the answer to the posted credentials has a status in 200-299
    and its body is what [POST /api/login] and [POST /api/register]
    send for a user and a token, the token is put in [localStorage]
    under [authToken], the user, as the server wrote it, stored
    credential included, is put in the query cache under [/api/user],
    and one toast that is not an error is shown.  The credentials were
    sent as JSON, with the [Content-Type] header. *)
Theorem accepted_credentials_store_session
  (register : bool) (c : LoginData) (w : World (Browser Net)) (res : FetchResponse)
  (u : User) (tok : string) :
  credentialsAnswer register c w = Ok res ->
  fr_ok res = true ->
  fr_json res = Ok (authBody (u, tok)) ->
  exists w',
    credentialsMutation register c w = (Ok tt, w')
    /\ storedToken w' = Some tok
    /\ cachedUser w' = Some (json_of_user u)
    /\ userQueryEnabled (w_store w') = Js.truthy tok
    /\ (exists t, b_toasts (w_store w') = (b_toasts (w_store w) ++ [t])%list
                  /\ toast_variant t = None)
    /\ fi_body (requestInit (Some "POST") (Some (json_of_loginData c)) w)
       = Some (JSON_stringify
                 (JObj [("username", JStr (ld_username c));
                        ("password", JStr (ld_password c))]))
    /\ lookup "Content-Type"
         (fi_headers (requestInit (Some "POST") (Some (json_of_loginData c)) w))
       = Some "application/json".
Proof.
  intros Hres Hok Hjson.
  rewrite credentialsMutation_eq, postCredentials_eq. cbv zeta.
  rewrite Hres, Hok, Hjson.
  destruct register; eexists; (split; [reflexivity|]);
    repeat split; eexists; split; reflexivity.
Qed.

(** X25. A refused login or registration leaves the session as it was:
    when the answer has a status outside 200-299, or the request fails,
    the mutation does not throw, the token and the cached user are
    untouched and one error toast is shown.  For a login the toast says
    "Please check your credentials and try again." when the body of the
    answer holds the word "Invalid", as the server's 401 does, and the
    status, a colon and the body otherwise.  A login whose request
    fails with a value that has no message shows no toast at all. *)
Theorem refused_credentials_keep_session
  (register : bool) (c : LoginData) (w : World (Browser Net)) :
  (forall res body,
     credentialsAnswer register c w = Ok res ->
     fr_ok res = false ->
     fr_text res = Ok body ->
     exists w',
       credentialsMutation register c w = (Ok tt, w')
       /\ storedToken w' = storedToken w
       /\ cachedUser w' = cachedUser w
       /\ b_toasts (w_store w')
          = (b_toasts (w_store w)
             ++ [failureToast register
                   (numToString (fr_status res) ++ ": "
                    ++ (if Js.truthy body then body else fr_statusText res))])%list
       /\ (register = false -> Js.includes "Invalid" body = true ->
           toast_description
             (failureToast register
                (numToString (fr_status res) ++ ": "
                 ++ (if Js.truthy body then body else fr_statusText res)))
           = "Please check your credentials and try again."))
  /\
  (forall e,
     credentialsAnswer register c w = Throw e ->
     exists w',
       credentialsMutation register c w = (Ok tt, w')
       /\ storedToken w' = storedToken w
       /\ cachedUser w' = cachedUser w
       /\ b_toasts (w_store w')
          = (b_toasts (w_store w)
             ++ match messageOf e with
                | Some m => [failureToast register m]
                | None =>
                    if register
                    then [mkToast "Registration failed"
                            "Could not create account. Please try again."
                            (Some "destructive")]
                    else []
                end)%list).
Proof.
  split.
  - intros res body Hres Hok Htext.
    rewrite credentialsMutation_eq, postCredentials_eq. cbv zeta.
    rewrite Hres, Hok, Htext. unfold httpError. cbn [messageOf].
    eexists. split; [reflexivity|]. repeat split.
    intros -> Hinv. unfold failureToast. cbn [toast_description].
    rewrite (includes_truthy "Invalid" body eq_refl Hinv).
    now rewrite !includes_app_r by exact Hinv.
  - intros e He.
    rewrite credentialsMutation_eq, postCredentials_eq. cbv zeta. rewrite He.
    destruct (messageOf e) as [m|]; [|destruct register];
      eexists; (split; [reflexivity|]); repeat split.
    unfold withToast. cbn [w_store set_store b_toasts]. now rewrite app_nil_r.
Qed.

(** X26. The session is stored from whatever the answer holds.  When
    the JSON of an accepted answer has no [token], the text
    ["undefined"] is stored as the token: the user query is enabled and
    every later request carries [Bearer undefined].  When the JSON is
    [null], reading the token throws, nothing is stored, and the
    failure toast is shown. *)
Theorem answer_without_token
  (register : bool) (c : LoginData) (w : World (Browser Net)) (res : FetchResponse)
  (data : Json) :
  credentialsAnswer register c w = Ok res ->
  fr_ok res = true ->
  fr_json res = Ok data ->
  (getProp "token" data = Ok None ->
   exists w',
     credentialsMutation register c w = (Ok tt, w')
     /\ storedToken w' = Some "undefined"
     /\ userQueryEnabled (w_store w') = true
     /\ forall m d,
          lookup "Authorization" (fi_headers (requestInit m d w'))
          = Some "Bearer undefined")
  /\
  (data = JNull ->
   exists w' m,
     credentialsMutation register c w = (Ok tt, w')
     /\ storedToken w' = storedToken w
     /\ cachedUser w' = cachedUser w
     /\ b_toasts (w_store w') = (b_toasts (w_store w) ++ [failureToast register m])%list).
Proof.
  intros Hres Hok Hjson. split.
  - intros Htok.
    rewrite credentialsMutation_eq, postCredentials_eq. cbv zeta.
    rewrite Hres, Hok, Hjson.
    unfold storeSession. unfold bind at 1. unfold lift at 1. rewrite Htok.
    unfold bind at 1. unfold localStorage_setItem at 1. cbv beta zeta.
    unfold bind at 1. unfold lift at 1.
    assert (Huser : exists user, getProp "user" data = Ok user).
    { destruct data; try (eexists; reflexivity). discriminate Htok. }
    destruct Huser as [user ->].
    assert (Hend : forall t (w1 : World (Browser Net)),
               storedToken w1 = Some "undefined" ->
               exists w2,
                 (setQueryData userQueryKey user ;;; toast t) w1 = (Ok tt, w2)
                 /\ storedToken w2 = Some "undefined").
    { intros t w1 H1. unfold bind, setQueryData, toast.
      destruct user as [d|]; eexists; (split; [reflexivity|exact H1]). }
    match goal with
    | |- context [(setQueryData userQueryKey user ;;; toast ?t) ?w1] =>
        destruct (Hend t w1 eq_refl) as (w2 & -> & H2)
    end.
    exists w2. split; [destruct register; reflexivity|]. split; [exact H2|].
    split.
    + unfold userQueryEnabled. unfold storedToken in H2. now rewrite H2.
    + intros m d. unfold requestInit. cbn [fi_headers]. rewrite H2.
      now apply authorization_header.
  - intros ->.
    rewrite credentialsMutation_eq, postCredentials_eq. cbv zeta.
    rewrite Hres, Hok, Hjson.
    destruct register; do 2 eexists; (split; [reflexivity|]); repeat split.
Qed.

End CredentialTheorems.

(* ================================================================== *)
(** ** The client: the login form and the submissions page *)
(* ================================================================== *)

Section PageProperties.

Context {Net : Type} {net : Fetch Net} {env : ClientEnv} {platform : Platform}.




(** X29. The table and the export write the core values of a submission
    the same way, joined by a comma and a space, or "No values" when
    they are not an array, with one difference: for an empty array the
    table shows "No values" and the export an empty field. *)
Theorem table_and_export_core_values (sub : Submission) :
  (sub_coreValues sub <> CvArray [] ->
   nth_error (csvFields sub) 3 = Some (coreValuesCell (sub_coreValues sub)))
  /\ (sub_coreValues sub = CvArray [] ->
      coreValuesCell (sub_coreValues sub) = "No values"
      /\ nth_error (csvFields sub) 3 = Some EmptyString).
Proof.
  unfold csvFields, coreValuesCell. cbn [nth_error]. split.
  - intros Hn. destruct (sub_coreValues sub) as [[|v values]|]; [congruence| |]; reflexivity.
  - intros ->. split; reflexivity.
Qed.

Lemma doFetch_total (url : string) (init : FetchInit) (w : World (Browser Net)) :
  exists r w', doFetch url init w = (r, w').
Proof. eexists. eexists. apply doFetch_eq. Qed.

(** X30. The export button downloads a file only when the request
    succeeded and its body could be read: then one link named after the
    selected code is clicked with the body, and the success toast is
    shown.  In every other case nothing is downloaded, the error is
    written to the console and the failure toast is shown.  The handler
    never throws. *)
Theorem export_downloads_only_on_success (selected : string) (w : World (Browser Net)) :
  exists w',
    handleExport selected w = (Ok tt, w')
    /\ storedToken w' = storedToken w
    /\ match fst ((response <- apiRequest "GET" (exportUrl selected) None ;;
                   lift (fr_text response)) w) with
       | Ok blob =>
           b_downloads (w_store w')
           = (b_downloads (w_store w) ++ [(downloadName selected, blob)])%list
           /\ b_toasts (w_store w')
              = (b_toasts (w_store w)
                 ++ [mkToast "Export Successful" "CSV file has been downloaded." None])%list
           /\ w_console w' = w_console w
       | Throw e =>
           b_downloads (w_store w') = b_downloads (w_store w)
           /\ b_toasts (w_store w')
              = (b_toasts (w_store w)
                 ++ [mkToast "Export Failed"
                       "Could not export submissions. Please try again."
                       (Some "destructive")])%list
           /\ w_console w' = (w_console w ++ [("Export error:", e)])%list
       end.
Proof.
  unfold handleExport, try_catch, bind, lift. cbv zeta.
  rewrite apiRequest_eq. cbv zeta.
  destruct (answerOf w (targetUrl (exportUrl selected)) (requestInit (Some "GET") None w))
    as [res|e].
  - destruct (fr_ok res).
    + destruct (fr_text res) as [blob|e];
        eexists; (split; [reflexivity|]); repeat split.
    + destruct (fr_text res) as [body|e];
        eexists; (split; [reflexivity|]); repeat split.
  - eexists; (split; [reflexivity|]); repeat split.
Qed.

End PageProperties.

(* ================================================================== *)
(** ** The reference collaborators keep the laws *)
(* ================================================================== *)

Lemma encPos_lacks_dot (p : positive) : Js.lacks "." (Ref.encPos p) = true.
Proof. induction p as [q IH|q IH|]; cbn; auto. Qed.

Lemma encZ_lacks_dot (z : Z) : Js.lacks "." (Ref.encZ z) = true.
Proof. destruct z; cbn; auto using encPos_lacks_dot. Qed.

Lemma hexOfString_lacks_dot (s : string) : Js.lacks "." (Ref.hexOfString s) = true.
Proof. apply toString_hex_lacks_dot. Qed.

Lemma decPos_encPos (p : positive) (rest : string) :
  Ref.decPos (Ref.encPos p ++ rest) = Some (p, rest).
Proof.
  induction p as [q IH|q IH|]; cbn; [rewrite IH|rewrite IH|]; reflexivity.
Qed.

Lemma decZ_encZ (z : Z) (rest : string) :
  Ref.decZ (Ref.encZ z ++ rest) = Some (z, rest).
Proof.
  destruct z; cbn; [|rewrite decPos_encPos|rewrite decPos_encPos]; reflexivity.
Qed.

Lemma stringOfHex_hexOfString (s : string) : Ref.stringOfHex (Ref.hexOfString s) = s.
Proof.
  unfold Ref.stringOfHex, Ref.hexOfString.
  rewrite from_hex_toString_hex. apply string_of_list_byte_of_string.
Qed.

Lemma ref_decode_encodeClaims (c : Claims) :
  Ref.ref_decodeClaims (Ref.ref_encodeClaims c) = Some c.
Proof.
  destruct c as [uid un issued expiry].
  unfold Ref.ref_decodeClaims, Ref.ref_encodeClaims. cbn [userId username iat exp].
  rewrite !decZ_encZ.
  destruct expiry as [e|];
    cbn -[Ref.hexOfString Ref.stringOfHex Ref.decZ Ref.encZ].
  - now rewrite decZ_encZ, stringOfHex_hexOfString.
  - now rewrite stringOfHex_hexOfString.
Qed.

Lemma ref_jws_laws : @JwsLaws Ref.RefJws.
Proof.
  constructor; cbn [hmac encodeHeader decodeHeader encodeClaims decodeClaims Ref.RefJws].
  - intros a. now destruct a.
  - intros c. unfold Ref.ref_encodeClaims.
    rewrite !lacks_app, !encZ_lacks_dot, hexOfString_lacks_dot.
    destruct (exp c); cbn; now rewrite ?encZ_lacks_dot.
  - intros a k m. unfold Ref.ref_hmac. rewrite lacks_app, hexOfString_lacks_dot.
    now destruct a.
  - intros a k m. now destruct a.
  - intros a. now destruct a.
  - apply ref_decode_encodeClaims.
Qed.

(** The token coding keeps the laws also with the MAC that pads its
    key. *)
Lemma padded_jws_laws : @JwsLaws Ref.PaddedJws.
Proof.
  constructor; cbn [hmac encodeHeader decodeHeader encodeClaims decodeClaims Ref.PaddedJws].
  - apply (encodeHeader_lacks_dot (JwsLaws := ref_jws_laws)).
  - apply (encodeClaims_lacks_dot (JwsLaws := ref_jws_laws)).
  - intros a k m. apply (hmac_lacks_dot (JwsLaws := ref_jws_laws)).
  - intros a k m. apply (hmac_not_blank (JwsLaws := ref_jws_laws)).
  - apply (decode_encodeHeader (JwsLaws := ref_jws_laws)).
  - apply (decode_encodeClaims (JwsLaws := ref_jws_laws)).
Qed.

(** The in-memory store gives, for a company code, the submissions that
    have it. *)
Lemma mem_getSubmissionsByCompanyCode_filters (code : string) (s : Ref.MemState) :
  Ref.ms_fault s = None ->
  getSubmissionsByCompanyCode (IStorage := Ref.MemStorage) code s =
  (Ok (filter (Ref.hasCompanyCode code) (Ref.ms_submissions s)), s).
Proof.
  intros Hf. cbn. unfold Ref.mem_getSubmissionsByCompanyCode, Ref.guarded.
  now rewrite Hf.
Qed.

Lemma find_app_last {A} (f : A -> bool) (l : list A) (x : A) :
  find f l = None -> f x = true -> find f (l ++ [x]) = Some x.
Proof.
  induction l as [|y l IH]; cbn; intros Hn Hx.
  - now rewrite Hx.
  - destruct (f y); [discriminate|]. now apply IH.
Qed.

Lemma existsb_find_None {A} (f : A -> bool) (l : list A) :
  find f l = None -> existsb f l = false.
Proof.
  induction l as [|y l IH]; cbn; [reflexivity|].
  destruct (f y); [discriminate|]. exact IH.
Qed.

(** On the in-memory store, C1 holds for every state that is not faulty
    and has no user of that name. *)
Lemma mem_register_then_login_verifies (w0 : World Ref.MemState) (uname pass : string) :
  Ref.ms_fault (w_store w0) = None -> Ref.ms_readOnly (w_store w0) = None ->
  find (fun u => String.eqb (user_username u) uname) (Ref.ms_users (w_store w0)) = None ->
  exists u tok0 w1,
    Ref.register uname pass w0 = (Ok (Some (u, tok0)), w1) /\
    user_username u = uname /\
    forall w2, w_store w2 = w_store w1 ->
      exists tok w3 c,
        Ref.login uname pass w2 = (Ok (Some (u, tok)), w3) /\
        Ref.verify tok w3 = (Ok (Some c), w3) /\
        username c = uname /\ userId c = user_id u.
Proof.
  intros Hfault Hro Hfree.
  set (u := mkUser (Ref.ms_nextId (w_store w0)) uname
              (credential (crypto := Ref.RefCrypto) pass (nextSalt w0))).
  assert (Hlookup : getUserByUsername (IStorage := Ref.MemStorage) uname (w_store w0)
                    = (Ok None, w_store w0)).
  { cbn [getUserByUsername Ref.MemStorage].
    unfold Ref.mem_getUserByUsername, Ref.guarded. now rewrite Hfault, Hfree. }
  assert (Hcreate : exists s2,
             createUser (IStorage := Ref.MemStorage)
               (mkInsertUser uname (credential (crypto := Ref.RefCrypto) pass (nextSalt w0)))
               (w_store w0) = (Ok u, s2) /\
             getUserByUsername (IStorage := Ref.MemStorage) uname s2 = (Ok (Some u), s2)).
  { eexists. split.
    - cbn [createUser Ref.MemStorage].
      unfold Ref.mem_createUser, Ref.guardedWrite, Ref.guarded.
      rewrite Hfault, Hro. cbn [iu_username iu_password].
      rewrite (existsb_find_None _ _ Hfree). reflexivity.
    - cbn [getUserByUsername Ref.MemStorage].
      unfold Ref.mem_getUserByUsername, Ref.guarded. cbn [Ref.ms_fault Ref.ms_users].
      rewrite (find_app_last _ _ _ Hfree); [reflexivity|].
      apply String.eqb_refl. }
  destruct Hcreate as (s2 & Hcreate & Hfound).
  exists u. eexists. eexists. split.
  { unfold Ref.register. rewrite registerUser_eq, Hlookup. cbv zeta.
    rewrite Hcreate. reflexivity. }
  split; [reflexivity|].
  intros w2 Hw2. cbn [w_store set_store] in Hw2.
  eexists. eexists. eexists. split.
  { unfold Ref.login. rewrite loginUser_eq, Hw2, Hfound.
    rewrite comparePasswords_true; [reflexivity|].
    apply credential_matches, toString_hex_lacks_dot. }
  split.
  { apply (verifyToken_generated (laws := ref_jws_laws)). cbn. lia. }
  split; reflexivity.
Qed.

(* ================================================================== *)
(** ** Runs on the reference collaborators *)
(* ================================================================== *)

Section Runs.

Import Ref.

Example split_credential : Js.split "." "ab12.cd34" = ["ab12"; "cd34"].
Proof. reflexivity. Qed.

Example split_no_separator : Js.split "." "deadbeef" = ["deadbeef"].
Proof. reflexivity. Qed.

Example split_empty : Js.split "." "" = [""].
Proof. reflexivity. Qed.

Example bearer_of_header :
  map bearerToken
    [None; Some ""; Some "Bearer"; Some "Bearer "; Some "Bearer abc"; Some "Basic abc def"]
  = [None; Some ""; None; Some ""; Some "abc"; Some "abc"].
Proof. reflexivity. Qed.

Example parseInt_examples :
  map Js.parseInt
    ["12"; "12abc"; "abc"; " -0x1F"; "0x"; "+5"; "- 5"; ".5"; "08"; "1e3"; ""; "1.5"]
  = [Js.Int 12; Js.Int 12; Js.NaN; Js.Int (-31); Js.NaN; Js.Int 5; Js.NaN; Js.NaN;
     Js.Int 8; Js.Int 1; Js.NaN; Js.Int 1].
Proof. reflexivity. Qed.

Example hex_examples :
  Buffer.toString_hex [Byte.x01; Byte.xab; Byte.xff] = "01abff" /\
  Buffer.from_hex "01ABff" = [Byte.x01; Byte.xab; Byte.xff] /\
  Buffer.from_hex "1ag123" = [Byte.x1a] /\
  Buffer.from_hex "1a7" = [Byte.x1a].
Proof. repeat split. Qed.

Example valuesList_example :
  valuesList [mkCoreValueItem "Integrity" "Doing what is right";
              mkCoreValueItem "Courage" "Acting despite fear"]
  = "<li>1. <strong>Integrity</strong>: Doing what is right</li><li>2. <strong>Courage</strong>: Acting despite fear</li>".
Proof. reflexivity. Qed.

Example export_filenames :
  map exportFilename [None; Some ""; Some "all"; Some "acme"]
  = ["submissions.csv"; "submissions.csv"; "submissions_all.csv"; "submissions_acme.csv"].
Proof. reflexivity. Qed.

Example token_expires_after_seven_days :
  fst (verify aliceToken (world emptyStore (t0 + 604799999))) = Ok (Some aliceClaims) /\
  fst (verify aliceToken (world emptyStore (t0 + 604800000))) = Ok None.
Proof. split; vm_compute; reflexivity. Qed.

(** C1 on the in-memory store: alice registers, logs in, and her token
    verifies. *)
Lemma register_then_login_verifies_witness :
  exists tok0 w1,
    register "alice" "correct horse" (world emptyStore t0) = (Ok (Some (alice, tok0)), w1) /\
    w_store w1 = aliceStore /\
    forall w2, w_store w2 = aliceStore ->
      exists tok w3 c,
        login "alice" "correct horse" w2 = (Ok (Some (alice, tok)), w3) /\
        verify tok w3 = (Ok (Some c), w3) /\
        userId c = user_id alice /\ username c = user_username alice /\
        forall w4 : World MemState,
          (w_now w4 / 1000 < w_now w2 / 1000 + 604800)%Z ->
          verify tok w4 = (Ok (Some c), w4).
Proof.
  apply (@register_then_login_verifies MemState MemStorage RefCrypto RefJws platform
           ref_jws_laws (world emptyStore t0) "alice" "correct horse"
           emptyStore aliceStore aliceStore alice);
    vm_compute; reflexivity.
Defined.

(** C5 as stated fails: with the store down, [loginUser] and
    [registerUser] return what they return to a wrong password and to a
    taken username, and the routes answer the same 401 and 400. *)
Lemma fault_same_as_rejection :
  fst (getUserByUsername (IStorage := MemStorage) "alice" downStore)
  = Throw connectionRefused /\
  fst (getUserByUsername (IStorage := MemStorage) "alice" aliceStore) = Ok (Some alice) /\
  fst (login "alice" "correct horse" (world downStore t0))
  = fst (login "alice" "wrong password" aliceWorld) /\
  fst (register "alice" "correct horse" (world downStore t0))
  = fst (register "alice" "correct horse" aliceWorld) /\
  fst (route POST_login
         (request None tt [] (mkCredentials (Some "alice") (Some "correct horse")))
         (world downStore t0))
  = fst (route POST_login
           (request None tt [] (mkCredentials (Some "alice") (Some "wrong password")))
           aliceWorld) /\
  fst (route POST_register
         (request None tt [] (mkCredentials (Some "alice") (Some "correct horse")))
         (world downStore t0))
  = fst (route POST_register
           (request None tt [] (mkCredentials (Some "alice") (Some "correct horse")))
           aliceWorld).
Proof. repeat split; vm_compute; reflexivity. Qed.

(** C6 as stated fails: on the credential ["deadbeef"], which holds no
    separator, [comparePasswords] throws instead of returning [false]. *)
Lemma malformed_credential_not_false :
  Js.lacks "." "deadbeef" = true /\
  fst (compare "hunter2" "deadbeef" (world emptyStore t0)) = Throw ERR_INVALID_ARG_TYPE_salt /\
  fst (compare "hunter2" "deadbeef" (world emptyStore t0)) <> Ok false.
Proof.
  split; [|split]; [reflexivity|vm_compute; reflexivity|vm_compute; discriminate].
Qed.

(** C7 as stated fails: the id ["12abc"] is not numeric, and the answer
    is 404, not 400; the id ["5abc"] is answered with the value 5. *)
Lemma non_numeric_id_not_400 :
  isNumericId "12abc" = false /\
  fst (route GET_leadership_value
         (request (bearer aliceToken) (mkIdParams "12abc") [] tt) (world surveyStore t0))
  = Ok (status_json 404 (message "Leadership value not found")) /\
  isNumericId "5abc" = false /\
  fst (route GET_leadership_value
         (request (bearer aliceToken) (mkIdParams "5abc") [] tt) (world surveyStore t0))
  = Ok (res_json (json_of_leadershipValue (mkLeadershipValue 5 "Courage" "Acting despite fear"))).
Proof. repeat split; vm_compute; reflexivity. Qed.


(** C3 as stated fails: HMAC fills a short key up with zero bytes, so
    the process-wide secret followed by a zero byte is another secret
    with the same MACs; [verifyToken] accepts the token signed with
    it. *)
Lemma other_secret_accepted :
  paddedSecret <> JWT_SECRET (platform := platform) /\
  paddedToken
  = jwt_sign (jws := PaddedJws) 1 "alice" paddedSecret 604800 t0 /\
  hmacKey HS256 paddedSecret = hmacKey HS256 (JWT_SECRET (platform := platform)) /\
  verifyToken (jws := PaddedJws) (platform := platform) paddedToken (world emptyStore t0)
  = (Ok (Some (mkClaims 1 "alice" 1700000000 (Some 1700604800%Z))), world emptyStore t0).
Proof. repeat split; vm_compute; (reflexivity || discriminate). Qed.

(** C9 as stated fails: when the store is down the health check sends
    the error's message to the client, when the mail provider reports a
    failure the e-mail route sends the provider's error, and when
    storage throws a [ZodError] the submission route sends the
    validation message made from it. *)
Lemma health_shows_fault :
  fst (getAllLeadershipValues (IStorage := MemStorage) downStore)
  = Throw (ErrorObject PlainError "connect ECONNREFUSED 10.0.0.5:5432") /\
  fst (route GET_health (request None tt [] tt) (world downStore t0))
  = Ok (status_json 503
          (JObj [("status", JStr "unhealthy");
                 ("timestamp", JStr (toISOString (Platform := platform) t0));
                 ("uptime", JNum 0);
                 ("database", JStr "disconnected");
                 ("error", JStr "connect ECONNREFUSED 10.0.0.5:5432")])) /\
  fst (route POST_send_pdf_email pdfRequest (world mailFailingStore t0))
  = Ok (status_json 500
          (JObj [("error", JStr "Failed to send email");
                 ("details", JStr "Invalid API key sk_live_4f2a")])) /\
  insertSubmissionSchema_parse (Platform := platform) annBody
  = Ok (mkInsertSubmission "Ann" "ann@example.org" (Some "acme") ["Integrity"; "Courage"]) /\
  fst (createSubmission (IStorage := MemStorage)
         (mkInsertSubmission "Ann" "ann@example.org" (Some "acme") ["Integrity"; "Courage"])
         invalidRowStore)
  = Throw (ErrorObject ZodError "Expected array, received string at coreValues") /\
  fst (route POST_submissions (request None tt [] annBody) (world invalidRowStore t0))
  = Ok (status_json 400
          (JObj [("message", JStr "Invalid submission data");
                 ("errors",
                  JStr "Validation error: Expected array, received string at coreValues")])).
Proof. repeat split; vm_compute; reflexivity. Qed.

(** C2 on [GET /api/user]: no header, a garbage token, a user storage
    does not have, a store that is down, and alice. *)
Lemma authenticateToken_stages_witness :
  whoami (request None tt [] tt) surveyWorld
  = (Ok (status_json 401 (message "Access token required")), surveyWorld) /\
  whoami (request (bearer "garbage") tt [] tt) surveyWorld
  = (Ok (status_json 403 (message "Invalid or expired token")), surveyWorld) /\
  whoami (asAlice tt [] tt) (world emptyStore t0)
  = (Ok (status_json 403 (message "User not found")), world emptyStore t0) /\
  whoami (asAlice tt [] tt) (world downStore t0)
  = (Ok (status_json 500 (message "Authentication error")), world downStore t0) /\
  whoami (asAlice tt [] tt) surveyWorld
  = getCurrentUser (attached (asAlice tt [] tt) alice) surveyWorld.
Proof.
  split; [|split; [|split; [|split]]].
  - apply (proj1 (authenticateToken_stages (storage := MemStorage) (jws := RefJws)
                    (platform := platform) getCurrentUser (request None tt [] tt)
                    surveyWorld)).
    reflexivity.
  - destruct (authenticateToken_stages (storage := MemStorage) (jws := RefJws)
                (platform := platform) getCurrentUser
                (request (bearer "garbage") tt [] tt) surveyWorld) as [_ Htoken].
    destruct (Htoken "garbage") as [Hinvalid _]; [reflexivity|reflexivity|].
    apply Hinvalid. vm_compute; reflexivity.
  - destruct (authenticateToken_stages (storage := MemStorage) (jws := RefJws)
                (platform := platform) getCurrentUser
                (asAlice tt [] tt) (world emptyStore t0)) as [_ Htoken].
    destruct (Htoken aliceToken) as [_ Hverified];
      [vm_compute; reflexivity|vm_compute; reflexivity|].
    destruct (Hverified aliceClaims) as (Hmissing & _ & _); [vm_compute; reflexivity|].
    apply (Hmissing emptyStore). vm_compute; reflexivity.
  - destruct (authenticateToken_stages (storage := MemStorage) (jws := RefJws)
                (platform := platform) getCurrentUser
                (asAlice tt [] tt) (world downStore t0)) as [_ Htoken].
    destruct (Htoken aliceToken) as [_ Hverified];
      [vm_compute; reflexivity|vm_compute; reflexivity|].
    destruct (Hverified aliceClaims) as (_ & Hfault & _); [vm_compute; reflexivity|].
    apply (Hfault connectionRefused downStore). vm_compute; reflexivity.
  - destruct (authenticateToken_stages (storage := MemStorage) (jws := RefJws)
                (platform := platform) getCurrentUser
                (asAlice tt [] tt) surveyWorld) as [_ Htoken].
    destruct (Htoken aliceToken) as [_ Hverified];
      [vm_compute; reflexivity|vm_compute; reflexivity|].
    destruct (Hverified aliceClaims) as (_ & _ & Hfound); [vm_compute; reflexivity|].
    apply (Hfound alice surveyStore). vm_compute; reflexivity.
Defined.

(** C3 on alice's token after its expiry, on a token signed with
    another secret, on two malformed strings, and, with the MAC that
    pads its key as HMAC does, on a token signed with the secret
    followed by a zero byte. *)
Lemma verifyToken_total_and_rejects_witness :
  (exists r, verify aliceToken (world emptyStore t0) = (Ok r, world emptyStore t0)) /\
  verify aliceToken (world emptyStore (t0 + 700000000000))
  = (Ok None, world emptyStore (t0 + 700000000000)) /\
  verify aliceToken (world emptyStore (t0 + 604800000))
  = (Ok None, world emptyStore (t0 + 604800000)) /\
  verify forgedToken (world emptyStore t0) = (Ok None, world emptyStore t0) /\
  verify "not-a-token" (world emptyStore t0) = (Ok None, world emptyStore t0) /\
  verify "a.b.c" (world emptyStore t0) = (Ok None, world emptyStore t0) /\
  verifyToken (jws := PaddedJws) (platform := platform) paddedToken (world emptyStore t0)
  = (Ok (Some aliceClaims), world emptyStore t0).
Proof.
  split; [|split; [|split; [|split; [|split; [|split]]]]].
  - apply (verifyToken_total_and_rejects (St := MemState) (laws := ref_jws_laws)
             (platform := platform)).
  - destruct (verifyToken_total_and_rejects (St := MemState) (laws := ref_jws_laws)
                (platform := platform) aliceToken
                (world emptyStore (t0 + 700000000000)))
      as (_ & Hexpired & _).
    apply (Hexpired (encodeHeader (Jws := RefJws) HS256)
             (encodeClaims (Jws := RefJws) aliceClaims)
             (hmac (Jws := RefJws) HS256 "your-super-secret-jwt-key"
                (jwt_signingInput (jws := RefJws) aliceClaims))
             aliceClaims 1700604800%Z);
      vm_compute; (reflexivity || discriminate).
  - destruct (verifyToken_total_and_rejects (St := MemState) (laws := ref_jws_laws)
                (platform := platform) aliceToken
                (world emptyStore (t0 + 604800000)))
      as (_ & _ & Hissued & _).
    apply (Hissued alice t0); vm_compute; (reflexivity || discriminate).
  - destruct (verifyToken_total_and_rejects (St := MemState) (laws := ref_jws_laws)
                (platform := platform) forgedToken
                (world emptyStore t0))
      as (_ & _ & _ & Hsecret & _).
    apply (Hsecret 1%Z "alice" "attacker secret" 604800%Z t0);
      vm_compute; (reflexivity || discriminate).
  - destruct (verifyToken_total_and_rejects (St := MemState) (laws := ref_jws_laws)
                (platform := platform) "not-a-token"
                (world emptyStore t0))
      as (_ & _ & _ & _ & Hsegments & _).
    apply Hsegments. vm_compute. discriminate.
  - destruct (verifyToken_total_and_rejects (St := MemState) (laws := ref_jws_laws)
                (platform := platform) "a.b.c"
                (world emptyStore t0))
      as (_ & _ & _ & _ & _ & Hdecode & _).
    apply (Hdecode "a" "b" "c"); [reflexivity|]. left. reflexivity.
  - destruct (verifyToken_total_and_rejects (St := MemState) (laws := padded_jws_laws)
                (platform := platform) paddedToken
                (world emptyStore t0))
      as (_ & _ & _ & _ & _ & _ & Hsame).
    apply (Hsame 1%Z "alice" paddedSecret 604800%Z t0);
      vm_compute; (reflexivity || discriminate).
Defined.

(** C4 on the store alice registered in: an unknown name, a wrong
    password and the right one. *)
Lemma loginUser_checks_password_witness :
  login "bob" "correct horse" aliceWorld = (Ok None, aliceWorld) /\
  (exists w', login "alice" "wrong password" aliceWorld = (Ok None, w')) /\
  (exists tok c,
     login "alice" "correct horse" aliceWorld = (Ok (Some (alice, tok)), aliceWorld) /\
     verify tok aliceWorld = (Ok (Some c), aliceWorld) /\
     username c = "alice" /\ userId c = 1%Z).
Proof.
  destruct (loginUser_checks_password (storage := MemStorage) (crypto := RefCrypto)
              (laws := ref_jws_laws) (platform := platform)
              "bob" "correct horse" aliceWorld) as (Hunknown & _ & _).
  destruct (loginUser_checks_password (storage := MemStorage) (crypto := RefCrypto)
              (laws := ref_jws_laws) (platform := platform)
              "alice" "wrong password" aliceWorld) as (_ & Hwrong & _).
  destruct (loginUser_checks_password (storage := MemStorage) (crypto := RefCrypto)
              (laws := ref_jws_laws) (platform := platform)
              "alice" "correct horse" aliceWorld) as (_ & _ & Hright).
  split; [|split].
  - apply (Hunknown aliceStore). vm_compute; reflexivity.
  - apply (Hwrong alice aliceStore); vm_compute; reflexivity.
  - apply (Hright alice aliceStore); vm_compute; reflexivity.
Defined.

(** C5 on a store that is down, a store that refuses writes, a
    credential without salt, and the rejections. *)
Lemma faults_surface_as_null_witness :
  (login "alice" "correct horse" (world downStore t0)
   = (Ok None, logged (world downStore t0) "Login error:" connectionRefused) /\
   register "alice" "correct horse" (world downStore t0)
   = (Ok None, logged (world downStore t0) "Registration error:" connectionRefused)) /\
  login "mallory" "hunter2" (world corruptStore t0)
  = (Ok None, logged (world corruptStore t0) "Login error:" ERR_INVALID_ARG_TYPE_salt) /\
  (exists w',
     register "alice" "correct horse" (world readOnlyStore t0) = (Ok None, w') /\
     w_console w' = [("Registration error:", diskFull)]) /\
  login "bob" "correct horse" aliceWorld = (Ok None, aliceWorld) /\
  (login "alice" "wrong password" aliceWorld = (Ok None, aliceWorld) /\
   register "alice" "correct horse" aliceWorld = (Ok None, aliceWorld)) /\
  (fst (route POST_login
          (request None tt [] (mkCredentials (Some "alice") (Some "correct horse")))
          (world downStore t0))
   = Ok (status_json 401 (message "Invalid credentials")) /\
   fst (route POST_register
          (request None tt [] (mkCredentials (Some "alice") (Some "correct horse")))
          (world downStore t0))
   = Ok (status_json 400 (message "Username already exists"))).
Proof.
  destruct (faults_surface_as_null (storage := MemStorage) (crypto := RefCrypto)
              (jws := RefJws) (platform := platform)
              "alice" "correct horse" (world downStore t0))
    as (Hdown & _ & _ & _ & _ & Hroutes).
  destruct (faults_surface_as_null (storage := MemStorage) (crypto := RefCrypto)
              (jws := RefJws) (platform := platform)
              "mallory" "hunter2" (world corruptStore t0))
    as (_ & Hhasher & _).
  destruct (faults_surface_as_null (storage := MemStorage) (crypto := RefCrypto)
              (jws := RefJws) (platform := platform)
              "alice" "correct horse" (world readOnlyStore t0))
    as (_ & _ & Hwrite & _).
  destruct (faults_surface_as_null (storage := MemStorage) (crypto := RefCrypto)
              (jws := RefJws) (platform := platform)
              "bob" "correct horse" aliceWorld)
    as (_ & _ & _ & Hunknown & _).
  destruct (faults_surface_as_null (storage := MemStorage) (crypto := RefCrypto)
              (jws := RefJws) (platform := platform)
              "alice" "wrong password" aliceWorld)
    as (_ & _ & _ & _ & Hwrong & _).
  destruct (faults_surface_as_null (storage := MemStorage) (crypto := RefCrypto)
              (jws := RefJws) (platform := platform)
              "alice" "correct horse" aliceWorld)
    as (_ & _ & _ & _ & Htaken & _).
  split; [|split; [|split; [|split; [|split]]]].
  - apply (Hdown connectionRefused downStore). vm_compute; reflexivity.
  - apply (Hhasher mallory corruptStore); vm_compute; reflexivity.
  - apply (Hwrite readOnlyStore diskFull readOnlyStore); vm_compute; reflexivity.
  - apply (Hunknown aliceStore). vm_compute; reflexivity.
  - split.
    + apply (proj1 (Hwrong alice aliceStore ltac:(vm_compute; reflexivity))).
      vm_compute; reflexivity.
    + apply (proj2 (Htaken alice aliceStore ltac:(vm_compute; reflexivity))).
  - destruct (Hroutes unit
                (request None tt [] (mkCredentials (Some "alice") (Some "correct horse"))))
      as [Hlogin Hregister]; try reflexivity.
    split; [apply Hlogin|apply Hregister]; vm_compute; reflexivity.
Defined.

(** C6 on mallory, whose stored credential is ["deadbeef"]. *)
Lemma malformed_credential_throws_and_login_fails_witness :
  compare "hunter2" "deadbeef" (world corruptStore t0)
  = (Throw ERR_INVALID_ARG_TYPE_salt, world corruptStore t0) /\
  login "mallory" "hunter2" (world corruptStore t0)
  = (Ok None, logged (world corruptStore t0) "Login error:" ERR_INVALID_ARG_TYPE_salt).
Proof.
  destruct (malformed_credential_throws_and_login_fails (storage := MemStorage)
              (crypto := RefCrypto) (jws := RefJws) (platform := platform)
              "hunter2" "deadbeef" (world corruptStore t0) eq_refl)
    as [Hthrows Hlogin].
  split; [exact Hthrows|].
  apply (Hlogin "mallory" mallory corruptStore); reflexivity.
Defined.

(** C7 on the three routes, with ids [parseInt] cannot read and ids
    storage does not have. *)
Lemma leadership_value_id_routes_witness :
  (route GET_leadership_value (asAlice (mkIdParams "abc") [] tt) surveyWorld
   = (Ok (status_json 400 (message "Invalid ID format")), surveyWorld) /\
   route GET_leadership_value (asAlice (mkIdParams "99") [] tt) surveyWorld
   = (Ok (status_json 404 (message "Leadership value not found")), surveyWorld)) /\
  (route PUT_leadership_value (asAlice (mkIdParams "") [] JNull) surveyWorld
   = (Ok (status_json 400 (message "Invalid ID format")), surveyWorld) /\
   route PUT_leadership_value (asAlice (mkIdParams "12abc") [] JNull) surveyWorld
   = (Ok (status_json 404 (message "Leadership value not found")), surveyWorld)) /\
  (route DELETE_leadership_value (asAlice (mkIdParams "five") [] tt) surveyWorld
   = (Ok (status_json 400 (message "Invalid ID format")), surveyWorld) /\
   route DELETE_leadership_value (asAlice (mkIdParams " -7") [] tt) surveyWorld
   = (Ok (status_json 404 (message "Leadership value not found")), surveyWorld)).
Proof.
  destruct (leadership_value_id_routes (storage := MemStorage) (mailer := MemMailer)
              (crypto := RefCrypto) (jws := RefJws) (platform := platform))
    as (Hget & Hput & Hdelete).
  split; [|split]; split.
  - apply (Hget (asAlice (mkIdParams "abc") [] tt)
             (attached (asAlice (mkIdParams "abc") [] tt) alice) surveyWorld surveyWorld);
      vm_compute; reflexivity.
  - apply (proj2 (Hget (asAlice (mkIdParams "99") [] tt)
                    (attached (asAlice (mkIdParams "99") [] tt) alice)
                    surveyWorld surveyWorld ltac:(vm_compute; reflexivity))
             99%Z surveyStore);
      vm_compute; reflexivity.
  - apply (Hput (asAlice (mkIdParams "") [] JNull)
             (attached (asAlice (mkIdParams "") [] JNull) alice) surveyWorld surveyWorld);
      vm_compute; reflexivity.
  - apply (proj2 (Hput (asAlice (mkIdParams "12abc") [] JNull)
                    (attached (asAlice (mkIdParams "12abc") [] JNull) alice)
                    surveyWorld surveyWorld ltac:(vm_compute; reflexivity))
             12%Z surveyStore);
      vm_compute; reflexivity.
  - apply (Hdelete (asAlice (mkIdParams "five") [] tt)
             (attached (asAlice (mkIdParams "five") [] tt) alice) surveyWorld surveyWorld);
      vm_compute; reflexivity.
  - apply (proj2 (Hdelete (asAlice (mkIdParams " -7") [] tt)
                    (attached (asAlice (mkIdParams " -7") [] tt) alice)
                    surveyWorld surveyWorld ltac:(vm_compute; reflexivity))
             (-7)%Z surveyStore);
      vm_compute; reflexivity.
Defined.


(** C9 on the reference collaborators, observed: a store that is down
    under a public route, under the middleware, under login and under
    the health check; a store that refuses writes under a route behind
    the middleware; a mail provider that reports a failure; and a store
    that throws a [ZodError]. *)
Lemma failures_are_generic_but_health_and_mail_witness :
  (fst (watched GET_leadership_values (request None tt [] tt) (observing (world downStore t0)))
   = Ok (status_json 500 (message "An error occurred while fetching leadership values"))
   /\ mon_faults (w_store (snd (watched GET_leadership_values (request None tt [] tt)
                                  (observing (world downStore t0)))))
      = [Thrown connectionRefused]
   /\ In (status_json 500 (message "An error occurred while fetching leadership values"))
        (faultAnswers GET_leadership_values))
  /\
  (fst (watched GET_submissions (asAlice tt [] tt) (observing (world downStore t0)))
   = Ok (status_json 500 (message "Authentication error"))
   /\ mon_faults (w_store (snd (watched GET_submissions (asAlice tt [] tt)
                                  (observing (world downStore t0)))))
      = [Thrown connectionRefused]
   /\ In (status_json 500 (message "Authentication error")) (faultAnswers GET_submissions))
  /\
  (fst (watched POST_leadership_values
          (asAlice tt [] (JObj [("value", JStr "Candour"); ("description", JStr "Say it")]))
          (observing (world aliceReadOnlyStore t0)))
   = Ok (status_json 500 (message "An error occurred while creating the leadership value"))
   /\ mon_faults (w_store (snd (watched POST_leadership_values
                                  (asAlice tt []
                                     (JObj [("value", JStr "Candour");
                                            ("description", JStr "Say it")]))
                                  (observing (world aliceReadOnlyStore t0)))))
      = [Thrown diskFull]
   /\ In (status_json 500 (message "An error occurred while creating the leadership value"))
        (faultAnswers POST_leadership_values))
  /\
  (fst (watched POST_login
          (request None tt [] (mkCredentials (Some "alice") (Some "correct horse")))
          (observing (world downStore t0)))
   = Ok (status_json 401 (message "Invalid credentials"))
   /\ mon_faults (w_store (snd (watched POST_login
                                  (request None tt []
                                     (mkCredentials (Some "alice") (Some "correct horse")))
                                  (observing (world downStore t0)))))
      = [Thrown connectionRefused]
   /\ In (status_json 401 (message "Invalid credentials")) (faultAnswers POST_login))
  /\
  (mon_faults (w_store (snd (watched GET_health (request None tt [] tt)
                               (observing (world downStore t0)))))
   = [Thrown connectionRefused]
   /\ fst (watched GET_health (request None tt [] tt) (observing (world downStore t0)))
      = Ok (unhealthy (platform := platform) t0 0 connectionRefused))
  /\
  (mon_faults (w_store (snd (watched POST_send_pdf_email pdfRequest
                               (observing (world mailFailingStore t0)))))
   = [Reported (Some (JStr "Invalid API key sk_live_4f2a"))]
   /\ fst (watched POST_send_pdf_email pdfRequest (observing (world mailFailingStore t0)))
      = Ok (mailFailure (Some (JStr "Invalid API key sk_live_4f2a"))))
  /\
  (mon_faults (w_store (snd (watched POST_submissions (request None tt [] annBody)
                               (observing (world invalidRowStore t0)))))
   = [Thrown rowInvalid]
   /\ exists resp,
        fst (watched POST_submissions (request None tt [] annBody)
               (observing (world invalidRowStore t0)))
        = Ok resp
        /\ validationAnswer (platform := platform) POST_submissions rowInvalid = Some resp).
Proof.
  pose proof (fun r req w =>
                failures_are_generic_but_health_and_mail (storage := MemStorage)
                  (mailer := MemMailer) (crypto := RefCrypto) (jws := RefJws)
                  (platform := platform) r req (observing w) eq_refl) as Hc9.
  split; [|split; [|split; [|split; [|split; [|split]]]]].
  - destruct (Hc9 GET_leadership_values (request None tt [] tt) (world downStore t0))
      as (resp & w' & Hrun & _ & Hthrown & _).
    assert (Hf : fst (watched GET_leadership_values (request None tt [] tt)
                        (observing (world downStore t0)))
                 = Ok (status_json 500
                         (message "An error occurred while fetching leadership values")))
      by (vm_compute; reflexivity).
    assert (Hl : mon_faults (w_store (snd (watched GET_leadership_values
                                             (request None tt [] tt)
                                             (observing (world downStore t0)))))
                 = [Thrown connectionRefused])
      by (vm_compute; reflexivity).
    split; [exact Hf|]. split; [exact Hl|].
    unfold watched in Hf, Hl. rewrite Hrun in Hf, Hl. cbn [fst snd] in Hf, Hl.
    injection Hf as ->. rewrite Hl in Hthrown.
    destruct (Hthrown connectionRefused (or_introl eq_refl)) as [[Hr _]|[[Hz _]|Hin]];
      [discriminate Hr|discriminate Hz|exact Hin].
  - destruct (Hc9 GET_submissions (asAlice tt [] tt) (world downStore t0))
      as (resp & w' & Hrun & _ & Hthrown & _).
    assert (Hf : fst (watched GET_submissions (asAlice tt [] tt)
                        (observing (world downStore t0)))
                 = Ok (status_json 500 (message "Authentication error")))
      by (vm_compute; reflexivity).
    assert (Hl : mon_faults (w_store (snd (watched GET_submissions (asAlice tt [] tt)
                                             (observing (world downStore t0)))))
                 = [Thrown connectionRefused])
      by (vm_compute; reflexivity).
    split; [exact Hf|]. split; [exact Hl|].
    unfold watched in Hf, Hl. rewrite Hrun in Hf, Hl. cbn [fst snd] in Hf, Hl.
    injection Hf as ->. rewrite Hl in Hthrown.
    destruct (Hthrown connectionRefused (or_introl eq_refl)) as [[Hr _]|[[Hz _]|Hin]];
      [discriminate Hr|discriminate Hz|exact Hin].
  - destruct (Hc9 POST_leadership_values
                (asAlice tt [] (JObj [("value", JStr "Candour");
                                      ("description", JStr "Say it")]))
                (world aliceReadOnlyStore t0))
      as (resp & w' & Hrun & _ & Hthrown & _).
    assert (Hf : fst (watched POST_leadership_values
                        (asAlice tt [] (JObj [("value", JStr "Candour");
                                              ("description", JStr "Say it")]))
                        (observing (world aliceReadOnlyStore t0)))
                 = Ok (status_json 500
                         (message "An error occurred while creating the leadership value")))
      by (vm_compute; reflexivity).
    assert (Hl : mon_faults (w_store (snd (watched POST_leadership_values
                                             (asAlice tt []
                                                (JObj [("value", JStr "Candour");
                                                       ("description", JStr "Say it")]))
                                             (observing (world aliceReadOnlyStore t0)))))
                 = [Thrown diskFull])
      by (vm_compute; reflexivity).
    split; [exact Hf|]. split; [exact Hl|].
    unfold watched in Hf, Hl. rewrite Hrun in Hf, Hl. cbn [fst snd] in Hf, Hl.
    injection Hf as ->. rewrite Hl in Hthrown.
    destruct (Hthrown diskFull (or_introl eq_refl)) as [[Hr _]|[[Hz _]|Hin]];
      [discriminate Hr|discriminate Hz|exact Hin].
  - destruct (Hc9 POST_login
                (request None tt [] (mkCredentials (Some "alice") (Some "correct horse")))
                (world downStore t0))
      as (resp & w' & Hrun & _ & Hthrown & _).
    assert (Hf : fst (watched POST_login
                        (request None tt []
                           (mkCredentials (Some "alice") (Some "correct horse")))
                        (observing (world downStore t0)))
                 = Ok (status_json 401 (message "Invalid credentials")))
      by (vm_compute; reflexivity).
    assert (Hl : mon_faults (w_store (snd (watched POST_login
                                             (request None tt []
                                                (mkCredentials (Some "alice")
                                                   (Some "correct horse")))
                                             (observing (world downStore t0)))))
                 = [Thrown connectionRefused])
      by (vm_compute; reflexivity).
    split; [exact Hf|]. split; [exact Hl|].
    unfold watched in Hf, Hl. rewrite Hrun in Hf, Hl. cbn [fst snd] in Hf, Hl.
    injection Hf as ->. rewrite Hl in Hthrown.
    destruct (Hthrown connectionRefused (or_introl eq_refl)) as [[Hr _]|[[Hz _]|Hin]];
      [discriminate Hr|discriminate Hz|exact Hin].
  - destruct (Hc9 GET_health (request None tt [] tt) (world downStore t0))
      as (resp & w' & Hrun & _ & Hthrown & _).
    assert (Hl : mon_faults (w_store (snd (watched GET_health (request None tt [] tt)
                                             (observing (world downStore t0)))))
                 = [Thrown connectionRefused])
      by (vm_compute; reflexivity).
    split; [exact Hl|].
    unfold watched in *. rewrite Hrun in Hl |- *. cbn [fst snd] in Hl |- *.
    rewrite Hl in Hthrown.
    destruct (Hthrown connectionRefused (or_introl eq_refl)) as [[_ Hr]|[[Hz _]|Hin]];
      [now rewrite Hr|discriminate Hz|destruct Hin].
  - destruct (Hc9 POST_send_pdf_email pdfRequest (world mailFailingStore t0))
      as (resp & w' & Hrun & _ & _ & Hreported).
    assert (Hl : mon_faults (w_store (snd (watched POST_send_pdf_email pdfRequest
                                             (observing (world mailFailingStore t0)))))
                 = [Reported (Some (JStr "Invalid API key sk_live_4f2a"))])
      by (vm_compute; reflexivity).
    split; [exact Hl|].
    unfold watched in *. rewrite Hrun in Hl |- *. cbn [fst snd] in Hl |- *.
    rewrite Hl in Hreported.
    destruct (Hreported (Some (JStr "Invalid API key sk_live_4f2a")) (or_introl eq_refl))
      as [_ Hr].
    now rewrite Hr.
  - destruct (Hc9 POST_submissions (request None tt [] annBody) (world invalidRowStore t0))
      as (resp & w' & Hrun & _ & Hthrown & _).
    assert (Hl : mon_faults (w_store (snd (watched POST_submissions
                                             (request None tt [] annBody)
                                             (observing (world invalidRowStore t0)))))
                 = [Thrown rowInvalid])
      by (vm_compute; reflexivity).
    split; [exact Hl|].
    unfold watched in *. rewrite Hrun in Hl |- *. cbn [fst snd] in Hl |- *.
    rewrite Hl in Hthrown. exists resp. split; [reflexivity|].
    destruct (Hthrown rowInvalid (or_introl eq_refl)) as [[Hr _]|[[_ Hz]|Hin]];
      [discriminate Hr|exact Hz|].
    exfalso. cbn in Hin. destruct Hin as [Hin|[]].
    assert (Hf : fst (registerRoutes (storage := MonitoredStorage (storage := MemStorage))
                        (mailer := MonitoredMailer (mailer := MemMailer))
                        (crypto := RefCrypto) (jws := RefJws) (platform := platform)
                        POST_submissions (request None tt [] annBody)
                        (observing (world invalidRowStore t0)))
                 = Ok (status_json 400
                         (JObj [("message", JStr "Invalid submission data");
                                ("errors",
                                 JStr "Validation error: Expected array, received string at coreValues")])))
      by (vm_compute; reflexivity).
    rewrite Hrun in Hf. cbn [fst] in Hf. rewrite <- Hin in Hf. discriminate Hf.
Defined.

(** C10 on the two submissions of the specification's example: with
    [companyCode=all] alice gets both, ann of company acme and bob of
    company beta, in [submissions_all.csv]. *)
Lemma export_all_is_unfiltered_witness :
  authenticateToken (storage := MemStorage) (jws := RefJws) (platform := platform)
    (asAlice tt [("companyCode", "all")] tt) surveyWorld
  = (Ok (Next (attached (asAlice tt [("companyCode", "all")] tt) alice)), surveyWorld) /\
  getAllSubmissions (IStorage := MemStorage) (w_store surveyWorld)
  = (Ok [ann; bob], surveyStore) /\
  exists resp resp0 w',
    route GET_submissions_export (asAlice tt [("companyCode", "all")] tt) surveyWorld
    = (Ok resp, w') /\
    route GET_submissions_export (asAlice tt [] tt) surveyWorld = (Ok resp0, w') /\
    res_status resp = res_status resp0 /\
    res_body resp = res_body resp0 /\
    resp = csvResponse (platform := platform) "submissions_all.csv" [ann; bob] /\
    resp0 = csvResponse (platform := platform) "submissions.csv" [ann; bob] /\
    w' = set_store surveyWorld surveyStore /\
    res_status resp = 200%Z /\
    res_body resp
    = BText (csvHeader
             ++ Js.join newline (map (csvRow (platform := platform)) [ann; bob])).
Proof.
  assert (Hauth : authenticateToken (storage := MemStorage) (jws := RefJws)
                    (platform := platform)
                    (asAlice tt [("companyCode", "all")] tt) surveyWorld
                  = (Ok (Next (attached (asAlice tt [("companyCode", "all")] tt) alice)),
                     surveyWorld))
    by (vm_compute; reflexivity).
  assert (Hall : getAllSubmissions (IStorage := MemStorage) (w_store surveyWorld)
                 = (Ok [ann; bob], surveyStore))
    by (vm_compute; reflexivity).
  split; [exact Hauth|]. split; [exact Hall|].
  destruct (export_all_is_unfiltered (storage := MemStorage) (mailer := MemMailer)
              (crypto := RefCrypto) (jws := RefJws) (platform := platform)
              (asAlice tt [("companyCode", "all")] tt) (asAlice tt [] tt) surveyWorld
              eq_refl eq_refl eq_refl)
    as (resp & resp0 & w' & H1 & H2 & H3 & H4 & Hexport & _).
  destruct (Hexport _ _ _ _ Hauth Hall) as (H5 & H6 & H7 & H8 & H9).
  exists resp, resp0, w'. repeat (split; [assumption|]). assumption.
Defined.

End Runs.

(* ================================================================== *)
(** ** Further runs: the server *)
(* ================================================================== *)

Section ServerRuns.

Import Ref.

(** X1 on a password hashed in an empty world, compared with itself and
    with another password. *)
Lemma hashed_password_verifies_witness :
  exists cred w',
    hashPassword (St := MemState) (crypto := RefCrypto) "correct horse" (world emptyStore t0)
    = (Ok cred, w')
    /\ compare "correct horse" cred w' = (Ok true, w')
    /\ compare "wrong password" cred w' = (Ok false, w').
Proof.
  destruct (hashed_password_verifies (St := MemState) (crypto := RefCrypto)
              "correct horse" (world emptyStore t0))
    as (cred & w' & Hhash & _ & _ & _ & Hsame & Hother).
  exists cred, w'. split; [exact Hhash|]. split; [exact Hsame|].
  apply Hother; [vm_compute; reflexivity|vm_compute; discriminate].
Defined.

(** X15 on ann's submission: stored, refused by a store that refuses
    writes, and refused as invalid by a store that throws a
    [ZodError]. *)
Lemma post_submission_outcomes_witness :
  fst (route POST_submissions (request None tt [] annBody) surveyWorld)
  = Ok (status_json 201
          (JObj [("message", JStr "Submission recorded successfully");
                 ("data",
                  json_of_submission (platform := platform)
                    (mkSubmission 6 "Ann" "ann@example.org" (Some "acme")
                       (CvArray ["Integrity"; "Courage"]) 1700000400000))]))
  /\ route POST_submissions (request None tt [] annBody) (world readOnlyStore t0)
     = (Ok (status_json 500 (message "An error occurred while processing your submission")),
        logged (world readOnlyStore t0) "Error handling submission:" diskFull)
  /\ route POST_submissions (request None tt [] annBody) (world invalidRowStore t0)
     = (Ok (status_json 400
              (JObj [("message", JStr "Invalid submission data");
                     ("errors",
                      JStr (fromZodError (Platform := platform) rowInvalid))])),
        world invalidRowStore t0).
Proof.
  split; [|split].
  - destruct (post_submission_outcomes (storage := MemStorage) (platform := platform)
                (request (P := unit) None tt [] annBody) surveyWorld) as [Hstored _].
    assert (Hrun := Hstored
               (mkInsertSubmission "Ann" "ann@example.org" (Some "acme")
                  ["Integrity"; "Courage"])
               (mkSubmission 6 "Ann" "ann@example.org" (Some "acme")
                  (CvArray ["Integrity"; "Courage"]) 1700000400000)
               (snd (createSubmission (IStorage := MemStorage)
                       (mkInsertSubmission "Ann" "ann@example.org" (Some "acme")
                          ["Integrity"; "Courage"])
                       surveyStore))
               eq_refl eq_refl).
    exact (f_equal fst Hrun).
  - destruct (post_submission_outcomes (storage := MemStorage) (platform := platform)
                (request (P := unit) None tt [] annBody) (world readOnlyStore t0))
      as [_ Hthrown].
    apply (Hthrown diskFull (world readOnlyStore t0)).
    right. eexists. exists readOnlyStore. repeat split; vm_compute; reflexivity.
  - destruct (post_submission_outcomes (storage := MemStorage) (platform := platform)
                (request (P := unit) None tt [] annBody) (world invalidRowStore t0))
      as [_ Hthrown].
    apply (Hthrown rowInvalid (world invalidRowStore t0)).
    right. eexists. exists invalidRowStore. repeat split; vm_compute; reflexivity.
Defined.


(** X2 on trent, whose stored key has two bytes. *)
Lemma unequal_key_length_throws_witness :
  compare "correct horse" "abcd.0011" (world truncatedStore t0)
  = (Throw ERR_CRYPTO_TIMING_SAFE_EQUAL_LENGTH, world truncatedStore t0)
  /\ login "trent" "correct horse" (world truncatedStore t0)
     = (Ok None,
        logged (world truncatedStore t0) "Login error:" ERR_CRYPTO_TIMING_SAFE_EQUAL_LENGTH).
Proof.
  destruct (unequal_key_length_throws (storage := MemStorage) (crypto := RefCrypto)
              (jws := RefJws) (platform := platform)
              "correct horse" "abcd.0011" "0011" (world truncatedStore t0))
    as [Hcompare Hlogin]; [reflexivity|vm_compute; discriminate|].
  split; [exact Hcompare|].
  apply (Hlogin "trent" trent truncatedStore); reflexivity.
Defined.

(** X3 on alice, registering a second time with another password. *)
Lemma register_twice_rejected_witness :
  exists tok w1,
    register "alice" "correct horse" (world emptyStore t0) = (Ok (Some (alice, tok)), w1)
    /\ w_store w1 = aliceStore
    /\ register "alice" "another password" aliceWorld = (Ok None, aliceWorld)
    /\ route POST_register
         (request None tt [] (mkCredentials (Some "alice") (Some "another password")))
         aliceWorld
       = (Ok (status_json 400 (message "Username already exists")), aliceWorld).
Proof.
  destruct (register_twice_rejected (storage := MemStorage) (crypto := RefCrypto)
              (jws := RefJws) (platform := platform)
              (world emptyStore t0) "alice" "correct horse" emptyStore aliceStore aliceStore
              alice)
    as (tok & w1 & Hfirst & Hstore & Hsecond); try (vm_compute; reflexivity).
  exists tok, w1. split; [exact Hfirst|]. split; [exact Hstore|].
  destruct (Hsecond "another password" aliceWorld eq_refl) as [Hnull Hroute].
  split; [exact Hnull|].
  apply (Hroute unit
           (request None tt [] (mkCredentials (Some "alice") (Some "another password"))));
    reflexivity.
Defined.

(** X4 on alice's token. *)
Lemma verifyToken_accepts_only_signed_witness :
  verify aliceToken (world emptyStore t0) = (Ok (Some aliceClaims), world emptyStore t0)
  /\ exists h p s alg,
       Js.split "." aliceToken = [h; p; s]
       /\ decodeHeader (Jws := RefJws) h = Some alg /\ isHmacAlg alg = true
       /\ decodeClaims (Jws := RefJws) p = Some aliceClaims
       /\ s = hmac (Jws := RefJws) alg (JWT_SECRET (platform := platform)) (h ++ "." ++ p)
       /\ (forall e, exp aliceClaims = Some e -> (t0 / 1000 < e)%Z).
Proof.
  assert (Hverified : verify aliceToken (world emptyStore t0)
                      = (Ok (Some aliceClaims), world emptyStore t0))
    by (vm_compute; reflexivity).
  split; [exact Hverified|].
  apply (proj2 (verifyToken_accepts_only_signed (St := MemState) (jws := RefJws)
                  (platform := platform) aliceToken (world emptyStore t0)
                  (world emptyStore t0) aliceClaims Hverified)).
Defined.

(** X5 on a token for alice: accepted in the last millisecond of its
    seven days, refused in the next. *)
Lemma token_lifetime_is_seven_days_witness :
  exists tok,
    generateToken (jws := RefJws) (platform := platform) alice (world emptyStore t0)
    = (Ok tok, world emptyStore t0)
    /\ verify tok (world emptyStore (t0 + 604799999))
       = (Ok (Some aliceClaims), world emptyStore (t0 + 604799999))
    /\ verify tok (world emptyStore (t0 + 604800000))
       = (Ok None, world emptyStore (t0 + 604800000)).
Proof.
  destruct (token_lifetime_is_seven_days (St := MemState) (laws := ref_jws_laws)
              (platform := platform) alice (world emptyStore t0))
    as (tok & Hissued & Hverify).
  exists tok. split; [exact Hissued|]. split.
  - exact (Hverify (world emptyStore (t0 + 604799999))).
  - exact (Hverify (world emptyStore (t0 + 604800000))).
Defined.

(** X6 on alice's token behind the word [Token]. *)
Lemma authenticateToken_ignores_scheme_witness :
  bearerToken (Some ("Token" ++ " " ++ aliceToken)) = Some aliceToken
  /\ decision (fst (authenticateToken (storage := MemStorage) (jws := RefJws)
                      (platform := platform)
                      (with_authorization (request None tt [] tt)
                         (Some ("Token" ++ " " ++ aliceToken)))
                      surveyWorld))
     = Ok (inr (Some alice))
  /\ decision (fst (authenticateToken (storage := MemStorage) (jws := RefJws)
                      (platform := platform)
                      (with_authorization (request None tt [] tt)
                         (Some ("Bearer " ++ aliceToken)))
                      surveyWorld))
     = Ok (inr (Some alice)).
Proof.
  destruct (authenticateToken_ignores_scheme (storage := MemStorage) (jws := RefJws)
              (platform := platform) "Token" aliceToken
              (request (P := unit) (B := unit) None tt [] tt) surveyWorld)
    as (Htoken & Hsame & _); [reflexivity|vm_compute; reflexivity|].
  split; [exact Htoken|].
  assert (Hbearer : decision (fst (authenticateToken (storage := MemStorage) (jws := RefJws)
                                     (platform := platform)
                                     (with_authorization (request None tt [] tt)
                                        (Some ("Bearer " ++ aliceToken)))
                                     surveyWorld))
                    = Ok (inr (Some alice)))
    by (vm_compute; reflexivity).
  split; [|exact Hbearer]. rewrite Hsame. exact Hbearer.
Defined.

(** X9 on [GET /api/submissions]: no header, a header that is the word
    [Bearer] alone, and an empty header. *)
Lemma protected_routes_need_token_witness :
  route GET_submissions (request None tt [] tt) surveyWorld
  = (Ok (status_json 401 (message "Access token required")), surveyWorld)
  /\ route GET_submissions (request (Some "Bearer") tt [] tt) surveyWorld
     = (Ok (status_json 401 (message "Access token required")), surveyWorld)
  /\ route GET_submissions (request (Some "") tt [] tt) surveyWorld
     = (Ok (status_json 401 (message "Access token required")), surveyWorld).
Proof.
  split; [|split];
    apply (protected_routes_need_token (storage := MemStorage) (mailer := MemMailer)
             (crypto := RefCrypto) (jws := RefJws) (platform := platform)
             GET_submissions);
    reflexivity.
Defined.

(** X10 on [POST /api/submissions] with a garbage token. *)
Lemma public_routes_ignore_authorization_witness :
  route POST_submissions
    (with_authorization (request None tt [] annBody) (Some "Bearer garbage"))
    surveyWorld
  = route POST_submissions (request None tt [] annBody) surveyWorld.
Proof.
  apply (public_routes_ignore_authorization (storage := MemStorage) (mailer := MemMailer)
           (crypto := RefCrypto) (jws := RefJws) (platform := platform)
           POST_submissions (request None tt [] annBody) (Some "Bearer garbage")
           surveyWorld).
  reflexivity.
Defined.

(** X11 on a login without password and a registration with an empty
    username. *)
Lemma credentials_required_witness :
  route POST_login (request None tt [] (mkCredentials (Some "alice") None)) aliceWorld
  = (Ok (status_json 400 (message "Username and password are required")), aliceWorld)
  /\ route POST_register
       (request None tt [] (mkCredentials (Some "") (Some "correct horse"))) aliceWorld
     = (Ok (status_json 400 (message "Username and password are required")), aliceWorld).
Proof.
  split.
  - apply (proj1 (credentials_required (storage := MemStorage)
                    (crypto := RefCrypto) (jws := RefJws) (platform := platform)
                    (request (P := unit) None tt [] (mkCredentials (Some "alice") None))
                    aliceWorld eq_refl)).
  - apply (proj2 (credentials_required (storage := MemStorage)
                    (crypto := RefCrypto) (jws := RefJws) (platform := platform)
                    (request (P := unit) None tt []
                       (mkCredentials (Some "") (Some "correct horse")))
                    aliceWorld eq_refl)).
Defined.

(** X12 on alice: she registers through the route and asks who she
    is. *)
Lemma register_then_whoami_witness :
  exists tok w1,
    route POST_register
      (request None tt [] (mkCredentials (Some "alice") (Some "correct horse")))
      (world emptyStore t0)
    = (Ok (status_json 201 (authBody (alice, tok))), w1)
    /\ w_store w1 = aliceStore
    /\ tok = aliceToken
    /\ route GET_user (request (Some ("Bearer " ++ tok)) tt [] tt) aliceWorld
       = (Ok (res_json (json_of_user alice)), aliceWorld).
Proof.
  destruct (register_then_whoami (storage := MemStorage) (mailer := MemMailer)
              (crypto := RefCrypto) (laws := ref_jws_laws) (platform := platform)
              (request (P := unit) None tt []
                 (mkCredentials (Some "alice") (Some "correct horse")))
              (world emptyStore t0) "alice" "correct horse" emptyStore aliceStore aliceStore
              alice)
    as (tok & w1 & Hregister & Hstore & Hwhoami); try (vm_compute; reflexivity).
  assert (Htok : tok = aliceToken).
  { assert (Hrun : postRegister (storage := MemStorage) (crypto := RefCrypto)
                     (jws := RefJws) (platform := platform)
                     (request (P := unit) None tt []
                        (mkCredentials (Some "alice") (Some "correct horse")))
                     (world emptyStore t0)
                   = (Ok (status_json 201 (authBody (alice, aliceToken))), aliceWorld))
      by (vm_compute; reflexivity).
    rewrite Hrun in Hregister. now injection Hregister. }
  exists tok, w1. split; [exact Hregister|]. split; [exact Hstore|].
  split; [exact Htok|].
  apply Hwhoami; [rewrite Htok; vm_compute; reflexivity|reflexivity|reflexivity|].
  vm_compute. reflexivity.
Defined.

(** X13 on the value 5 of the survey store: a body the schema refuses,
    and a body it accepts. *)
Lemma put_validates_after_lookup_witness :
  fst (route PUT_leadership_value (asAlice (mkIdParams "5") [] (JObj [])) surveyWorld)
  = Ok (status_json 400
          (JObj [("message", JStr "Invalid leadership value data");
                 ("errors", JStr "Validation error: Required")]))
  /\ snd (route PUT_leadership_value (asAlice (mkIdParams "5") [] (JObj [])) surveyWorld)
     = surveyWorld
  /\ fst (route PUT_leadership_value (asAlice (mkIdParams "5") [] candourBody) surveyWorld)
     = Ok (res_json
             (JObj [("message", JStr "Leadership value updated successfully");
                    ("data",
                     json_of_leadershipValue (mkLeadershipValue 5 "Candour" "Say it"))])).
Proof.
  destruct (put_validates_after_lookup (storage := MemStorage) (mailer := MemMailer)
              (crypto := RefCrypto) (jws := RefJws) (platform := platform)
              (asAlice (mkIdParams "5") [] (JObj []))
              (attached (asAlice (mkIdParams "5") [] (JObj [])) alice)
              surveyWorld surveyWorld 5%Z courage surveyStore)
    as (Hrefused & _ & _); try (vm_compute; reflexivity).
  destruct (put_validates_after_lookup (storage := MemStorage) (mailer := MemMailer)
              (crypto := RefCrypto) (jws := RefJws) (platform := platform)
              (asAlice (mkIdParams "5") [] candourBody)
              (attached (asAlice (mkIdParams "5") [] candourBody) alice)
              surveyWorld surveyWorld 5%Z courage surveyStore)
    as (_ & Haccepted & _); try (vm_compute; reflexivity).
  unfold route. rewrite (Hrefused "Required" eq_refl).
  rewrite (Haccepted (mkInsertLeadershipValue "Candour" "Say it")
             (Some (mkLeadershipValue 5 "Candour" "Say it"))
             (snd (updateLeadershipValue (IStorage := MemStorage) 5
                     (mkInsertLeadershipValue "Candour" "Say it") surveyStore)))
    by (vm_compute; reflexivity).
  repeat split.
Defined.

(** X14 on the value 5 of the survey store. *)
Lemma existing_value_get_and_delete_witness :
  fst (route GET_leadership_value (asAlice (mkIdParams "5") [] tt) surveyWorld)
  = Ok (res_json (json_of_leadershipValue courage))
  /\ fst (route DELETE_leadership_value (asAlice (mkIdParams "5") [] tt) surveyWorld)
     = Ok (res_json (message "Leadership value deleted successfully"))
  /\ getLeadershipValueById (IStorage := MemStorage) 5
       (w_store (snd (route DELETE_leadership_value (asAlice (mkIdParams "5") [] tt)
                        surveyWorld)))
     = (Ok None,
        w_store (snd (route DELETE_leadership_value (asAlice (mkIdParams "5") [] tt)
                        surveyWorld))).
Proof.
  destruct (existing_value_get_and_delete (storage := MemStorage) (mailer := MemMailer)
              (crypto := RefCrypto) (jws := RefJws) (platform := platform)
              (asAlice (mkIdParams "5") [] tt)
              (attached (asAlice (mkIdParams "5") [] tt) alice)
              surveyWorld surveyWorld 5%Z courage surveyStore)
    as (Hget & Hdelete & _); try (vm_compute; reflexivity).
  unfold route. rewrite Hget.
  rewrite (Hdelete (snd (deleteLeadershipValue (IStorage := MemStorage) 5 surveyStore)))
    by (vm_compute; reflexivity).
  repeat split.
Defined.

(** X17 on ann's row. *)
Lemma csv_row_fields_recoverable_witness :
  exists a b c d e,
    csvFields (platform := platform) ann = [a; b; c; d; e]
    /\ Js.split dquoteChar (csvRow (platform := platform) ann)
       = [EmptyString; a; ","; b; ","; c; ","; d; ","; e; EmptyString].
Proof.
  apply (csv_row_fields_recoverable (platform := platform) ann).
  repeat (constructor; [reflexivity|]). constructor.
Defined.

End ServerRuns.

(* ================================================================== *)
(** ** Further runs: the client *)
(* ================================================================== *)

Section ClientRuns.

Import Ref.

(** X19 on a browser that holds alice's token: the request goes to the
    API server with her token, and the server's [GET /api/user] answers
    such a request with her record. *)
Lemma stored_token_reaches_middleware_witness :
  sn_sent (b_net (w_store (snd (apiRequest (net := ScriptedFetch) (env := RefClientEnv)
                                  "GET" "/api/submissions" None
                                  (browser (Some aliceToken) [])))))
  = [("https://api.example.org/api/submissions",
      mkFetchInit (Some "GET") [("Authorization", "Bearer " ++ aliceToken)] None)]
  /\ bearerToken
       (lookup "Authorization"
          (fi_headers (requestInit (env := RefClientEnv) (Some "GET") None
                         (browser (Some aliceToken) []))))
     = Some aliceToken
  /\ whoami (received (requestInit (env := RefClientEnv) (Some "GET") None
                         (browser (Some aliceToken) [])) tt [] tt) surveyWorld
     = (Ok (res_json (json_of_user alice)), surveyWorld).
Proof.
  destruct (stored_token_reaches_middleware (net := ScriptedFetch) (env := RefClientEnv)
              "GET" "/api/submissions" "/api/user" [] None returnNull
              (browser (Some aliceToken) []) aliceToken)
    as (Hsent & _ & Hheader); [reflexivity|vm_compute; reflexivity|vm_compute; reflexivity|].
  split; [rewrite Hsent; vm_compute; reflexivity|].
  split; [exact (proj2 (Hheader (Some "GET")))|].
  vm_compute. reflexivity.
Defined.

(** X20 on a browser without token, asking for the submissions. *)
Lemma request_without_token_is_refused_witness :
  lookup "Authorization"
    (fi_headers (requestInit (env := RefClientEnv) (Some "GET") None (browser None [])))
  = None
  /\ authenticateToken (storage := MemStorage) (jws := RefJws) (platform := platform)
       (received (requestInit (env := RefClientEnv) (Some "GET") None (browser None []))
          tt [] tt)
       surveyWorld
     = (Ok (Respond (status_json 401 (message "Access token required"))), surveyWorld).
Proof.
  apply (request_without_token_is_refused (Net := ScriptedNet) (env := RefClientEnv)
           (storage := MemStorage) (jws := RefJws) (platform := platform)
           (Some "GET") None (browser None []) tt [] tt surveyWorld).
  reflexivity.
Defined.

(** X22 on a browser with a stale token, answered 401. *)
Lemma getQueryFn_unauthorized_witness :
  fst (getQueryFn (net := ScriptedFetch) (env := RefClientEnv) returnNull ["/api/user"]
         (browser (Some "stale")
            [answered 401 "Unauthorized" (message "Access token required")]))
  = Ok JNull
  /\ exists e,
       fst (getQueryFn (net := ScriptedFetch) (env := RefClientEnv) throwOn401 ["/api/user"]
              (browser (Some "stale")
                 [answered 401 "Unauthorized" (message "Access token required")]))
       = Throw e.
Proof.
  destruct (getQueryFn_unauthorized (net := ScriptedFetch) (env := RefClientEnv)
              "/api/user" []
              (browser (Some "stale")
                 [answered 401 "Unauthorized" (message "Access token required")])
              (mkFetchResponse 401 "Unauthorized"
                 (Ok (stringify (message "Access token required")))
                 (Ok (message "Access token required"))))
    as (H401 & _); [reflexivity|].
  exact (H401 eq_refl).
Defined.

(** X24 on alice logging in to a server that answers as
    [POST /api/login] does. *)
Lemma accepted_credentials_store_session_witness :
  exists w',
    loginMutation (net := ScriptedFetch) (env := RefClientEnv) aliceCredentials
      (browser None [answered 200 "OK" (authBody (alice, aliceToken))])
    = (Ok tt, w')
    /\ storedToken w' = Some aliceToken
    /\ cachedUser w' = Some (json_of_user alice)
    /\ userQueryEnabled (w_store w') = true
    /\ b_toasts (w_store w')
       = [mkToast "Login successful" "You are now logged in to the admin portal." None].
Proof.
  destruct (accepted_credentials_store_session (net := ScriptedFetch) (env := RefClientEnv)
              false aliceCredentials
              (browser None [answered 200 "OK" (authBody (alice, aliceToken))])
              (mkFetchResponse 200 "OK" (Ok (stringify (authBody (alice, aliceToken))))
                 (Ok (authBody (alice, aliceToken))))
              alice aliceToken)
    as (w' & Hrun & Htoken & Huser & Henabled & _); try reflexivity.
  exists w'. split; [exact Hrun|]. split; [exact Htoken|]. split; [exact Huser|].
  split; [rewrite Henabled; vm_compute; reflexivity|].
  assert (Hc : snd (loginMutation (net := ScriptedFetch) (env := RefClientEnv)
                      aliceCredentials
                      (browser None [answered 200 "OK" (authBody (alice, aliceToken))]))
               = w')
    by (unfold credentialsMutation in Hrun; now rewrite Hrun).
  rewrite <- Hc. vm_compute. reflexivity.
Defined.

(** X26 on an answer that holds a user and no token. *)
Lemma answer_without_token_witness :
  exists w',
    loginMutation (net := ScriptedFetch) (env := RefClientEnv) aliceCredentials
      (browser None [answered 200 "OK" (JObj [("user", json_of_user alice)])])
    = (Ok tt, w')
    /\ storedToken w' = Some "undefined"
    /\ userQueryEnabled (w_store w') = true
    /\ lookup "Authorization"
         (fi_headers (requestInit (env := RefClientEnv) (Some "GET") None w'))
       = Some "Bearer undefined".
Proof.
  destruct (answer_without_token (net := ScriptedFetch) (env := RefClientEnv)
              false aliceCredentials
              (browser None [answered 200 "OK" (JObj [("user", json_of_user alice)])])
              (mkFetchResponse 200 "OK"
                 (Ok (stringify (JObj [("user", json_of_user alice)])))
                 (Ok (JObj [("user", json_of_user alice)])))
              (JObj [("user", json_of_user alice)]))
    as (Hmissing & _); try reflexivity.
  destruct (Hmissing eq_refl) as (w' & Hrun & Htoken & Henabled & Hheader).
  exists w'. split; [exact Hrun|]. split; [exact Htoken|]. split; [exact Henabled|].
  apply Hheader.
Defined.

(** X21 on a server answering 500 with a body, and 404 without. *)
Lemma apiRequest_returns_only_ok_witness :
  fst (apiRequest (net := ScriptedFetch) (env := RefClientEnv) "GET" "/api/submissions" None
         (browser None [answered 500 "Internal Server Error" (message "boom")]))
  = Throw (ErrorObject PlainError ("500: " ++ stringify (message "boom")))
  /\ fst (apiRequest (net := ScriptedFetch) (env := RefClientEnv) "GET" "/api/nothing" None
            (browser None [Ok (mkFetchResponse 404 "Not Found" (Ok "") (Ok JNull))]))
     = Throw (ErrorObject PlainError "404: Not Found")
  /\ fst (apiRequest (net := ScriptedFetch) (env := RefClientEnv) "GET" "/api/submissions" None
            (browser None []))
     = Throw networkError.
Proof.
  split; [|split].
  - destruct (apiRequest_returns_only_ok (net := ScriptedFetch) (env := RefClientEnv)
                "GET" "/api/submissions" None
                (browser None [answered 500 "Internal Server Error" (message "boom")]))
      as (_ & Hstatus & _).
    rewrite (Hstatus (mkFetchResponse 500 "Internal Server Error"
                        (Ok (stringify (message "boom"))) (Ok (message "boom"))))
      by reflexivity.
    reflexivity.
  - destruct (apiRequest_returns_only_ok (net := ScriptedFetch) (env := RefClientEnv)
                "GET" "/api/nothing" None
                (browser None [Ok (mkFetchResponse 404 "Not Found" (Ok "") (Ok JNull))]))
      as (_ & Hstatus & _).
    rewrite (Hstatus (mkFetchResponse 404 "Not Found" (Ok "") (Ok JNull))) by reflexivity.
    reflexivity.
  - destruct (apiRequest_returns_only_ok (net := ScriptedFetch) (env := RefClientEnv)
                "GET" "/api/submissions" None (browser None []))
      as (_ & _ & Hnetwork).
    apply Hnetwork. reflexivity.
Defined.

(** X23 on a browser that holds alice's token while the network is
    down. *)
Lemma logout_always_clears_session_witness :
  exists w',
    logoutMutation (net := ScriptedFetch) (env := RefClientEnv) (browser (Some aliceToken) [])
    = (Ok tt, w')
    /\ storedToken w' = None
    /\ cachedUser w' = Some JNull
    /\ b_toasts (w_store w') = [loggedOutToast]
    /\ sn_sent (b_net (w_store w'))
       = [("https://api.example.org/api/logout", mkFetchInit (Some "POST") [] None)].
Proof.
  destruct (logout_always_clears_session (net := ScriptedFetch) (env := RefClientEnv)
              (browser (Some aliceToken) []))
    as (w' & Hrun & Htoken & Huser & Htoasts & _ & Hnet).
  exists w'. repeat (split; [assumption|]). rewrite Hnet. reflexivity.
Defined.

(** X25 on a login the server refuses as [POST /api/login] does, and on
    a login while the network is down. *)
Lemma refused_credentials_keep_session_witness :
  (exists w',
     loginMutation (net := ScriptedFetch) (env := RefClientEnv) aliceCredentials
       (browser None [answered 401 "Unauthorized" (message "Invalid credentials")])
     = (Ok tt, w')
     /\ storedToken w' = None
     /\ cachedUser w' = None
     /\ b_toasts (w_store w')
        = [mkToast "Login failed" "Please check your credentials and try again."
             (Some "destructive")])
  /\
  (exists w',
     loginMutation (net := ScriptedFetch) (env := RefClientEnv) aliceCredentials
       (browser None [])
     = (Ok tt, w')
     /\ storedToken w' = None
     /\ b_toasts (w_store w')
        = [mkToast "Login failed" "Failed to fetch" (Some "destructive")]).
Proof.
  split.
  - destruct (refused_credentials_keep_session (net := ScriptedFetch) (env := RefClientEnv)
                false aliceCredentials
                (browser None [answered 401 "Unauthorized" (message "Invalid credentials")]))
      as [Hrefused _].
    destruct (Hrefused (mkFetchResponse 401 "Unauthorized"
                          (Ok (stringify (message "Invalid credentials")))
                          (Ok (message "Invalid credentials")))
                (stringify (message "Invalid credentials")))
      as (w' & Hrun & Htoken & Huser & Htoasts & _); try reflexivity.
    exists w'. split; [exact Hrun|]. split; [exact Htoken|]. split; [exact Huser|].
    rewrite Htoasts. vm_compute. reflexivity.
  - destruct (refused_credentials_keep_session (net := ScriptedFetch) (env := RefClientEnv)
                false aliceCredentials (browser None []))
      as [_ Hfailed].
    destruct (Hfailed networkError) as (w' & Hrun & Htoken & _ & Htoasts);
      [reflexivity|].
    exists w'. split; [exact Hrun|]. split; [exact Htoken|].
    rewrite Htoasts. reflexivity.
Defined.

(** X30 on the export of company acme: the file is downloaded under
    the name of the code; while the network is down nothing is. *)
Lemma export_downloads_only_on_success_witness :
  (exists w',
     handleExport (net := ScriptedFetch) (env := RefClientEnv) "acme"
       (browser (Some aliceToken)
          [Ok (mkFetchResponse 200 "OK" (Ok csvHeader) (Throw networkError))])
     = (Ok tt, w')
     /\ b_downloads (w_store w') = [("submissions_acme.csv", csvHeader)]
     /\ sn_sent (b_net (w_store w'))
        = [("https://api.example.org/api/submissions/export?companyCode=acme",
            mkFetchInit (Some "GET") [("Authorization", "Bearer " ++ aliceToken)] None)])
  /\
  (exists w',
     handleExport (net := ScriptedFetch) (env := RefClientEnv) "acme"
       (browser (Some aliceToken) [])
     = (Ok tt, w')
     /\ b_downloads (w_store w') = []
     /\ w_console w' = [("Export error:", networkError)]).
Proof.
  split.
  - destruct (export_downloads_only_on_success (net := ScriptedFetch) (env := RefClientEnv)
                "acme"
                (browser (Some aliceToken)
                   [Ok (mkFetchResponse 200 "OK" (Ok csvHeader) (Throw networkError))]))
      as (w' & Hrun & _ & Hcase).
    exists w'. split; [exact Hrun|].
    split; [exact (proj1 Hcase)|].
    assert (Hw : snd (handleExport (net := ScriptedFetch) (env := RefClientEnv) "acme"
                        (browser (Some aliceToken)
                           [Ok (mkFetchResponse 200 "OK" (Ok csvHeader)
                                  (Throw networkError))]))
                 = w') by now rewrite Hrun.
    rewrite <- Hw. vm_compute. reflexivity.
  - destruct (export_downloads_only_on_success (net := ScriptedFetch) (env := RefClientEnv)
                "acme" (browser (Some aliceToken) []))
      as (w' & Hrun & _ & Hcase).
    exists w'. split; [exact Hrun|].
    destruct Hcase as (Hdownloads & _ & Hconsole).
    split; [exact Hdownloads|exact Hconsole].
Defined.

End ClientRuns.
